(** * AutoReplyAI: the review automation service, its storage layer and
      the manual check endpoint

    A shallow embedding of [server/automationService.ts],
    [server/storage.ts], [server/openai.ts] and the
    [POST /api/check-reviews] handler of [server/routes.ts].

    The TypeScript code is asynchronous: an [async] function runs
    synchronously up to its next [await], where it yields to the event
    loop.  Programs are therefore embedded as trees ([Prog]) whose nodes
    are the synchronous operations of the module (the [processingUsers]
    set, [console], [new Date()]) and the awaited external calls
    (database statements, the chat completion).  The same tree is given
    two semantics: [run] executes it to completion on its own, and the
    event loop [loop] interleaves several of them, switching only at
    [await].  Which calls reject, what the chat completion answers, which
    reviews the simulated source offers and how the clock advances is
    given by an [Oracle], over which the theorems quantify. *)

From stdpp Require Import base gmap strings list.
From Stdlib Require Import ZArith NArith Lia Ascii.


(** ** Data model ([shared/schema.ts]) *)

(** A [Date] is a number of milliseconds. *)
Abbreviation Date := N.

Module UserSettings.
Record t := mk {
  id : nat;
  userId : string;
  defaultTone : string;
  language : string;
  autoReplyEnabled : bool;
  lastCheckTime : option Date;
  createdAt : option Date;
  updatedAt : option Date }.
End UserSettings.

(** [InsertUserSettings]: the insert schema without [id], [createdAt] and
    [updatedAt].  Columns with a default may be left out ([None]); the
    nullable [lastCheckTime] is [None] when left out, [Some None] when
    [null]. *)
Module InsertUserSettings.
Record t := mk {
  userId : string;
  defaultTone : option string;
  language : option string;
  autoReplyEnabled : option bool;
  lastCheckTime : option (option Date) }.
End InsertUserSettings.

(** [Partial<InsertUserSettings>]: every key may be left out. *)
Module PartialUserSettings.
Record t := mk {
  userId : option string;
  defaultTone : option string;
  language : option string;
  autoReplyEnabled : option bool;
  lastCheckTime : option (option Date) }.
End PartialUserSettings.

Module Platform.
Record t := mk {
  id : nat;
  userId : string;
  platformName : string;
  platformId : string;
  accessToken : option string;
  refreshToken : option string;
  tokenExpiry : option Date;
  metadata : option string;
  createdAt : option Date;
  updatedAt : option Date }.
End Platform.

Module Review.
Record t := mk {
  id : nat;
  userId : string;
  platformId : option nat;
  externalReviewId : option string;
  customerName : option string;
  reviewText : string;
  starRating : Z;
  responseText : option string;
  responseTone : string;
  respondedAt : option Date;
  autoResponded : option bool;
  createdAt : option Date }.
End Review.

Module InsertReview.
Record t := mk {
  userId : string;
  platformId : option nat;
  externalReviewId : option string;
  customerName : option string;
  reviewText : string;
  starRating : Z;
  responseText : option string;
  responseTone : string;
  respondedAt : option Date;
  autoResponded : option bool }.
End InsertReview.

Module ReplyTemplate.
Record t := mk {
  id : nat;
  userId : string;
  name : string;
  content : string;
  tone : string;
  starRating : option Z;
  createdAt : option Date;
  updatedAt : option Date }.
End ReplyTemplate.

(** What [simulateNewReviews] pushes for one simulated review. *)
Module SimReview.
Record t := mk {
  customerName : string;
  reviewText : string;
  starRating : Z;
  externalReviewId : string;
  platformName : string }.
End SimReview.

(** The tables the code reads and writes, with the [serial] counters. *)
Record Database := mkDatabase {
  userSettings : list UserSettings.t;
  platforms : list Platform.t;
  reviews : list Review.t;
  replyTemplates : list ReplyTemplate.t;
  userSettingsSeq : nat;
  reviewsSeq : nat }.

(** ** Errors and results *)

Inductive Err :=
| Error (message : string)     (* [throw new Error(message)] *)
| TypeError                    (* a property read on [undefined] *)
| Rejected.                    (* an awaited external call rejected *)

Inductive Result (A : Type) :=
| Ok (a : A)
| Fail (e : Err).
Arguments Ok {A} a.
Arguments Fail {A} e.

(** ** External calls

    One constructor per awaited statement: the drizzle queries of
    [storage.ts] and [automationService.ts], and the chat completion of
    [openai.ts] (its result is [choices[0]?.message?.content]). *)
Inductive Call : Type -> Type :=
| SelectAutoReplySettings : Call (list UserSettings.t)
| SelectUserSettings (userId : string) : Call (list UserSettings.t)
| InsertUserSettingsRow (v : InsertUserSettings.t) (updatedAt : Date)
    : Call (list UserSettings.t)
| UpdateUserSettingsRows (userId : string) (v : PartialUserSettings.t)
    (updatedAt : Date) : Call (list UserSettings.t)
| SelectPlatforms (userId : string) : Call (list Platform.t)
| DeletePlatformRows (id : Z) : Call unit
| FindReviews (userId : string) (externalReviewId : string)
    : Call (list Review.t)
| InsertReviewRow (v : InsertReview.t) : Call (list Review.t)
| DeleteReplyTemplateRows (id : Z) : Call unit
| ChatCompletion (reviewText : string) (starRating : Z) (tone language : string)
    : Call (option string).

(** ** Console *)
Inductive LogEvent :=
| LogStarting                                   (* automationService.ts:39 *)
| LogStopping                                   (* :56 *)
| LogChecking                                   (* :70 *)
| LogFound (n : nat)                            (* :78 *)
| LogErrUser (userId : string) (e : Err)        (* :94 *)
| LogErrAllUsers (e : Err)                      (* :100 *)
| LogProcessing (userId : string)               (* :108 *)
| LogNoPlatforms (userId : string)              (* :115 *)
| LogNoSettings (userId : string)               (* :122 *)
| LogCheckingPlatform (platformName userId : string)   (* :131 *)
| LogExists (externalReviewId userId : string)  (* :148 *)
| LogAutoGenerated (reviewId : nat)             (* :176 *)
| LogWouldPost (platformName externalReviewId : string) (* :180 *)
| LogErrReview (e : Err)                        (* :182 *)
| LogErrPlatform (platformId : nat) (e : Err)   (* :186 *)
| LogCompleted (userId : string)                (* :195 *)
| LogErrPipeline (userId : string) (e : Err)    (* :197 *)
| LogErrOpenAI (e : Err)                        (* openai.ts catch *)
| LogErrCheck (e : Err).                        (* routes.ts:335 *)

(** ** Programs *)

Inductive Prog (A : Type) : Type :=
| Ret (a : A)
| Throw (e : Err)
| Has (userId : string) (k : bool -> Prog A)        (* processingUsers.has *)
| Add (userId : string) (k : Prog A)                (* processingUsers.add *)
| Delete (userId : string) (k : Prog A)             (* processingUsers.delete *)
| Log (ev : LogEvent) (k : Prog A)                  (* console.log / console.error *)
| NewDate (k : Date -> Prog A)                      (* new Date() *)
| Simulate (k : list SimReview.t -> Prog A)
    (* simulateNewReviews(Math.floor(Math.random() * 2)) *)
| Await {X : Type} (c : Call X) (k : Result X -> Prog A)
| Yield (k : Prog A).
    (* the continuation of an [await] on a promise that has settled *)
Arguments Ret {A} a.
Arguments Throw {A} e.
Arguments Has {A} userId k.
Arguments Add {A} userId k.
Arguments Delete {A} userId k.
Arguments Log {A} ev k.
Arguments NewDate {A} k.
Arguments Simulate {A} k.
Arguments Await {A X} c k.
Arguments Yield {A} k.

Fixpoint bind {A B} (p : Prog A) (f : A -> Prog B) : Prog B :=
  match p with
  | Ret a => f a
  | Throw e => Throw e
  | Has u k => Has u (fun b => bind (k b) f)
  | Add u k => Add u (bind k f)
  | Delete u k => Delete u (bind k f)
  | Log ev k => Log ev (bind k f)
  | NewDate k => NewDate (fun d => bind (k d) f)
  | Simulate k => Simulate (fun l => bind (k l) f)
  | Await c k => Await c (fun r => bind (k r) f)
  | Yield k => Yield (bind k f)
  end.

(** [try { p } catch (e) { h e }] *)
Fixpoint tryCatch {A} (p : Prog A) (h : Err -> Prog A) : Prog A :=
  match p with
  | Ret a => Ret a
  | Throw e => h e
  | Has u k => Has u (fun b => tryCatch (k b) h)
  | Add u k => Add u (tryCatch k h)
  | Delete u k => Delete u (tryCatch k h)
  | Log ev k => Log ev (tryCatch k h)
  | NewDate k => NewDate (fun d => tryCatch (k d) h)
  | Simulate k => Simulate (fun l => tryCatch (k l) h)
  | Await c k => Await c (fun r => tryCatch (k r) h)
  | Yield k => Yield (tryCatch k h)
  end.

(** [try { p } finally { f }] *)
Fixpoint tryFinally {A} (p : Prog A) (f : Prog unit) : Prog A :=
  match p with
  | Ret a => bind f (fun _ => Ret a)
  | Throw e => bind f (fun _ => Throw e)
  | Has u k => Has u (fun b => tryFinally (k b) f)
  | Add u k => Add u (tryFinally k f)
  | Delete u k => Delete u (tryFinally k f)
  | Log ev k => Log ev (tryFinally k f)
  | NewDate k => NewDate (fun d => tryFinally (k d) f)
  | Simulate k => Simulate (fun l => tryFinally (k l) f)
  | Await c k => Await c (fun r => tryFinally (k r) f)
  | Yield k => Yield (tryFinally k f)
  end.

Declare Scope prog_scope.
Delimit Scope prog_scope with prog.
Bind Scope prog_scope with Prog.
Notation "x <- p ;; k" := (bind p (fun x => k))
  (at level 100, p at next level, k at level 200, right associativity)
  : prog_scope.
Notation "p ;; k" := (bind p (fun _ => k))
  (at level 100, k at level 200, right associativity) : prog_scope.
Local Open Scope prog_scope.

(** [await c]: the value of a fulfilled call, or its rejection thrown. *)
Definition await {X} (c : Call X) : Prog X :=
  Await c (fun r => match r with Ok x => Ret x | Fail e => Throw e end).

(** [await p()], for an async function [p]: the call runs [p] up to its
    first [await]; when [p] is done the caller does not go on at once, it
    is resumed by the event loop, with the value or the error of [p]. *)
Definition awaitCall {A} (p : Prog A) : Prog A :=
  tryCatch (x <- p;; Yield (Ret x)) (fun e => Yield (Throw e)).

Definition has (u : string) : Prog bool := Has u Ret.
Definition add (u : string) : Prog unit := Add u (Ret tt).
Definition delete_ (u : string) : Prog unit := Delete u (Ret tt).
Definition log (ev : LogEvent) : Prog unit := Log ev (Ret tt).
Definition newDate : Prog Date := NewDate Ret.
Definition simulate : Prog (list SimReview.t) := Simulate Ret.

(** [for (const x of xs) { body x }] *)
Fixpoint forEach {X} (xs : list X) (body : X -> Prog unit) : Prog unit :=
  match xs with
  | [] => Ret tt
  | x :: rest => body x ;; forEach rest body
  end.

(** ** The response generator ([server/openai.ts]) *)

Inductive Sentiment := positive | neutral | negative.

(** The table [fallbackResponses] of the [catch] block, keyed by tone and
    sentiment; a tone outside the table has no entry. *)
Definition fallbackResponses (tone : string) (s : Sentiment) : option string :=
  if String.eqb tone "Friendly" then
    Some match s with
    | positive => "Thank you so much for your wonderful feedback! We're thrilled that you had a great experience with us. Your support means a lot to our team, and we look forward to serving you again soon!"
    | neutral => "Thanks for sharing your thoughts with us! We appreciate your feedback and will use it to improve our service. We hope to see you again and provide you with an even better experience next time!"
    | negative => "We're really sorry to hear about your experience. Thank you for letting us know, as your feedback helps us improve. We'd love a chance to make things right for you. Please reach out to us directly so we can address your concerns."
    end
  else if String.eqb tone "Professional" then
    Some match s with
    | positive => "Thank you for your positive review. We appreciate your business and your feedback regarding our services. We strive to maintain high standards and are pleased that your experience reflected this commitment. We look forward to serving you again."
    | neutral => "Thank you for your feedback. We value your input as it helps us improve our services. We have noted your comments and will consider them as we continuously work to enhance the customer experience. We appreciate your business."
    | negative => "We sincerely apologize for the inconvenience you experienced. We take all feedback seriously and would like to address your concerns. Please contact our customer service team directly so we can resolve these issues promptly and effectively."
    end
  else if String.eqb tone "Apologetic" then
    Some match s with
    | positive => "We're truly grateful for your kind review, though we always strive to do even better. Thank you for taking the time to share your positive experience. We appreciate your support and look forward to serving you again soon."
    | neutral => "Thank you for your feedback. We apologize if any aspect of your experience didn't meet your expectations. We're constantly working to improve, and your comments will help us do better. We value your business and hope to better serve you next time."
    | negative => "We deeply apologize for the disappointing experience you had. This falls well short of the standard we aim to provide. Your feedback is invaluable, and we take full responsibility. Please contact us directly so we can address your concerns and make things right."
    end
  else if String.eqb tone "Enthusiastic" then
    Some match s with
    | positive => "Wow! Thank you so much for this amazing review! We're absolutely thrilled that you had such a wonderful experience with us! Your feedback makes our day, and we can't wait to welcome you back again soon! You're awesome!"
    | neutral => "Thanks for sharing your feedback with us! We're excited to hear from you and appreciate you taking the time to let us know about your experience! We're always looking to improve, and we hope to wow you even more on your next visit!"
    | negative => "Oh no! We're so sorry to hear about your experience! This definitely isn't what we aim for, and we're eager to make things right! Please reach out to us directly - we're super committed to turning this around and earning back your trust!"
    end
  else None.

(** [let sentiment = "neutral"; if (starRating >= 4) ...; if (starRating <= 2) ...] *)
Definition sentimentOf (starRating : Z) : Sentiment :=
  let sentiment := neutral in
  let sentiment := if (4 <=? starRating)%Z then positive else sentiment in
  let sentiment := if (starRating <=? 2)%Z then negative else sentiment in
  sentiment.

Definition validTones : list string :=
  ["Friendly"; "Professional"; "Apologetic"; "Enthusiastic"].

(** [validTones.includes(tone)] *)
Definition includes (l : list string) (s : string) : bool :=
  existsb (String.eqb s) l.

Definition toneToUse (tone : string) : string :=
  if includes validTones tone then tone else "Professional".

(** *** Strings

    A JavaScript string is held as the bytes of its UTF-8 encoding (so
    are the literals of this file).  [codePoints] cuts it into the byte
    sequences of its code points: a leading byte and the continuation
    bytes it announces, as far as they are there. *)
Definition isContinuation (a : ascii) : bool :=
  let n := nat_of_ascii a in Nat.leb 128 n && Nat.ltb n 192.

(** The number of continuation bytes that a leading byte announces. *)
Definition continuations (a : ascii) : nat :=
  let n := nat_of_ascii a in
  if Nat.ltb n 192 then 0
  else if Nat.ltb n 224 then 1
  else if Nat.ltb n 240 then 2
  else if Nat.ltb n 248 then 3
  else 0.

Fixpoint codePointsFrom (current : string) (expected : nat) (s : string)
    : list string :=
  match s with
  | EmptyString => [current]
  | String a rest =>
      match expected with
      | S n =>
          if isContinuation a
          then codePointsFrom (current +:+ String a EmptyString) n rest
          else current :: codePointsFrom (String a EmptyString) (continuations a) rest
      | O => current :: codePointsFrom (String a EmptyString) (continuations a) rest
      end
  end.

Definition codePoints (s : string) : list string :=
  match s with
  | EmptyString => []
  | String a rest => codePointsFrom (String a EmptyString) (continuations a) rest
  end.

(** The code point that a byte sequence encodes; bytes that are the
    encoding of none (a stray continuation byte, a sequence cut short or
    longer than needed, a surrogate) stand for U+FFFD. *)
Definition codePointOf (c : string) : N :=
  let low (a : ascii) (m : N) : N := (N_of_ascii a mod m)%N in
  let check (n : nat) (a : ascii) (lo hi cp : N) : N :=
    if Nat.eqb (continuations a) n && N.leb lo cp && N.leb cp hi
       && negb (N.leb 55296 cp && N.leb cp 57343)
    then cp else 65533%N in
  match c with
  | String a EmptyString => check 0%nat a 0%N 127%N (N_of_ascii a)
  | String a (String b EmptyString) =>
      check 1%nat a 128%N 2047%N (low a 32 * 64 + low b 64)%N
  | String a (String b (String c EmptyString)) =>
      check 2%nat a 2048%N 65535%N (low a 16 * 4096 + low b 64 * 64 + low c 64)%N
  | String a (String b (String c (String d EmptyString))) =>
      check 3%nat a 65536%N 1114111%N
        (low a 8 * 262144 + low b 64 * 4096 + low c 64 * 64 + low d 64)%N
  | _ => 65533%N
  end.

(** [String.prototype.length]: the number of UTF-16 code units, two for a
    code point above U+FFFF. *)
Definition codeUnits (c : string) : nat :=
  if N.leb 65536 (codePointOf c) then 2 else 1.

Definition utf16Length (s : string) : nat :=
  sum_list_with codeUnits (codePoints s).

(** The white space and the line terminators of ECMAScript: TAB, LF, VT,
    FF, CR, SP, NBSP, U+1680, U+2000 to U+200A, LS, PS, U+202F, U+205F,
    U+3000 and the byte order mark. *)
Definition whiteSpace : list N :=
  [9; 10; 11; 12; 13; 32; 160; 5760;
   8192; 8193; 8194; 8195; 8196; 8197; 8198; 8199; 8200; 8201; 8202;
   8232; 8233; 8239; 8287; 12288; 65279]%N.

Definition isSpace (c : string) : bool :=
  existsb (N.eqb (codePointOf c)) whiteSpace.

Fixpoint trimStart (l : list string) : list string :=
  match l with
  | c :: rest => if isSpace c then trimStart rest else l
  | [] => []
  end.

Fixpoint trimEnd (l : list string) : list string :=
  match l with
  | c :: rest =>
      match trimEnd rest with
      | [] => if isSpace c then [] else [c]
      | rest' => c :: rest'
      end
  | [] => []
  end.

(** [String.prototype.trim] *)
Definition trim (s : string) : string :=
  String.concat EmptyString (trimEnd (trimStart (codePoints s))).

(** [x || d] on a possibly undefined string: the empty string is falsy. *)
Definition orString (x : option string) (d : string) : string :=
  match x with
  | Some (String a s) => String a s
  | Some EmptyString | None => d
  end.

Definition defaultResponse : string :=
  "Thank you for your feedback. We appreciate you taking the time to share your experience with us.".

(** The prompt is built from the arguments only; the call carries them. *)
Definition generateResponse (reviewText : string) (starRating : Z)
    (tone language : string) : Prog string :=
  tryCatch
    (content <- await (ChatCompletion reviewText starRating tone language);;
     Ret (orString (trim <$> content) defaultResponse))
    (fun error =>
       log (LogErrOpenAI error);;
       match fallbackResponses (toneToUse tone) (sentimentOf starRating) with
       | Some text => Ret text
       | None => Throw TypeError
       end).

(** ** The storage layer ([server/storage.ts], class [DatabaseStorage])

    [const [row] = await ...] binds the first row, or [undefined]. *)

Definition getUserSettings (userId : string) : Prog (option UserSettings.t) :=
  rows <- await (SelectUserSettings userId);;
  Ret (head rows).

Definition createUserSettings (settings : InsertUserSettings.t)
    : Prog (option UserSettings.t) :=
  updatedAt <- newDate;;
  rows <- await (InsertUserSettingsRow settings updatedAt);;
  Ret (head rows).

Definition updateUserSettings (userId : string) (settings : PartialUserSettings.t)
    : Prog (option UserSettings.t) :=
  updatedAt <- newDate;;
  rows <- await (UpdateUserSettingsRows userId settings updatedAt);;
  match head rows with
  | None =>
      (* If no settings exist yet, create them *)
      lastCheckTime <-
        match PartialUserSettings.lastCheckTime settings with
        | Some (Some d) => Ret d
        | Some None | None => newDate
        end;;
      let newSettings := {|
        InsertUserSettings.userId := userId;
        InsertUserSettings.defaultTone :=
          Some (orString (PartialUserSettings.defaultTone settings) "Professional");
        InsertUserSettings.language :=
          Some (orString (PartialUserSettings.language settings) "English");
        InsertUserSettings.autoReplyEnabled :=
          Some match PartialUserSettings.autoReplyEnabled settings with
               | Some b => b
               | None => false
               end;
        InsertUserSettings.lastCheckTime := Some (Some lastCheckTime) |} in
      createUserSettings newSettings
  | Some updatedSettings => Ret (Some updatedSettings)
  end.

Definition getPlatforms (userId : string) : Prog (list Platform.t) :=
  await (SelectPlatforms userId).

Definition deletePlatform (id : Z) : Prog bool :=
  result <- await (DeletePlatformRows id);;
  Ret true.

Definition createReview (reviewData : InsertReview.t) : Prog (option Review.t) :=
  rows <- await (InsertReviewRow reviewData);;
  Ret (head rows).

Definition deleteReplyTemplate (id : Z) : Prog bool :=
  result <- await (DeleteReplyTemplateRows id);;
  Ret true.

(** ** The automation service ([server/automationService.ts]) *)

Definition CHECK_INTERVAL : N := 5 * 60 * 1000.

(** Body of the loop over [newReviews] (lines 137-184). *)
Definition reviewLoopBody (userId defaultTone language : string)
    (platform : Platform.t) (review : SimReview.t) : Prog unit :=
  tryCatch
    (existingReviews <-
       await (FindReviews userId (SimReview.externalReviewId review));;
     if (0 <? length existingReviews)%nat then
       log (LogExists (SimReview.externalReviewId review) userId)
     else
       responseText <-
         awaitCall (generateResponse (SimReview.reviewText review)
                      (SimReview.starRating review) defaultTone language);;
       respondedAt <- newDate;;
       let newReview := {|
         InsertReview.userId := userId;
         InsertReview.platformId := Some (Platform.id platform);
         InsertReview.externalReviewId := Some (SimReview.externalReviewId review);
         InsertReview.customerName := Some (SimReview.customerName review);
         InsertReview.reviewText := SimReview.reviewText review;
         InsertReview.starRating := SimReview.starRating review;
         InsertReview.responseText := Some responseText;
         InsertReview.responseTone := defaultTone;
         InsertReview.respondedAt := Some respondedAt;
         InsertReview.autoResponded := Some true |} in
       savedReview <- awaitCall (createReview newReview);;
       match savedReview with
       | None => Throw TypeError
       | Some savedReview =>
           log (LogAutoGenerated (Review.id savedReview));;
           log (LogWouldPost (Platform.platformName platform)
                  (SimReview.externalReviewId review))
       end)
    (fun error => log (LogErrReview error)).

(** Body of the loop over [platforms] (lines 129-188). *)
Definition platformLoopBody (userId defaultTone language : string)
    (platform : Platform.t) : Prog unit :=
  tryCatch
    (log (LogCheckingPlatform (Platform.platformName platform) userId);;
     newReviews <- simulate;;
     forEach newReviews (reviewLoopBody userId defaultTone language platform))
    (fun platformError =>
       log (LogErrPlatform (Platform.id platform) platformError)).

Definition watermark (d : Date) : PartialUserSettings.t :=
  {| PartialUserSettings.userId := None;
     PartialUserSettings.defaultTone := None;
     PartialUserSettings.language := None;
     PartialUserSettings.autoReplyEnabled := None;
     PartialUserSettings.lastCheckTime := Some (Some d) |}.

Definition processUserReviews (userId defaultTone language : string) : Prog unit :=
  log (LogProcessing userId);;
  tryCatch
    (platforms <- awaitCall (getPlatforms userId);;
     if (length platforms =? 0)%nat then
       log (LogNoPlatforms userId)
     else
       settings <- awaitCall (getUserSettings userId);;
       match settings with
       | None => log (LogNoSettings userId)
       | Some settings =>
           forEach platforms (platformLoopBody userId defaultTone language);;
           now <- newDate;;
           _ <- awaitCall (updateUserSettings userId (watermark now));;
           log (LogCompleted userId)
       end)
    (fun error => log (LogErrPipeline userId error)).

(** Body of the loop over the enabled settings rows (lines 81-98). *)
Definition sweepLoopBody (setting : UserSettings.t) : Prog unit :=
  let userId := UserSettings.userId setting in
  processing <- has userId;;
  if processing then Ret tt
  else
    add userId;;
    tryFinally
      (tryCatch
         (awaitCall
            (processUserReviews userId (UserSettings.defaultTone setting)
               (UserSettings.language setting)))
         (fun error => log (LogErrUser userId error)))
      (delete_ userId).

Definition processAllUsers : Prog unit :=
  tryCatch
    (log LogChecking;;
     userSettingsWithAutoReply <- await SelectAutoReplySettings;;
     log (LogFound (length userSettingsWithAutoReply));;
     forEach userSettingsWithAutoReply sweepLoopBody)
    (fun error => log (LogErrAllUsers error)).

Definition busyError : Err := Error "Already processing reviews for this user".
Definition noSettingsError : Err := Error "User settings not found".

Definition checkUserReviewsNow (userId : string) : Prog unit :=
  processing <- has userId;;
  if processing then Throw busyError
  else
    tryFinally
      (add userId;;
       settings <- awaitCall (getUserSettings userId);;
       match settings with
       | None => Throw noSettingsError
       | Some settings =>
           awaitCall
             (processUserReviews userId (UserSettings.defaultTone settings)
                (UserSettings.language settings))
       end)
      (delete_ userId).

(** ** The manual check endpoint ([server/routes.ts], lines 328-338)

    The handler proper, behind the [isAuthenticated] and [extractUserId]
    middleware that supply [req.userId]. *)

Record Response := mkResponse { status : nat; message : string }.

Definition checkReviewsHandler (userId : string) : Prog Response :=
  tryCatch
    (awaitCall (checkUserReviewsNow userId);;
     Ret {| status := 200; message := "Review check initiated" |})
    (fun error =>
       log (LogErrCheck error);;
       Ret {| status := 500; message := "Failed to check for reviews" |}).

(** ** The world the programs run in *)

Record World := mkWorld {
  db : Database;
  clock : N;                          (* what [new Date()] reads *)
  steps : nat;                        (* external interactions so far *)
  processingUsers : gset string;      (* the module-level [Set<string>] *)
  console : list LogEvent }.

(** What the outside decides: whether the external call issued at a given
    step rejects (connection loss, quota, a constraint on what is not
    modelled here, ...), what
    the chat completion answers, what [simulateNewReviews] draws, and how
    much time a call takes. *)
Record Oracle := mkOracle {
  rejects : forall X, nat -> Call X -> bool;
  completion : nat -> option string;
  simulated : nat -> list SimReview.t;
  elapsed : nat -> N }.
Arguments rejects o {X} n c.

Definition setDb (d : Database) (w : World) : World :=
  {| db := d; clock := clock w; steps := steps w;
     processingUsers := processingUsers w; console := console w |}.

Definition setProcessing (s : gset string) (w : World) : World :=
  {| db := db w; clock := clock w; steps := steps w;
     processingUsers := s; console := console w |}.

Definition logEvent (ev : LogEvent) (w : World) : World :=
  {| db := db w; clock := clock w; steps := steps w;
     processingUsers := processingUsers w; console := console w ++ [ev] |}.

Definition nextStep (w : World) : World :=
  {| db := db w; clock := clock w; steps := S (steps w);
     processingUsers := processingUsers w; console := console w |}.

Definition tick (o : Oracle) (w : World) : World :=
  {| db := db w; clock := clock w + elapsed o (steps w); steps := S (steps w);
     processingUsers := processingUsers w; console := console w |}.

(** *** The statements on the tables *)

Definition setUserSettings (l : list UserSettings.t) (n : nat) (d : Database) : Database :=
  {| userSettings := l; platforms := platforms d; reviews := reviews d;
     replyTemplates := replyTemplates d; userSettingsSeq := n;
     reviewsSeq := reviewsSeq d |}.

Definition setPlatforms (l : list Platform.t) (d : Database) : Database :=
  {| userSettings := userSettings d; platforms := l; reviews := reviews d;
     replyTemplates := replyTemplates d; userSettingsSeq := userSettingsSeq d;
     reviewsSeq := reviewsSeq d |}.

Definition setReviews (l : list Review.t) (n : nat) (d : Database) : Database :=
  {| userSettings := userSettings d; platforms := platforms d; reviews := l;
     replyTemplates := replyTemplates d; userSettingsSeq := userSettingsSeq d;
     reviewsSeq := n |}.

Definition setReplyTemplates (l : list ReplyTemplate.t) (d : Database) : Database :=
  {| userSettings := userSettings d; platforms := platforms d; reviews := reviews d;
     replyTemplates := l; userSettingsSeq := userSettingsSeq d;
     reviewsSeq := reviewsSeq d |}.

(** [insert(userSettings).values(v).returning()]: omitted columns take the
    defaults of the schema. *)
Definition insertedUserSettings (v : InsertUserSettings.t) (updatedAt now : Date)
    (id : nat) : UserSettings.t :=
  {| UserSettings.id := id;
     UserSettings.userId := InsertUserSettings.userId v;
     UserSettings.defaultTone := default "Professional" (InsertUserSettings.defaultTone v);
     UserSettings.language := default "English" (InsertUserSettings.language v);
     UserSettings.autoReplyEnabled := default false (InsertUserSettings.autoReplyEnabled v);
     UserSettings.lastCheckTime := default (Some now) (InsertUserSettings.lastCheckTime v);
     UserSettings.createdAt := Some now;
     UserSettings.updatedAt := Some updatedAt |}.

(** [update(userSettings).set({...v, updatedAt})] on one row: only the
    keys present in [v] are written. *)
Definition updatedUserSettings (v : PartialUserSettings.t) (updatedAt : Date)
    (row : UserSettings.t) : UserSettings.t :=
  {| UserSettings.id := UserSettings.id row;
     UserSettings.userId := default (UserSettings.userId row) (PartialUserSettings.userId v);
     UserSettings.defaultTone :=
       default (UserSettings.defaultTone row) (PartialUserSettings.defaultTone v);
     UserSettings.language :=
       default (UserSettings.language row) (PartialUserSettings.language v);
     UserSettings.autoReplyEnabled :=
       default (UserSettings.autoReplyEnabled row) (PartialUserSettings.autoReplyEnabled v);
     UserSettings.lastCheckTime :=
       default (UserSettings.lastCheckTime row) (PartialUserSettings.lastCheckTime v);
     UserSettings.createdAt := UserSettings.createdAt row;
     UserSettings.updatedAt := Some updatedAt |}.

Definition insertedReview (v : InsertReview.t) (now : Date) (id : nat) : Review.t :=
  {| Review.id := id;
     Review.userId := InsertReview.userId v;
     Review.platformId := InsertReview.platformId v;
     Review.externalReviewId := InsertReview.externalReviewId v;
     Review.customerName := InsertReview.customerName v;
     Review.reviewText := InsertReview.reviewText v;
     Review.starRating := InsertReview.starRating v;
     Review.responseText := InsertReview.responseText v;
     Review.responseTone := InsertReview.responseTone v;
     Review.respondedAt := InsertReview.respondedAt v;
     Review.autoResponded := Some (default false (InsertReview.autoResponded v));
     Review.createdAt := Some now |}.

(** The effect and the answer of a call that is not rejected; [now] is
    the time at which the statement executes. *)
Definition perform {X} (c : Call X) (answer : option string) (now : Date)
    (d : Database) : X * Database :=
  match c in Call X return X * Database with
  | SelectAutoReplySettings =>
      (filter (fun s => UserSettings.autoReplyEnabled s = true) (userSettings d), d)
  | SelectUserSettings u =>
      (filter (fun s => UserSettings.userId s = u) (userSettings d), d)
  | InsertUserSettingsRow v updatedAt =>
      let id := S (userSettingsSeq d) in
      let row := insertedUserSettings v updatedAt now id in
      ([row], setUserSettings (userSettings d ++ [row]) id d)
  | UpdateUserSettingsRows u v updatedAt =>
      let upd := fun s =>
        if decide (UserSettings.userId s = u)
        then updatedUserSettings v updatedAt s else s in
      (updatedUserSettings v updatedAt <$>
         filter (fun s => UserSettings.userId s = u) (userSettings d),
       setUserSettings (upd <$> userSettings d) (userSettingsSeq d) d)
  | SelectPlatforms u =>
      (filter (fun p => Platform.userId p = u) (platforms d), d)
  | DeletePlatformRows id =>
      (tt, setPlatforms
             (filter (fun p => Z.of_nat (Platform.id p) <> id) (platforms d)) d)
  | FindReviews u e =>
      (filter (fun r => Review.userId r = u /\ Review.externalReviewId r = Some e)
         (reviews d), d)
  | InsertReviewRow v =>
      let id := S (reviewsSeq d) in
      let row := insertedReview v now id in
      ([row], setReviews (reviews d ++ [row]) id d)
  | DeleteReplyTemplateRows id =>
      (tt, setReplyTemplates
             (filter (fun t => Z.of_nat (ReplyTemplate.id t) <> id)
                (replyTemplates d)) d)
  | ChatCompletion _ _ _ _ => (answer, d)
  end.

(** *** What the tables refuse

    The id of a delete is compared with an [integer] column ([serial]):
    a number outside the range of that type fails the statement.  And
    [reviews.platform_id] references [platforms.id] with no action on
    delete ([shared/schema.ts], table [reviews]): a platform that a
    review names cannot be deleted. *)
Definition int4 (id : Z) : bool :=
  ((-2147483648 <=? id) && (id <=? 2147483647))%Z.

Definition referenced (id : Z) (d : Database) : bool :=
  bool_decide (Exists (fun r => Z.of_nat <$> Review.platformId r = Some id) (reviews d)).

Definition violates {X} (c : Call X) (d : Database) : bool :=
  match c with
  | DeletePlatformRows id => negb (int4 id) || referenced id d
  | DeleteReplyTemplateRows id => negb (int4 id)
  | _ => false
  end.

(** An awaited call: time passes, then the call rejects (the tables
    refuse it, or the outside makes it fail) or is performed. *)
Definition exec {X} (o : Oracle) (c : Call X) (w : World) : Result X * World :=
  let w1 := tick o w in
  if violates c (db w) || rejects o (steps w) c then (Fail Rejected, w1)
  else
    let xd := perform c (completion o (steps w)) (clock w1) (db w1) in
    (Ok (fst xd), setDb (snd xd) w1).

(** ** Running one program to completion *)

Fixpoint run {A} (o : Oracle) (p : Prog A) (w : World) : Result A * World :=
  match p with
  | Ret a => (Ok a, w)
  | Throw e => (Fail e, w)
  | Has u k => run o (k (bool_decide (u ∈ processingUsers w))) w
  | Add u k => run o k (setProcessing ({[u]} ∪ processingUsers w) w)
  | Delete u k => run o k (setProcessing (processingUsers w ∖ {[u]}) w)
  | Log ev k => run o k (logEvent ev w)
  | NewDate k => run o (k (clock w)) w
  | Simulate k => run o (k (simulated o (steps w))) (nextStep w)
  | Await c k => let rw := exec o c w in run o (k (fst rw)) (snd rw)
  | Yield k => run o k w
  end.

(** ** The event loop

    [sync] runs a program up to its next [await] (or to its end) and
    returns what is left of it. *)
Fixpoint sync {A} (o : Oracle) (p : Prog A) (w : World) : Prog A * World :=
  match p with
  | Has u k => sync o (k (bool_decide (u ∈ processingUsers w))) w
  | Add u k => sync o k (setProcessing ({[u]} ∪ processingUsers w) w)
  | Delete u k => sync o k (setProcessing (processingUsers w ∖ {[u]}) w)
  | Log ev k => sync o k (logEvent ev w)
  | NewDate k => sync o (k (clock w)) w
  | Simulate k => sync o (k (simulated o (steps w))) (nextStep w)
  | Ret _ | Throw _ | Await _ _ | Yield _ => (p, w)
  end.

(** The fields of the [AutomationService] singleton. *)
Record Service := mkService {
  isRunning : bool;
  timer : option nat }.

(** The process: the world, the service, the armed interval timers
    (handle and period), the next timer handle, and the tasks started so
    far, each suspended at an [await] or finished. *)
Record Runtime := mkRuntime {
  world : World;
  service : Service;
  intervals : list (nat * N);
  handles : nat;
  tasks : list (Prog unit) }.

Definition setWorld (w : World) (rt : Runtime) : Runtime :=
  {| world := w; service := service rt; intervals := intervals rt;
     handles := handles rt; tasks := tasks rt |}.

Definition setService (s : Service) (rt : Runtime) : Runtime :=
  {| world := world rt; service := s; intervals := intervals rt;
     handles := handles rt; tasks := tasks rt |}.

(** Calling an async function without awaiting it: it runs to its first
    [await] and stays behind as a task. *)
Definition spawn (o : Oracle) (p : Prog unit) (rt : Runtime) : Runtime :=
  let pw := sync o p (world rt) in
  {| world := snd pw; service := service rt; intervals := intervals rt;
     handles := handles rt; tasks := tasks rt ++ [fst pw] |}.

(** [setInterval(callback, period)] *)
Definition setInterval (period : N) (rt : Runtime) : nat * Runtime :=
  let h := handles rt in
  (h, {| world := world rt; service := service rt;
         intervals := intervals rt ++ [(h, period)];
         handles := S h; tasks := tasks rt |}).

(** [clearInterval(handle)] *)
Definition clearInterval (h : nat) (rt : Runtime) : Runtime :=
  {| world := world rt; service := service rt;
     intervals := filter (fun hp => fst hp <> h) (intervals rt);
     handles := handles rt; tasks := tasks rt |}.

Definition start (o : Oracle) (rt : Runtime) : Runtime :=
  if isRunning (service rt) then rt
  else
    let rt := setWorld (logEvent LogStarting (world rt)) rt in
    let rt := setService {| isRunning := true; timer := timer (service rt) |} rt in
    (* Run immediately and then on interval *)
    let rt := spawn o processAllUsers rt in
    let hrt := setInterval CHECK_INTERVAL rt in
    setService {| isRunning := isRunning (service (snd hrt)); timer := Some (fst hrt) |}
      (snd hrt).

Definition stop (rt : Runtime) : Runtime :=
  if negb (isRunning (service rt)) then rt
  else
    let rt := setWorld (logEvent LogStopping (world rt)) rt in
    let rt := setService {| isRunning := false; timer := timer (service rt) |} rt in
    match timer (service rt) with
    | Some h =>
        let rt := clearInterval h rt in
        setService {| isRunning := isRunning (service rt); timer := None |} rt
    | None => rt
    end.

(** Task [i] is resumed: the call it awaits settles, or it had yielded;
    it runs on to its next [await]. *)
Definition resume (o : Oracle) (i : nat) (rt : Runtime) : Runtime :=
  match tasks rt !! i with
  | Some (Await c k) =>
      let rw := exec o c (world rt) in
      let pw := sync o (k (fst rw)) (snd rw) in
      {| world := snd pw; service := service rt; intervals := intervals rt;
         handles := handles rt; tasks := <[i := fst pw]> (tasks rt) |}
  | Some (Yield k) =>
      let pw := sync o k (world rt) in
      {| world := snd pw; service := service rt; intervals := intervals rt;
         handles := handles rt; tasks := <[i := fst pw]> (tasks rt) |}
  | _ => rt
  end.

(** What the event loop dispatches: calls of [start], [stop] and
    [checkUserReviewsNow] from outside, a request to the manual check
    endpoint, an armed interval firing, a suspended task being resumed
    (the call it awaits settles, or it yielded), and other request
    handlers writing to the database. *)
Inductive Event :=
| EvStart
| EvStop
| EvInterval (h : nat)
| EvCheckNow (userId : string)
| EvRequest (userId : string)
| EvResume (i : nat)
| EvDatabase (f : Database -> Database).

Definition step (o : Oracle) (rt : Runtime) (ev : Event) : Runtime :=
  match ev with
  | EvStart => start o rt
  | EvStop => stop rt
  | EvInterval h =>
      if bool_decide (h ∈ (fst <$> intervals rt))
      then spawn o processAllUsers rt else rt
  | EvCheckNow u => spawn o (checkUserReviewsNow u) rt
  | EvRequest u => spawn o (checkReviewsHandler u;; Ret tt) rt
  | EvResume i => resume o i rt
  | EvDatabase f => setWorld (setDb (f (db (world rt))) (world rt)) rt
  end.

Definition loop (o : Oracle) (evs : list Event) (rt : Runtime) : Runtime :=
  fold_left (step o) evs rt.

Definition emptyDatabase : Database :=
  {| userSettings := []; platforms := []; reviews := []; replyTemplates := [];
     userSettingsSeq := 0; reviewsSeq := 0 |}.

(** The process at boot, over any database and clock. *)
Definition boot (d : Database) (now : Date) : Runtime :=
  {| world := {| db := d; clock := now; steps := 0; processingUsers := ∅;
                 console := [] |};
     service := {| isRunning := false; timer := None |};
     intervals := []; handles := 1; tasks := [] |}.

(** * Specifications

    Triples over [run]: precondition, normal and exceptional
    postcondition. *)

Definition hoare (o : Oracle) {A} (P : World -> Prop) (p : Prog A)
    (Q : A -> World -> Prop) (E : Err -> World -> Prop) : Prop :=
  forall w, P w ->
    match run o p w with
    | (Ok a, w') => Q a w'
    | (Fail e, w') => E e w'
    end.

(** ** [updateUserSettings] on a missing row

    The row it is said to create: the provided values, the defaults for
    the keys left out. *)
Definition createdFromPartial (userId : string) (v : PartialUserSettings.t)
    (now : Date) (row : UserSettings.t) : Prop :=
  UserSettings.userId row = userId /\
  UserSettings.defaultTone row =
    default "Professional" (PartialUserSettings.defaultTone v) /\
  UserSettings.language row =
    default "English" (PartialUserSettings.language v) /\
  UserSettings.autoReplyEnabled row =
    default false (PartialUserSettings.autoReplyEnabled v) /\
  UserSettings.lastCheckTime row =
    Some match PartialUserSettings.lastCheckTime v with
         | Some (Some d) => d
         | _ => now
         end.

(** The row the code creates: an empty string counts as left out. *)
Definition createdFromTruthy (userId : string) (v : PartialUserSettings.t)
    (now : Date) (row : UserSettings.t) : Prop :=
  UserSettings.userId row = userId /\
  UserSettings.defaultTone row =
    match PartialUserSettings.defaultTone v with
    | Some t => if decide (t = "") then "Professional" else t
    | None => "Professional"
    end /\
  UserSettings.language row =
    match PartialUserSettings.language v with
    | Some l => if decide (l = "") then "English" else l
    | None => "English"
    end /\
  UserSettings.autoReplyEnabled row =
    default false (PartialUserSettings.autoReplyEnabled v) /\
  UserSettings.lastCheckTime row =
    Some match PartialUserSettings.lastCheckTime v with
         | Some (Some d) => d
         | _ => now
         end.

(** ** Sample data *)

Definition calm : Oracle :=
  {| rejects := fun _ _ _ => false;
     completion := fun _ => Some "Thank you!";
     simulated := fun _ => [];
     elapsed := fun _ => 1%N |}.

Definition emptyWorld : World := world (boot emptyDatabase 1000).

Definition onlyEmptyTone : PartialUserSettings.t :=
  {| PartialUserSettings.userId := None;
     PartialUserSettings.defaultTone := Some "";
     PartialUserSettings.language := None;
     PartialUserSettings.autoReplyEnabled := None;
     PartialUserSettings.lastCheckTime := None |}.

(** [processingUsers.delete(u)] *)
Definition release (u : string) (w : World) : World :=
  setProcessing (processingUsers w ∖ {[u]}) w.

(** A program completes without raising. *)
Definition completesWithoutRaising {A} (o : Oracle) (p : Prog A) (w : World) : Prop :=
  exists a, fst (run o p w) = Ok a.

(** The account has no settings row / no connected platform. *)
Definition settingsAbsent (u : string) (w : World) : Prop :=
  forall s, s ∈ userSettings (db w) -> UserSettings.userId s <> u.

Definition noPlatformConnected (u : string) (w : World) : Prop :=
  forall p, p ∈ platforms (db w) -> Platform.userId p <> u.

Definition hasSettings (u : string) (w : World) : Prop :=
  exists s, s ∈ userSettings (db w) /\ UserSettings.userId s = u.

Definition hasPlatform (u : string) (w : World) : Prop :=
  exists p, p ∈ platforms (db w) /\ Platform.userId p = u.

(** The watermark ([lastCheckTime]) of every settings row of the account
    is a date not before [t]. *)
Definition watermarkAtLeast (u : string) (t : Date) (w : World) : Prop :=
  forall s, s ∈ userSettings (db w) -> UserSettings.userId s = u ->
    exists t', UserSettings.lastCheckTime s = Some t' /\ (t <= t')%N.

Definition okResponse : Response :=
  {| status := 200; message := "Review check initiated" |}.
Definition failedResponse : Response :=
  {| status := 500; message := "Failed to check for reviews" |}.

(** The endpoint answers a busy account with a status it gives to no other
    failure of [checkUserReviewsNow]. *)
Definition busyIsDistinguished : Prop :=
  forall o u w1 w2 e r1 r2,
    fst (run o (checkUserReviewsNow u) w1) = Fail busyError ->
    fst (run o (checkUserReviewsNow u) w2) = Fail e ->
    e <> busyError ->
    fst (run o (checkReviewsHandler u) w1) = Ok r1 ->
    fst (run o (checkReviewsHandler u) w2) = Ok r2 ->
    status r1 <> status r2.

Definition busyWorld : World := setProcessing {["u1"]} emptyWorld.

(** The service and the armed timers agree: stopped with no timer, or
    running with exactly one, of period [CHECK_INTERVAL]. *)
Definition timerConsistent (rt : Runtime) : Prop :=
  (isRunning (service rt) = false /\ timer (service rt) = None /\
   intervals rt = []) \/
  (exists h, isRunning (service rt) = true /\ timer (service rt) = Some h /\
             intervals rt = [(h, CHECK_INTERVAL)]).

(** ** Footprints

    [within P p]: the program never touches [processingUsers], and every
    external call it may issue satisfies [P]. *)
Fixpoint within {A} (P : forall X, Call X -> Prop) (p : Prog A) : Prop :=
  match p with
  | Ret _ | Throw _ => True
  | Has _ _ | Add _ _ | Delete _ _ => False
  | Log _ k => within P k
  | NewDate k => forall d, within P (k d)
  | Simulate k => forall l, within P (k l)
  | Await c k => P _ c /\ forall r, within P (k r)
  | Yield k => within P k
  end.

(** The calls the pipeline of account [u] issues: they read and write
    rows of [u] only, and never delete a platform or a template. *)
Definition ownedBy (u : string) : forall X, Call X -> Prop :=
  fun X c =>
    match c with
    | SelectAutoReplySettings => False
    | SelectUserSettings u' => u' = u
    | InsertUserSettingsRow v _ => InsertUserSettings.userId v = u
    | UpdateUserSettingsRows u' v _ =>
        u' = u /\ PartialUserSettings.userId v = None
    | SelectPlatforms u' => u' = u
    | DeletePlatformRows _ => False
    | FindReviews u' _ => u' = u
    | InsertReviewRow v => InsertReview.userId v = u
    | DeleteReplyTemplateRows _ => False
    | ChatCompletion _ _ _ _ => True
    end.

(** Calls that leave the settings and platforms tables alone. *)
Definition reviewsOnly : forall X, Call X -> Prop :=
  fun X c =>
    match c with
    | FindReviews _ _ | InsertReviewRow _ | ChatCompletion _ _ _ _ => True
    | _ => False
    end.

(** Calls that leave the reviews table alone. *)
Definition noReviewWritten : forall X, Call X -> Prop :=
  fun X c =>
    match c with
    | InsertReviewRow _ => False
    | _ => True
    end.

(** ** Frames: what a run leaves alone *)

(** The guard set and the platforms are as before, time has not gone
    back, and the console has only grown. *)
Definition baseFrame (w w' : World) : Prop :=
  processingUsers w' = processingUsers w /\
  (clock w <= clock w')%N /\
  (exists l, console w' = console w ++ l) /\
  platforms (db w') = platforms (db w) /\
  replyTemplates (db w') = replyTemplates (db w).

Definition settingsFrame (w w' : World) : Prop :=
  userSettings (db w') = userSettings (db w).

Definition reviewsFrame (w w' : World) : Prop :=
  reviews (db w') = reviews (db w).

(** The settings rows of account [b], in table order. *)
Definition settingsOf (b : string) (w : World) : list UserSettings.t :=
  filter (fun s => UserSettings.userId s = b) (userSettings (db w)).

Definition otherSettingsFrame (b : string) (w w' : World) : Prop :=
  settingsOf b w' = settingsOf b w.

(** The calls of the loop over the platforms of account [u]. *)
Definition reviewCallOf (u : string) : forall X, Call X -> Prop :=
  fun X c => ownedBy u X c /\ reviewsOnly X c.

(** ** Duplicate suppression *)

(** How many review rows carry the pair ([userId], [externalReviewId]). *)
Definition copies (u e : string) (w : World) : nat :=
  length (filter (fun r => Review.userId r = u /\ Review.externalReviewId r = Some e)
            (reviews (db w))).

(** Since [w0], no pair got a second row. *)
Definition noNewDuplicates (w0 w : World) : Prop :=
  forall u e, copies u e w <= max 1 (copies u e w0).

(** A property of the world that holds after the program, returned or
    raised, if it held before. *)
Definition maintains (o : Oracle) {A} (I : World -> Prop) (p : Prog A) : Prop :=
  hoare o I p (fun _ => I) (fun _ => I).

(** ** The fallback response *)

(** The row the pipeline writes for a candidate. *)
Definition autoRow (u tone : string) (platform : Platform.t) (review : SimReview.t)
    (text : string) (respondedAt createdAt : Date) (id : nat) : Review.t :=
  {| Review.id := id;
     Review.userId := u;
     Review.platformId := Some (Platform.id platform);
     Review.externalReviewId := Some (SimReview.externalReviewId review);
     Review.customerName := Some (SimReview.customerName review);
     Review.reviewText := SimReview.reviewText review;
     Review.starRating := SimReview.starRating review;
     Review.responseText := Some text;
     Review.responseTone := tone;
     Review.respondedAt := Some respondedAt;
     Review.autoResponded := Some true;
     Review.createdAt := Some createdAt |}.


(** An oracle under which every chat completion rejects and everything
    else goes through. *)
Definition generatorDown : Oracle :=
  {| rejects := fun X _ c =>
       match c with ChatCompletion _ _ _ _ => true | _ => false end;
     completion := fun _ => None;
     simulated := fun _ => [];
     elapsed := fun _ => 1%N |}.

Definition samplePlatform : Platform.t :=
  {| Platform.id := 1; Platform.userId := "u1";
     Platform.platformName := "Google Business"; Platform.platformId := "g-1";
     Platform.accessToken := None; Platform.refreshToken := None;
     Platform.tokenExpiry := None; Platform.metadata := None;
     Platform.createdAt := None; Platform.updatedAt := None |}.

Definition sampleReview : SimReview.t :=
  {| SimReview.customerName := "Alex Johnson";
     SimReview.reviewText := "The service was excellent and the staff was very friendly. I'll definitely come back again.";
     SimReview.starRating := 5;
     SimReview.externalReviewId := "sim-1700000000000-42";
     SimReview.platformName := "Google Business" |}.

(** [ev] was logged between [w] and [w']. *)
Definition loggedSince (w w' : World) (ev : LogEvent) : Prop :=
  exists l, console w' = console w ++ l /\ ev ∈ l.

(** ** The watermark *)

(** The watermark update on one row of the table, for account [u]. *)
Definition stamp (u : string) (now : Date) (s : UserSettings.t) : UserSettings.t :=
  if decide (UserSettings.userId s = u)
  then updatedUserSettings (watermark now) now s else s.

(** The world a completed pipeline leaves, from the world [w3] after its
    loop over the platforms. *)
Definition stamped (o : Oracle) (u : string) (w3 : World) : World :=
  logEvent (LogCompleted u)
    (setDb (setUserSettings (stamp u (clock w3) <$> userSettings (db w3))
              (userSettingsSeq (db w3)) (db w3))
       (tick o w3)).

(** The world in which the pipeline of account [u], started in [w], reads
    the time for the watermark (line 191): line 108 has been logged, the
    platform and the settings queries have been awaited, and the loop
    over the platforms of the account (lines 129-189) has come to its
    end. *)
Definition afterPlatforms (o : Oracle) (u tone lang : string) (w : World) : World :=
  snd (run o (forEach (filter (fun p => Platform.userId p = u) (platforms (db w)))
                (platformLoopBody u tone lang))
         (tick o (tick o (logEvent (LogProcessing u) w)))).

(** ** The sweep *)

(** [processingUsers.add(u)] *)
Definition acquire (u : string) (w : World) : World :=
  setProcessing ({[u]} ∪ processingUsers w) w.

(** The world after the sweep has dealt with one settings row. *)
Definition swept (o : Oracle) (s : UserSettings.t) (w : World) : World :=
  if bool_decide (UserSettings.userId s ∈ processingUsers w) then w
  else
    release (UserSettings.userId s)
      (snd (run o (processUserReviews (UserSettings.userId s)
                     (UserSettings.defaultTone s) (UserSettings.language s))
              (acquire (UserSettings.userId s) w))).

Definition reliableFor (o : Oracle) (b : string) : Prop :=
  (forall n, rejects o n (SelectPlatforms b) = false) /\
  (forall n, rejects o n (SelectUserSettings b) = false) /\
  (forall n v t, rejects o n (UpdateUserSettingsRows b v t) = false).


Definition enabledRows (w : World) : list UserSettings.t :=
  filter (fun s => UserSettings.autoReplyEnabled s = true) (userSettings (db w)).

(** The world in which the sweep enters its loop. *)
Definition sweepStart (o : Oracle) (w : World) : World :=
  logEvent (LogFound (length (enabledRows w))) (tick o (logEvent LogChecking w)).

Definition autoReplyOn (b : string) (w : World) : Prop :=
  exists s, s ∈ userSettings (db w) /\ UserSettings.autoReplyEnabled s = true /\
            UserSettings.userId s = b.

(** ** The guard

    The reentrancy guard is the set [processingUsers]; what follows states
    how the code uses it. *)

(** Where a task stands with respect to the guard of an account: it holds
    nothing; it has just seen, without yielding since, that [u] is not in
    [processingUsers]; it has put [u] in; it has put [u] in and is inside
    the pipeline of [u]. *)
Inductive Phase :=
| Idle
| Checked (u : string)
| Held (u : string)
| Running (u : string).

(** A phase in which a task may yield to the event loop. *)
Definition stable (ph : Phase) : Prop :=
  match ph with
  | Checked _ => False
  | _ => True
  end.

(** The console lines that open and close a pipeline invocation: line 108
    at its start, lines 115, 122, 195 and 197 on its four ways out. *)
Inductive Edge :=
| Enter (u : string)
| Exit (u : string)
| NoEdge.

Definition edge (ev : LogEvent) : Edge :=
  match ev with
  | LogProcessing u => Enter u
  | LogNoPlatforms u | LogNoSettings u | LogCompleted u => Exit u
  | LogErrPipeline u _ => Exit u
  | _ => NoEdge
  end.

(** The guard discipline: started in phase [ph], the program tests before
    it adds, adds before it enters the pipeline, leaves the pipeline before
    it deletes, never yields between test and add, and ends in phase [q]
    when it returns and [e] when it raises. *)
Fixpoint disc {A} (ph : Phase) (p : Prog A) (q e : Phase) : Prop :=
  match p with
  | Ret _ => ph = q
  | Throw _ => ph = e
  | Has u k => ph = Idle /\ disc Idle (k true) q e /\ disc (Checked u) (k false) q e
  | Add u k => ph = Checked u /\ disc (Held u) k q e
  | Delete u k => ph = Held u /\ disc Idle k q e
  | Log ev k =>
      match edge ev with
      | Enter u => ph = Held u /\ disc (Running u) k q e
      | Exit u => ph = Running u /\ disc (Held u) k q e
      | NoEdge => disc ph k q e
      end
  | NewDate k => forall d, disc ph (k d) q e
  | Simulate k => forall l, disc ph (k l) q e
  | Await c k => stable ph /\ forall r, disc ph (k r) q e
  | Yield k => stable ph /\ disc ph k q e
  end.

Definition holds (u : string) (ph : Phase) : nat :=
  match ph with
  | Held v | Running v => if decide (v = u) then 1 else 0
  | _ => 0
  end.

Definition runs (u : string) (ph : Phase) : nat :=
  match ph with
  | Running v => if decide (v = u) then 1 else 0
  | _ => 0
  end.

Definition enters (u : string) (ev : LogEvent) : nat :=
  match edge ev with
  | Enter v => if decide (v = u) then 1 else 0
  | _ => 0
  end.

Definition exits (u : string) (ev : LogEvent) : nat :=
  match edge ev with
  | Exit v => if decide (v = u) then 1 else 0
  | _ => 0
  end.

(** Pipeline invocations of [u] begun, and ended, according to the
    console. *)
Definition entered (u : string) (l : list LogEvent) : nat := sum_list_with (enters u) l.
Definition exited (u : string) (l : list LogEvent) : nat := sum_list_with (exits u) l.

(** The running task is in phase [ph]; the suspended ones hold the guard
    of [u] [H u] times and are [R u] times inside its pipeline. *)
Definition consistent (ph : Phase) (H R : string -> nat) (w : World) : Prop :=
  (forall u, holds u ph + H u <= 1) /\
  (forall u, u ∈ processingUsers w <-> holds u ph + H u = 1) /\
  (forall u, entered u (console w) = exited u (console w) + (runs u ph + R u)) /\
  match ph with
  | Checked u => u ∉ processingUsers w
  | _ => True
  end.

Definition taskOK (ph : Phase) (t : Prog unit) : Prop :=
  stable ph /\ disc ph t Idle Idle.

(** Every task keeps the discipline from the phase it is in; no guard is
    held twice; [processingUsers] is the set of guards held; and the
    console has, for each account, as many unfinished pipeline invocations
    as there are tasks inside its pipeline. *)
Definition guarded (rt : Runtime) : Prop :=
  exists phs,
    Forall2 taskOK phs (tasks rt) /\
    consistent Idle (fun u => sum_list_with (holds u) phs)
      (fun u => sum_list_with (runs u) phs) (world rt).

(** ** More sample data *)

Definition sampleSettings : UserSettings.t :=
  {| UserSettings.id := 1; UserSettings.userId := "u1";
     UserSettings.defaultTone := "Friendly"; UserSettings.language := "English";
     UserSettings.autoReplyEnabled := true;
     UserSettings.lastCheckTime := Some 500%N;
     UserSettings.createdAt := Some 500%N; UserSettings.updatedAt := Some 500%N |}.

Definition sampleDatabase : Database :=
  {| userSettings := [sampleSettings]; platforms := [samplePlatform];
     reviews := []; replyTemplates := [];
     userSettingsSeq := 1; reviewsSeq := 0 |}.

Definition sampleWorld : World := world (boot sampleDatabase 1000).

(** An oracle under which the source offers [sampleReview] at every poll
    and nothing fails. *)
Definition offering : Oracle :=
  {| rejects := fun _ _ _ => false;
     completion := fun _ => Some "Thank you!";
     simulated := fun _ => [sampleReview];
     elapsed := fun _ => 1%N |}.





(** * Further properties of the automation service: what they speak of *)

(** ** What a pipeline run writes *)

(** A review row as the pipeline writes it for account [u]: a review of
    an external platform, answered by the automation. *)
Definition autoAnswered (u : string) (r : Review.t) : Prop :=
  Review.userId r = u /\
  Review.autoResponded r = Some true /\
  is_Some (Review.responseText r) /\
  is_Some (Review.respondedAt r) /\
  is_Some (Review.externalReviewId r) /\
  is_Some (Review.platformId r).

(** The calls of the pipeline of [u], with what it inserts. *)
Definition pipelineCallOf (u : string) : forall X, Call X -> Prop :=
  fun X c =>
    ownedBy u X c /\
    match c with
    | InsertReviewRow v =>
        InsertReview.autoResponded v = Some true /\
        is_Some (InsertReview.responseText v) /\
        is_Some (InsertReview.respondedAt v) /\
        is_Some (InsertReview.externalReviewId v) /\
        is_Some (InsertReview.platformId v)
    | _ => True
    end.

(** The reviews table has only grown, by rows of the pipeline of [u]. *)
Definition appendedFor (u : string) (w w' : World) : Prop :=
  exists rows,
    reviews (db w') = reviews (db w) ++ rows /\ Forall (autoAnswered u) rows.

(** The review rows of account [b], in table order. *)
Definition reviewsOf (b : string) (w : World) : list Review.t :=
  filter (fun r => Review.userId r = b) (reviews (db w)).

(** Two versions of a settings row that differ at most in
    [lastCheckTime] and [updatedAt]; for another account than [u], not at
    all. *)
Definition samePreferences (u : string) (s s' : UserSettings.t) : Prop :=
  UserSettings.id s' = UserSettings.id s /\
  UserSettings.userId s' = UserSettings.userId s /\
  UserSettings.defaultTone s' = UserSettings.defaultTone s /\
  UserSettings.language s' = UserSettings.language s /\
  UserSettings.autoReplyEnabled s' = UserSettings.autoReplyEnabled s /\
  UserSettings.createdAt s' = UserSettings.createdAt s /\
  (UserSettings.userId s <> u -> s' = s).

(** ** What the console tells of a run *)

(** The lines that close the handling of one candidate review: line 148
    (it exists already), line 176 (stored) and line 182 (failed). *)
Definition outcome (ev : LogEvent) : nat :=
  match ev with
  | LogExists _ _ | LogAutoGenerated _ | LogErrReview _ => 1
  | _ => 0
  end.

(** Line 131, logged when the loop turns to a platform, and line 186, of
    the [catch] around one platform. *)
Definition visit (ev : LogEvent) : nat :=
  match ev with
  | LogCheckingPlatform _ _ => 1
  | _ => 0
  end.

Definition platformFailure (ev : LogEvent) : nat :=
  match ev with
  | LogErrPlatform _ _ => 1
  | _ => 0
  end.

(** ** Tasks of the event loop *)

(** A task that has returned or raised. *)
Definition finished {A} (t : Prog A) : bool :=
  match t with
  | Ret _ | Throw _ => true
  | _ => false
  end.

(** ** Sample data: an account with auto-reply switched off *)

Definition disabledSettings : UserSettings.t :=
  {| UserSettings.id := 3; UserSettings.userId := "u2";
     UserSettings.defaultTone := "Apologetic"; UserSettings.language := "French";
     UserSettings.autoReplyEnabled := false;
     UserSettings.lastCheckTime := Some 500%N;
     UserSettings.createdAt := Some 500%N; UserSettings.updatedAt := Some 500%N |}.

Definition disabledPlatform : Platform.t :=
  {| Platform.id := 2; Platform.userId := "u2";
     Platform.platformName := "Google Business"; Platform.platformId := "g-2";
     Platform.accessToken := None; Platform.refreshToken := None;
     Platform.tokenExpiry := None; Platform.metadata := None;
     Platform.createdAt := None; Platform.updatedAt := None |}.

Definition mixedWorld : World :=
  world (boot {| userSettings := [sampleSettings; disabledSettings];
                 platforms := [samplePlatform; disabledPlatform];
                 reviews := []; replyTemplates := [];
                 userSettingsSeq := 3; reviewsSeq := 0 |} 1000).

(** Sample data: an answer made of white space beyond ASCII only (a
    no-break space, an ideographic space, a byte order mark, a line
    separator and a space), and an oracle that gives it. *)
Definition utf8 (bytes : list nat) : string :=
  fold_right (fun n s => String (ascii_of_nat n) s) EmptyString bytes.

Definition blankAnswer : string :=
  utf8 [194; 160; 227; 128; 128; 239; 187; 191; 226; 128; 168; 32].

Definition blank : Oracle :=
  {| rejects := fun _ _ _ => false;
     completion := fun _ => Some blankAnswer;
     simulated := fun _ => [sampleReview];
     elapsed := fun _ => 1%N |}.

(** * The rest of the storage layer, the generator's variations and the
      HTTP routes

    The functions of [server/storage.ts] and [server/openai.ts] that the
    automation does not call, and the handlers of [server/routes.ts].
    They are request handlers: each is embedded as a function that runs
    on its own from its first statement to its answer, over the world of
    the automation extended with what only the routes use. *)

From Stdlib Require QArith Sorted.
From stdpp Require pretty.

(** A JavaScript number that is finite, as the rational it denotes. *)
Definition Number : Type := QArith_base.Q.

Definition integer (z : Z) : Number := QArith_base.Qmake z 1.

(** [a <= b] *)
Definition atMost (a b : Number) : bool := QArith_base.Qle_bool a b.

(** ** More of the data model ([shared/schema.ts]) *)

Module User.
Record t := mk {
  id : string;
  username : string;
  email : option string;
  profileImageUrl : option string;
  createdAt : option Date }.
End User.

(** [UpsertUser], the insert type of the users table: the nullable
    columns and [createdAt] may be left out ([None]) or be [null]
    ([Some None]). *)
Module UpsertUser.
Record t := mk {
  id : string;
  username : string;
  email : option (option string);
  profileImageUrl : option (option string);
  createdAt : option (option Date) }.
End UpsertUser.

(** [InsertPlatform]: a nullable column left out or [null] is [None]. *)
Module InsertPlatform.
Record t := mk {
  userId : string;
  platformName : string;
  platformId : string;
  accessToken : option string;
  refreshToken : option string;
  tokenExpiry : option Date;
  metadata : option string }.
End InsertPlatform.

(** [Partial<InsertPlatform>]: a key left out is [None]; for a nullable
    column, [Some None] is [null]. *)
Module PartialPlatform.
Record t := mk {
  userId : option string;
  platformName : option string;
  platformId : option string;
  accessToken : option (option string);
  refreshToken : option (option string);
  tokenExpiry : option (option Date);
  metadata : option (option string) }.
End PartialPlatform.

Module InsertReplyTemplate.
Record t := mk {
  userId : string;
  name : string;
  content : string;
  tone : string;
  starRating : option Number }.
End InsertReplyTemplate.

Module PartialReplyTemplate.
Record t := mk {
  userId : option string;
  name : option string;
  content : option string;
  tone : option string;
  starRating : option (option Number) }.
End PartialReplyTemplate.

(** ** Request bodies and their validation *)

(** A parsed JSON value; an object is the list of its properties. *)
#[local] Unset Elimination Schemes.
Inductive Json :=
| JNull
| JBool (b : bool)
| JNumber (q : Number)
| JString (s : string)
| JArray (items : list Json)
| JObject (properties : list (string * Json)).
#[local] Set Elimination Schemes.

(** [o[key]], [undefined] ([None]) when the object has no such property. *)
Fixpoint property (key : string) (properties : list (string * Json)) : option Json :=
  match properties with
  | [] => None
  | (k, v) :: rest => if String.eqb k key then Some v else property key rest
  end.

(** The issues of a [ZodError], each with the key it is about. *)
Inductive IssueCode := invalid_type | too_small | too_big | invalid_enum_value.

Record Issue := mkIssue { path : string; issueCode : IssueCode }.

Inductive Field (A : Type) :=
| Valid (a : A)
| Invalid (code : IssueCode).
Arguments Valid {A} a.
Arguments Invalid {A} code.

(** [z.string().min(min)] and, with [max], [.max(max)]: zod compares
    the bounds with the [length] of the string. *)
Definition zString (min : nat) (max : option nat) (v : option Json) : Field string :=
  match v with
  | Some (JString s) =>
      if (utf16Length s <? min)%nat then Invalid too_small
      else match max with
           | Some m => if (m <? utf16Length s)%nat then Invalid too_big else Valid s
           | None => Valid s
           end
  | _ => Invalid invalid_type
  end.

(** [z.enum(values)] *)
Definition zEnum (values : list string) (v : option Json) : Field string :=
  match v with
  | Some (JString s) => if includes values s then Valid s else Invalid invalid_enum_value
  | _ => Invalid invalid_type
  end.

(** [z.boolean()] *)
Definition zBoolean (v : option Json) : Field bool :=
  match v with
  | Some (JBool b) => Valid b
  | _ => Invalid invalid_type
  end.

(** [z.number().min(min).max(max)] *)
Definition zNumber (min max : Number) (v : option Json) : Field Number :=
  match v with
  | Some (JNumber q) =>
      if atMost min q
      then if atMost q max then Valid q else Invalid too_big
      else Invalid too_small
  | _ => Invalid invalid_type
  end.

(** [schema.optional()]: a missing key is accepted. *)
Definition zOptional {A} (schema : option Json -> Field A) (v : option Json)
    : Field (option A) :=
  match v with
  | None => Valid None
  | Some _ =>
      match schema v with
      | Valid a => Valid (Some a)
      | Invalid code => Invalid code
      end
  end.

Definition issuesOf {A} (key : string) (c : Field A) : list Issue :=
  match c with
  | Valid _ => []
  | Invalid code => [mkIssue key code]
  end.

Definition notAnObject : list Issue := [mkIssue "" invalid_type].

Definition tones : list string :=
  ["Friendly"; "Professional"; "Apologetic"; "Enthusiastic"].

Definition languages : list string :=
  ["English"; "Spanish"; "French"; "German"; "Italian"].

Record ReviewFormData := mkReviewFormData {
  formReviewText : string;
  formStarRating : Number;
  formResponseTone : string }.

Definition reviewFormSchema (body : option Json) : list Issue + ReviewFormData :=
  match body with
  | Some (JObject o) =>
      let reviewText := zString 1 None (property "reviewText" o) in
      let starRating := zNumber (integer 1) (integer 5) (property "starRating" o) in
      let responseTone := zEnum tones (property "responseTone" o) in
      match reviewText, starRating, responseTone with
      | Valid a, Valid b, Valid c =>
          inr {| formReviewText := a; formStarRating := b; formResponseTone := c |}
      | _, _, _ =>
          inl (issuesOf "reviewText" reviewText ++ issuesOf "starRating" starRating ++
               issuesOf "responseTone" responseTone)
      end
  | _ => inl notAnObject
  end.

Record UserSettingsFormData := mkUserSettingsFormData {
  formDefaultTone : string;
  formLanguage : string;
  formAutoReplyEnabled : bool }.

Definition userSettingsFormSchema (body : option Json)
    : list Issue + UserSettingsFormData :=
  match body with
  | Some (JObject o) =>
      let defaultTone := zEnum tones (property "defaultTone" o) in
      let language := zEnum languages (property "language" o) in
      let autoReplyEnabled := zBoolean (property "autoReplyEnabled" o) in
      match defaultTone, language, autoReplyEnabled with
      | Valid a, Valid b, Valid c =>
          inr {| formDefaultTone := a; formLanguage := b; formAutoReplyEnabled := c |}
      | _, _, _ =>
          inl (issuesOf "defaultTone" defaultTone ++ issuesOf "language" language ++
               issuesOf "autoReplyEnabled" autoReplyEnabled)
      end
  | _ => inl notAnObject
  end.

Record PlatformFormData := mkPlatformFormData {
  formPlatformName : string;
  formPlatformId : string;
  formAccessToken : option string;
  formRefreshToken : option string }.

Definition platformFormSchema (body : option Json) : list Issue + PlatformFormData :=
  match body with
  | Some (JObject o) =>
      let platformName := zString 1 None (property "platformName" o) in
      let platformId := zString 1 None (property "platformId" o) in
      let accessToken := zOptional (zString 0 None) (property "accessToken" o) in
      let refreshToken := zOptional (zString 0 None) (property "refreshToken" o) in
      match platformName, platformId, accessToken, refreshToken with
      | Valid a, Valid b, Valid c, Valid d =>
          inr {| formPlatformName := a; formPlatformId := b;
                 formAccessToken := c; formRefreshToken := d |}
      | _, _, _, _ =>
          inl (issuesOf "platformName" platformName ++ issuesOf "platformId" platformId ++
               issuesOf "accessToken" accessToken ++ issuesOf "refreshToken" refreshToken)
      end
  | _ => inl notAnObject
  end.

Record ReplyTemplateFormData := mkReplyTemplateFormData {
  formName : string;
  formContent : string;
  formTone : string;
  formTemplateRating : option Number }.

Definition replyTemplateFormSchema (body : option Json)
    : list Issue + ReplyTemplateFormData :=
  match body with
  | Some (JObject o) =>
      let name := zString 1 (Some 100) (property "name" o) in
      let content := zString 1 None (property "content" o) in
      let tone := zEnum tones (property "tone" o) in
      let starRating := zOptional (zNumber (integer 1) (integer 5)) (property "starRating" o) in
      match name, content, tone, starRating with
      | Valid a, Valid b, Valid c, Valid d =>
          inr {| formName := a; formContent := b; formTone := c;
                 formTemplateRating := d |}
      | _, _, _, _ =>
          inl (issuesOf "name" name ++ issuesOf "content" content ++
               issuesOf "tone" tone ++ issuesOf "starRating" starRating)
      end
  | _ => inl notAnObject
  end.

(** ** The statements of the storage layer that the automation never
       issues, and the completion that asks for variations *)

Inductive Stmt : Type -> Type :=
| SelectUserById (id : string) : Stmt (list User.t)
| SelectUserByEmail (email : string) : Stmt (list User.t)
| UpsertUserRow (v : UpsertUser.t) : Stmt (list User.t)
| SelectPlatformById (id : Z) : Stmt (list Platform.t)
| InsertPlatformRow (v : InsertPlatform.t) (updatedAt : Date) : Stmt (list Platform.t)
| UpdatePlatformRows (id : Z) (v : PartialPlatform.t) (updatedAt : Date)
    : Stmt (list Platform.t)
| SelectReviewById (id : Z) : Stmt (list Review.t)
| SelectUserReviews (userId : string) : Stmt (list Review.t)
| SelectPendingReviews (userId : string) : Stmt (list Review.t)
| UpdateReviewResponseRows (id : Z) (responseText : string) (respondedAt : Date)
    (autoResponded : bool) : Stmt (list Review.t)
| SelectReplyTemplates (userId : string) : Stmt (list ReplyTemplate.t)
| SelectReplyTemplateById (id : Z) : Stmt (list ReplyTemplate.t)
| InsertReplyTemplateRow (v : InsertReplyTemplate.t) (updatedAt : Date)
    : Stmt (list ReplyTemplate.t)
| UpdateReplyTemplateRows (id : Z) (v : PartialReplyTemplate.t) (updatedAt : Date)
    : Stmt (list ReplyTemplate.t)
| VariationsCompletion (reviewText : string) (starRating : Number) (tone language : string)
    (count : nat) : Stmt (option string).

(** What a handler may fail with: an error of the automation's kind, a
    [ZodError] of a schema, or the [SyntaxError] of [JSON.parse]. *)
Inductive Failure :=
| Js (e : Err)
| ZodError (issues : list Issue)
| SyntaxError.

Inductive Outcome (A : Type) :=
| Returned (a : A)
| Raised (f : Failure).
Arguments Returned {A} a.
Arguments Raised {A} f.

(** The process as the routes see it: the world of the automation, the
    users table, the [serial] counters of the two tables the automation
    never inserts into, and what the handlers wrote with
    [console.error]. *)
Record Server := mkServer {
  core : World;
  users : list User.t;
  platformsSeq : nat;
  replyTemplatesSeq : nat;
  errorLog : list (string * Failure) }.

(** What the outside decides for a handler: the oracle of the
    automation, whether the statement issued at a given step is refused,
    and what [JSON.parse] makes of a text ([None]: it throws). *)
Record Env := mkEnv {
  oracle : Oracle;
  refuses : forall X, nat -> Stmt X -> bool;
  JSON_parse : string -> option Json }.
Arguments refuses e {X} n c.

Definition setCore (w : World) (s : Server) : Server :=
  {| core := w; users := users s; platformsSeq := platformsSeq s;
     replyTemplatesSeq := replyTemplatesSeq s; errorLog := errorLog s |}.

Definition setUsers (l : list User.t) (s : Server) : Server :=
  {| core := core s; users := l; platformsSeq := platformsSeq s;
     replyTemplatesSeq := replyTemplatesSeq s; errorLog := errorLog s |}.

Definition setPlatformsSeq (n : nat) (s : Server) : Server :=
  {| core := core s; users := users s; platformsSeq := n;
     replyTemplatesSeq := replyTemplatesSeq s; errorLog := errorLog s |}.

Definition setReplyTemplatesSeq (n : nat) (s : Server) : Server :=
  {| core := core s; users := users s; platformsSeq := platformsSeq s;
     replyTemplatesSeq := n; errorLog := errorLog s |}.

Definition setTables (d : Database) (s : Server) : Server :=
  setCore (setDb d (core s)) s.

Definition tables (s : Server) : Database := db (core s).

(** *** The statements on the tables *)

(** [insert(users).values(v)]: columns left out take their defaults. *)
Definition insertedUser (v : UpsertUser.t) (now : Date) : User.t :=
  {| User.id := UpsertUser.id v;
     User.username := UpsertUser.username v;
     User.email := default None (UpsertUser.email v);
     User.profileImageUrl := default None (UpsertUser.profileImageUrl v);
     User.createdAt := default (Some now) (UpsertUser.createdAt v) |}.

(** [onConflictDoUpdate({ target: users.id, set: { ...v } })] on the row
    in conflict: the keys present in [v] are written. *)
Definition conflictingUser (v : UpsertUser.t) (row : User.t) : User.t :=
  {| User.id := UpsertUser.id v;
     User.username := UpsertUser.username v;
     User.email := default (User.email row) (UpsertUser.email v);
     User.profileImageUrl :=
       default (User.profileImageUrl row) (UpsertUser.profileImageUrl v);
     User.createdAt := default (User.createdAt row) (UpsertUser.createdAt v) |}.

Definition insertedPlatform (v : InsertPlatform.t) (updatedAt now : Date) (id : nat)
    : Platform.t :=
  {| Platform.id := id;
     Platform.userId := InsertPlatform.userId v;
     Platform.platformName := InsertPlatform.platformName v;
     Platform.platformId := InsertPlatform.platformId v;
     Platform.accessToken := InsertPlatform.accessToken v;
     Platform.refreshToken := InsertPlatform.refreshToken v;
     Platform.tokenExpiry := InsertPlatform.tokenExpiry v;
     Platform.metadata := InsertPlatform.metadata v;
     Platform.createdAt := Some now;
     Platform.updatedAt := Some updatedAt |}.

(** [update(platforms).set({...v, updatedAt})] on one row. *)
Definition updatedPlatform (v : PartialPlatform.t) (updatedAt : Date)
    (row : Platform.t) : Platform.t :=
  {| Platform.id := Platform.id row;
     Platform.userId := default (Platform.userId row) (PartialPlatform.userId v);
     Platform.platformName :=
       default (Platform.platformName row) (PartialPlatform.platformName v);
     Platform.platformId :=
       default (Platform.platformId row) (PartialPlatform.platformId v);
     Platform.accessToken :=
       default (Platform.accessToken row) (PartialPlatform.accessToken v);
     Platform.refreshToken :=
       default (Platform.refreshToken row) (PartialPlatform.refreshToken v);
     Platform.tokenExpiry :=
       default (Platform.tokenExpiry row) (PartialPlatform.tokenExpiry v);
     Platform.metadata := default (Platform.metadata row) (PartialPlatform.metadata v);
     Platform.createdAt := Platform.createdAt row;
     Platform.updatedAt := Some updatedAt |}.

(** [update(reviews).set({ responseText, respondedAt, autoResponded })]
    on one row. *)
Definition respondedReview (responseText : string) (respondedAt : Date)
    (autoResponded : bool) (row : Review.t) : Review.t :=
  {| Review.id := Review.id row;
     Review.userId := Review.userId row;
     Review.platformId := Review.platformId row;
     Review.externalReviewId := Review.externalReviewId row;
     Review.customerName := Review.customerName row;
     Review.reviewText := Review.reviewText row;
     Review.starRating := Review.starRating row;
     Review.responseText := Some responseText;
     Review.responseTone := Review.responseTone row;
     Review.respondedAt := Some respondedAt;
     Review.autoResponded := Some autoResponded;
     Review.createdAt := Review.createdAt row |}.

(** The value of an [integer] column for a number: the number itself if
    it is whole; the database refuses any other. *)
Definition whole (q : Number) : option Z :=
  let n := QArith_base.Qnum q in
  let d := Zpos (QArith_base.Qden q) in
  if (n mod d =? 0)%Z then Some (n / d)%Z else None.

Definition wholeOrNull (q : option Number) : option (option Z) :=
  match q with
  | None => Some None
  | Some q => Some <$> whole q
  end.

Definition insertedReplyTemplate (v : InsertReplyTemplate.t) (starRating : option Z)
    (updatedAt now : Date) (id : nat) : ReplyTemplate.t :=
  {| ReplyTemplate.id := id;
     ReplyTemplate.userId := InsertReplyTemplate.userId v;
     ReplyTemplate.name := InsertReplyTemplate.name v;
     ReplyTemplate.content := InsertReplyTemplate.content v;
     ReplyTemplate.tone := InsertReplyTemplate.tone v;
     ReplyTemplate.starRating := starRating;
     ReplyTemplate.createdAt := Some now;
     ReplyTemplate.updatedAt := Some updatedAt |}.

Definition updatedReplyTemplate (v : PartialReplyTemplate.t)
    (starRating : option (option Z)) (updatedAt : Date) (row : ReplyTemplate.t)
    : ReplyTemplate.t :=
  {| ReplyTemplate.id := ReplyTemplate.id row;
     ReplyTemplate.userId :=
       default (ReplyTemplate.userId row) (PartialReplyTemplate.userId v);
     ReplyTemplate.name := default (ReplyTemplate.name row) (PartialReplyTemplate.name v);
     ReplyTemplate.content :=
       default (ReplyTemplate.content row) (PartialReplyTemplate.content v);
     ReplyTemplate.tone := default (ReplyTemplate.tone row) (PartialReplyTemplate.tone v);
     ReplyTemplate.starRating := default (ReplyTemplate.starRating row) starRating;
     ReplyTemplate.createdAt := ReplyTemplate.createdAt row;
     ReplyTemplate.updatedAt := Some updatedAt |}.

(** [ORDER BY created_at DESC]: the newest first, and a row without a
    date before any with one (PostgreSQL sorts NULL as the largest
    value).  Rows with the same date are kept in table order here; the
    database promises no order among them. *)
Definition notOlder (a b : option Date) : bool :=
  match a, b with
  | None, _ => true
  | Some _, None => false
  | Some x, Some y => (y <=? x)%N
  end.

Fixpoint insertByDate (r : Review.t) (sorted : list Review.t) : list Review.t :=
  match sorted with
  | [] => [r]
  | x :: rest =>
      if notOlder (Review.createdAt r) (Review.createdAt x) then r :: sorted
      else x :: insertByDate r rest
  end.

Definition newestFirst (rows : list Review.t) : list Review.t :=
  foldr insertByDate [] rows.

(** Mapping the rows that a key selects, the others staying. *)
Definition updateWhere {A} (P : A -> Prop) `{!forall x, Decision (P x)}
    (f : A -> A) (l : list A) : list A :=
  (fun x => if decide (P x) then f x else x) <$> l.

(** The effect and the answer of a statement that the database executes;
    [None] when it refuses the statement for its values. *)
Definition performStmt {X} (c : Stmt X) (answer : option string) (now : Date)
    (s : Server) : option (X * Server) :=
  let d := tables s in
  match c in Stmt X return option (X * Server) with
  | SelectUserById id =>
      Some (filter (fun u => User.id u = id) (users s), s)
  | SelectUserByEmail email =>
      Some (filter (fun u => User.email u = Some email) (users s), s)
  | UpsertUserRow v =>
      match filter (fun u => User.id u = UpsertUser.id v) (users s) with
      | [] =>
          let row := insertedUser v now in
          Some ([row], setUsers (users s ++ [row]) s)
      | conflicting =>
          Some (conflictingUser v <$> conflicting,
                setUsers (updateWhere (fun u => User.id u = UpsertUser.id v)
                            (conflictingUser v) (users s)) s)
      end
  | SelectPlatformById id =>
      Some (filter (fun p => Z.of_nat (Platform.id p) = id) (platforms d), s)
  | InsertPlatformRow v updatedAt =>
      let id := S (platformsSeq s) in
      let row := insertedPlatform v updatedAt now id in
      Some ([row], setPlatformsSeq id (setTables (setPlatforms (platforms d ++ [row]) d) s))
  | UpdatePlatformRows id v updatedAt =>
      Some (updatedPlatform v updatedAt <$>
              filter (fun p => Z.of_nat (Platform.id p) = id) (platforms d),
            setTables
              (setPlatforms
                 (updateWhere (fun p => Z.of_nat (Platform.id p) = id)
                    (updatedPlatform v updatedAt) (platforms d)) d) s)
  | SelectReviewById id =>
      Some (filter (fun r => Z.of_nat (Review.id r) = id) (reviews d), s)
  | SelectUserReviews u =>
      Some (newestFirst (filter (fun r => Review.userId r = u) (reviews d)), s)
  | SelectPendingReviews u =>
      Some (newestFirst
              (filter (fun r => Review.userId r = u /\ Review.responseText r = None)
                 (reviews d)), s)
  | UpdateReviewResponseRows id responseText respondedAt autoResponded =>
      Some (respondedReview responseText respondedAt autoResponded <$>
              filter (fun r => Z.of_nat (Review.id r) = id) (reviews d),
            setTables
              (setReviews
                 (updateWhere (fun r => Z.of_nat (Review.id r) = id)
                    (respondedReview responseText respondedAt autoResponded)
                    (reviews d))
                 (reviewsSeq d) d) s)
  | SelectReplyTemplates u =>
      Some (filter (fun t => ReplyTemplate.userId t = u) (replyTemplates d), s)
  | SelectReplyTemplateById id =>
      Some (filter (fun t => Z.of_nat (ReplyTemplate.id t) = id) (replyTemplates d), s)
  | InsertReplyTemplateRow v updatedAt =>
      match wholeOrNull (InsertReplyTemplate.starRating v) with
      | Some starRating =>
          let id := S (replyTemplatesSeq s) in
          let row := insertedReplyTemplate v starRating updatedAt now id in
          Some ([row],
                setReplyTemplatesSeq id
                  (setTables (setReplyTemplates (replyTemplates d ++ [row]) d) s))
      | None => None
      end
  | UpdateReplyTemplateRows id v updatedAt =>
      match match PartialReplyTemplate.starRating v with
            | None => Some None
            | Some q => Some <$> wholeOrNull q
            end with
      | Some starRating =>
          Some (updatedReplyTemplate v starRating updatedAt <$>
                  filter (fun t => Z.of_nat (ReplyTemplate.id t) = id) (replyTemplates d),
                setTables
                  (setReplyTemplates
                     (updateWhere (fun t => Z.of_nat (ReplyTemplate.id t) = id)
                        (updatedReplyTemplate v starRating updatedAt)
                        (replyTemplates d)) d) s)
      | None => None
      end
  | VariationsCompletion _ _ _ _ _ => Some (answer, s)
  end.

(** ** Handlers as functions of the environment and the server *)

Definition Async (A : Type) : Type := Env -> Server -> Outcome A * Server.

Definition ret {A} (a : A) : Async A := fun _ s => (Returned a, s).

Definition raise {A} (f : Failure) : Async A := fun _ s => (Raised f, s).

Definition andThen {A B} (m : Async A) (k : A -> Async B) : Async B :=
  fun e s =>
    match m e s with
    | (Returned a, s') => k a e s'
    | (Raised f, s') => (Raised f, s')
    end.

(** [try { m } catch (error) { h error }] *)
Definition catch {A} (m : Async A) (h : Failure -> Async A) : Async A :=
  fun e s =>
    match m e s with
    | (Returned a, s') => (Returned a, s')
    | (Raised f, s') => h f e s'
    end.

Declare Scope async_scope.
Delimit Scope async_scope with async.
Notation "x <- p ;; k" := (andThen p (fun x => k))
  (at level 100, p at next level, k at level 200, right associativity)
  : async_scope.
Notation "p ;; k" := (andThen p (fun _ => k))
  (at level 100, k at level 200, right associativity) : async_scope.

(** [await p], for a function [p] of the automation's side. *)
Definition call {A} (p : Prog A) : Async A :=
  fun e s =>
    match run (oracle e) p (core s) with
    | (Ok a, w) => (Returned a, setCore w s)
    | (Fail err, w) => (Raised (Js err), setCore w s)
    end.

(** An awaited statement: time passes, then it is refused or performed. *)
Definition query {X} (c : Stmt X) : Async X :=
  fun e s =>
    let n := steps (core s) in
    let s1 := setCore (tick (oracle e) (core s)) s in
    if refuses e n c then (Raised (Js Rejected), s1)
    else
      match performStmt c (completion (oracle e) n) (clock (core s1)) s1 with
      | Some xs => (Returned (fst xs), snd xs)
      | None => (Raised (Js Rejected), s1)
      end.

(** [new Date()] *)
Definition today : Async Date := fun _ s => (Returned (clock (core s)), s).

Definition logError (label : string) (error : Failure) (s : Server) : Server :=
  {| core := core s; users := users s; platformsSeq := platformsSeq s;
     replyTemplatesSeq := replyTemplatesSeq s;
     errorLog := errorLog s ++ [(label, error)] |}.

(** [console.error(label, error)] *)
Definition consoleError (label : string) (error : Failure) : Async unit :=
  fun _ s => (Returned tt, logError label error s).

(** [schema.parse(body)] *)
Definition parse {A} (schema : option Json -> list Issue + A) (body : option Json)
    : Async A :=
  match schema body with
  | inr data => ret data
  | inl issues => raise (ZodError issues)
  end.

(** ** The storage layer, continued ([server/storage.ts]) *)

Definition getUser (id : string) : Async (option User.t) :=
  (rows <- query (SelectUserById id);;
   ret (head rows))%async.

Definition getUserByEmail (email : string) : Async (option User.t) :=
  (rows <- query (SelectUserByEmail email);;
   ret (head rows))%async.

Definition upsertUser (userData : UpsertUser.t) : Async (option User.t) :=
  (rows <- query (UpsertUserRow userData);;
   ret (head rows))%async.

Definition getPlatform (id : Z) : Async (option Platform.t) :=
  (rows <- query (SelectPlatformById id);;
   ret (head rows))%async.

Definition createPlatform (platformData : InsertPlatform.t) : Async (option Platform.t) :=
  (updatedAt <- today;;
   rows <- query (InsertPlatformRow platformData updatedAt);;
   ret (head rows))%async.

Definition updatePlatform (id : Z) (data : PartialPlatform.t) : Async (option Platform.t) :=
  (updatedAt <- today;;
   rows <- query (UpdatePlatformRows id data updatedAt);;
   ret (head rows))%async.

Definition getReviewById (id : Z) : Async (option Review.t) :=
  (rows <- query (SelectReviewById id);;
   ret (head rows))%async.

Definition getUserReviews (userId : string) : Async (list Review.t) :=
  query (SelectUserReviews userId).

Definition getPendingReviews (userId : string) : Async (list Review.t) :=
  query (SelectPendingReviews userId).

Definition reviewNotFound (id : Z) : Err :=
  Error ("Review with ID " +:+ pretty.pretty id +:+ " not found").

(** [autoResponded: boolean = false]: [None] when the argument is left
    out. *)
Definition updateReviewResponse (id : Z) (responseText : string)
    (autoResponded : option bool) : Async Review.t :=
  (let autoResponded := default false autoResponded in
   now <- today;;
   rows <- query (UpdateReviewResponseRows id responseText now autoResponded);;
   match head rows with
   | None => raise (Js (reviewNotFound id))
   | Some updatedReview => ret updatedReview
   end)%async.

Definition getReplyTemplates (userId : string) : Async (list ReplyTemplate.t) :=
  query (SelectReplyTemplates userId).

Definition getReplyTemplate (id : Z) : Async (option ReplyTemplate.t) :=
  (rows <- query (SelectReplyTemplateById id);;
   ret (head rows))%async.

Definition createReplyTemplate (templateData : InsertReplyTemplate.t)
    : Async (option ReplyTemplate.t) :=
  (updatedAt <- today;;
   rows <- query (InsertReplyTemplateRow templateData updatedAt);;
   ret (head rows))%async.

Definition updateReplyTemplate (id : Z) (data : PartialReplyTemplate.t)
    : Async (option ReplyTemplate.t) :=
  (updatedAt <- today;;
   rows <- query (UpdateReplyTemplateRows id data updatedAt);;
   ret (head rows))%async.

(** ** Variations of a response ([server/openai.ts], lines 188-253) *)

Definition variationsFailed : Err :=
  Error "Failed to generate review response variations".

(** [parsed.responses]: reading a property of [null] throws, and any
    other value that is not an object has no such property. *)
Definition responsesOf (parsed : Json) : Async (option Json) :=
  match parsed with
  | JNull => raise (Js TypeError)
  | JObject o => ret (property "responses" o)
  | _ => ret None
  end.

Definition generateResponseVariations (reviewText : string) (starRating : Number)
    (tone language : string) (count : nat) : Async (list Json) :=
  catch
    (content <- query (VariationsCompletion reviewText starRating tone language count);;
     match trim <$> content with
     | None | Some EmptyString => ret [JString defaultResponse]
     | Some content =>
         catch
           (parsed <- (fun e s =>
                         match JSON_parse e content with
                         | Some v => (Returned v, s)
                         | None => (Raised SyntaxError, s)
                         end);;
            responses <- responsesOf parsed;;
            match responses with
            | Some (JArray (r :: rs)) => ret (r :: rs)
            | _ => ret [JString content]
            end)
           (fun e =>
              consoleError "Error parsing OpenAI JSON response:" e;;
              ret [JString content])
     end)%async
    (fun error =>
       consoleError "Error generating response variations from OpenAI:" error;;
       raise (Js variationsFailed))%async.

(** ** The routes ([server/routes.ts]) *)

Inductive Body :=
| NoBody
| Message (message : string)
| ValidationFailed (errors : list Issue)
| UserJson (user : option User.t)
| SettingsJson (settings : option UserSettings.t)
| PlatformJson (platform : option Platform.t)
| PlatformsJson (platforms : list Platform.t)
| ReviewJson (review : option Review.t)
| ReviewsJson (reviews : list Review.t)
| TemplateJson (template : option ReplyTemplate.t)
| TemplatesJson (templates : list ReplyTemplate.t)
| VariationsJson (variations : list Json).

Record Reply := mkReply { code : nat; body : Body }.

(** [res.status(code).json(body)]; [res.json(body)] answers 200. *)
Definition respond (code : nat) (body : Body) : Async Reply :=
  ret {| code := code; body := body |}.

(** The [catch] block of a handler without a schema, and of one with. *)
Definition failed (label message : string) (error : Failure) : Async Reply :=
  (consoleError label error;;
   respond 500 (Message message))%async.

Definition invalidOrFailed (label message : string) (error : Failure) : Async Reply :=
  (consoleError label error;;
   match error with
   | ZodError errors => respond 400 (ValidationFailed errors)
   | _ => respond 500 (Message message)
   end)%async.

(** [GET /api/auth/user] (lines 38-46) *)
Definition getAuthUser (userId : string) : Async Reply :=
  catch
    (user <- getUser userId;;
     respond 200 (UserJson user))%async
    (failed "Error fetching user:" "Failed to fetch user").

(** [GET /api/settings] (lines 49-72) *)
Definition getSettings (userId : string) : Async Reply :=
  catch
    (settings <- call (getUserSettings userId);;
     match settings with
     | None =>
         (* Create default settings if none exist *)
         lastCheckTime <- today;;
         let defaultSettings := {|
           InsertUserSettings.userId := userId;
           InsertUserSettings.defaultTone := Some "Professional";
           InsertUserSettings.language := Some "English";
           InsertUserSettings.autoReplyEnabled := Some false;
           InsertUserSettings.lastCheckTime := Some (Some lastCheckTime) |} in
         newSettings <- call (createUserSettings defaultSettings);;
         respond 200 (SettingsJson newSettings)
     | Some settings => respond 200 (SettingsJson (Some settings))
     end)%async
    (failed "Error fetching user settings:" "Failed to fetch user settings").

(** [PUT /api/settings] (lines 74-99) *)
Definition putSettings (userId : string) (body : option Json) : Async Reply :=
  catch
    (validatedData <- parse userSettingsFormSchema body;;
     updatedSettings <-
       call (updateUserSettings userId
               {| PartialUserSettings.userId := None;
                  PartialUserSettings.defaultTone := Some (formDefaultTone validatedData);
                  PartialUserSettings.language := Some (formLanguage validatedData);
                  PartialUserSettings.autoReplyEnabled :=
                    Some (formAutoReplyEnabled validatedData);
                  PartialUserSettings.lastCheckTime := None |});;
     respond 200 (SettingsJson updatedSettings))%async
    (invalidOrFailed "Error updating user settings:" "Failed to update user settings").

(** [GET /api/platforms] (lines 102-110) *)
Definition getPlatformsRoute (userId : string) : Async Reply :=
  catch
    (platforms <- call (getPlatforms userId);;
     respond 200 (PlatformsJson platforms))%async
    (failed "Error fetching platforms:" "Failed to fetch platforms").

(** [POST /api/platforms] (lines 112-139) *)
Definition postPlatform (userId : string) (body : option Json) : Async Reply :=
  catch
    (validatedData <- parse platformFormSchema body;;
     platform <-
       createPlatform
         {| InsertPlatform.userId := userId;
            InsertPlatform.platformName := formPlatformName validatedData;
            InsertPlatform.platformId := formPlatformId validatedData;
            InsertPlatform.accessToken := formAccessToken validatedData;
            InsertPlatform.refreshToken := formRefreshToken validatedData;
            InsertPlatform.tokenExpiry := None;
            InsertPlatform.metadata := None |};;
     respond 201 (PlatformJson platform))%async
    (invalidOrFailed "Error creating platform:" "Failed to create platform").

(** [PUT /api/platforms/:id] (lines 141-183); [id] is
    [parseInt(req.params.id)], [None] for [NaN]. *)
Definition putPlatform (userId : string) (id : option Z) (body : option Json)
    : Async Reply :=
  catch
    (match id with
     | None => respond 400 (Message "Invalid platform ID")
     | Some platformId =>
         (* Get the platform to verify ownership *)
         platform <- getPlatform platformId;;
         match platform with
         | None => respond 404 (Message "Platform not found")
         | Some platform =>
             if negb (String.eqb (Platform.userId platform) userId)
             then respond 403 (Message "Not authorized to modify this platform")
             else
               validatedData <- parse platformFormSchema body;;
               updatedPlatform <-
                 updatePlatform platformId
                   {| PartialPlatform.userId := None;
                      PartialPlatform.platformName := Some (formPlatformName validatedData);
                      PartialPlatform.platformId := Some (formPlatformId validatedData);
                      PartialPlatform.accessToken := Some <$> formAccessToken validatedData;
                      PartialPlatform.refreshToken :=
                        Some <$> formRefreshToken validatedData;
                      PartialPlatform.tokenExpiry := None;
                      PartialPlatform.metadata := None |};;
               respond 200 (PlatformJson updatedPlatform)
         end
     end)%async
    (invalidOrFailed "Error updating platform:" "Failed to update platform").

(** [DELETE /api/platforms/:id] (lines 185-211) *)
Definition deletePlatformRoute (userId : string) (id : option Z) : Async Reply :=
  catch
    (match id with
     | None => respond 400 (Message "Invalid platform ID")
     | Some platformId =>
         platform <- getPlatform platformId;;
         match platform with
         | None => respond 404 (Message "Platform not found")
         | Some platform =>
             if negb (String.eqb (Platform.userId platform) userId)
             then respond 403 (Message "Not authorized to delete this platform")
             else
               _ <- call (deletePlatform platformId);;
               respond 204 NoBody
         end
     end)%async
    (failed "Error deleting platform:" "Failed to delete platform").

(** [GET /api/reviews] (lines 214-222) *)
Definition getReviews (userId : string) : Async Reply :=
  catch
    (reviews <- getUserReviews userId;;
     respond 200 (ReviewsJson reviews))%async
    (failed "Error fetching reviews:" "Failed to fetch reviews").

(** [GET /api/reviews/:id] (lines 224-246) *)
Definition getReview (userId : string) (id : option Z) : Async Reply :=
  catch
    (match id with
     | None => respond 400 (Message "Invalid review ID")
     | Some reviewId =>
         review <- getReviewById reviewId;;
         match review with
         | None => respond 404 (Message "Review not found")
         | Some review =>
             if negb (String.eqb (Review.userId review) userId)
             then respond 403 (Message "Not authorized to access this review")
             else respond 200 (ReviewJson (Some review))
         end
     end)%async
    (failed "Error fetching review:" "Failed to fetch review").

(** [settings?.language || "English"] *)
Definition languageOf (settings : option UserSettings.t) : string :=
  orString (UserSettings.language <$> settings) "English".

Definition defaultToneOf (settings : option UserSettings.t) : string :=
  orString (UserSettings.defaultTone <$> settings) "Professional".

(** [POST /api/reviews/variations] (lines 294-325) *)
Definition postVariations (userId : string) (body : option Json) : Async Reply :=
  catch
    (validatedData <- parse reviewFormSchema body;;
     settings <- call (getUserSettings userId);;
     let language := languageOf settings in
     variations <-
       generateResponseVariations (formReviewText validatedData)
         (formStarRating validatedData) (formResponseTone validatedData) language 3;;
     respond 200 (VariationsJson variations))%async
    (invalidOrFailed "Error generating response variations:"
       "Failed to generate response variations").

(** [POST /api/simulate-review] (lines 341-389); what
    [simulateNewReviews(1)] returns is the oracle's. *)
Definition postSimulateReview (userId : string) : Async Reply :=
  catch
    (simReviews <- call simulate;;
     match simReviews with
     | [] => respond 500 (Message "Failed to simulate review")
     | simReview :: _ =>
         settings <- call (getUserSettings userId);;
         let defaultTone := defaultToneOf settings in
         let language := languageOf settings in
         responseText <-
           call (generateResponse (SimReview.reviewText simReview)
                   (SimReview.starRating simReview) defaultTone language);;
         platforms <- call (getPlatforms userId);;
         let platformId := Platform.id <$> head platforms in
         review <-
           call (createReview
                   {| InsertReview.userId := userId;
                      InsertReview.platformId := platformId;
                      InsertReview.externalReviewId :=
                        Some (SimReview.externalReviewId simReview);
                      InsertReview.customerName := Some (SimReview.customerName simReview);
                      InsertReview.reviewText := SimReview.reviewText simReview;
                      InsertReview.starRating := SimReview.starRating simReview;
                      InsertReview.responseText := Some responseText;
                      InsertReview.responseTone := defaultTone;
                      InsertReview.respondedAt := None;
                      InsertReview.autoResponded := Some true |});;
         respond 201 (ReviewJson review)
     end)%async
    (failed "Error simulating review:" "Failed to simulate review").

(** [GET /api/templates] (lines 392-400) *)
Definition getTemplates (userId : string) : Async Reply :=
  catch
    (templates <- getReplyTemplates userId;;
     respond 200 (TemplatesJson templates))%async
    (failed "Error fetching templates:" "Failed to fetch templates").

(** [POST /api/templates] (lines 402-429) *)
Definition postTemplate (userId : string) (body : option Json) : Async Reply :=
  catch
    (validatedData <- parse replyTemplateFormSchema body;;
     template <-
       createReplyTemplate
         {| InsertReplyTemplate.userId := userId;
            InsertReplyTemplate.name := formName validatedData;
            InsertReplyTemplate.content := formContent validatedData;
            InsertReplyTemplate.tone := formTone validatedData;
            InsertReplyTemplate.starRating := formTemplateRating validatedData |};;
     respond 201 (TemplateJson template))%async
    (invalidOrFailed "Error creating template:" "Failed to create template").

(** [PUT /api/templates/:id] (lines 431-473) *)
Definition putTemplate (userId : string) (id : option Z) (body : option Json)
    : Async Reply :=
  catch
    (match id with
     | None => respond 400 (Message "Invalid template ID")
     | Some templateId =>
         template <- getReplyTemplate templateId;;
         match template with
         | None => respond 404 (Message "Template not found")
         | Some template =>
             if negb (String.eqb (ReplyTemplate.userId template) userId)
             then respond 403 (Message "Not authorized to modify this template")
             else
               validatedData <- parse replyTemplateFormSchema body;;
               updatedTemplate <-
                 updateReplyTemplate templateId
                   {| PartialReplyTemplate.userId := None;
                      PartialReplyTemplate.name := Some (formName validatedData);
                      PartialReplyTemplate.content := Some (formContent validatedData);
                      PartialReplyTemplate.tone := Some (formTone validatedData);
                      PartialReplyTemplate.starRating :=
                        Some <$> formTemplateRating validatedData |};;
               respond 200 (TemplateJson updatedTemplate)
         end
     end)%async
    (invalidOrFailed "Error updating template:" "Failed to update template").

(** [DELETE /api/templates/:id] (lines 475-501) *)
Definition deleteTemplateRoute (userId : string) (id : option Z) : Async Reply :=
  catch
    (match id with
     | None => respond 400 (Message "Invalid template ID")
     | Some templateId =>
         template <- getReplyTemplate templateId;;
         match template with
         | None => respond 404 (Message "Template not found")
         | Some template =>
             if negb (String.eqb (ReplyTemplate.userId template) userId)
             then respond 403 (Message "Not authorized to delete this template")
             else
               _ <- call (deleteReplyTemplate templateId);;
               respond 204 NoBody
         end
     end)%async
    (failed "Error deleting template:" "Failed to delete template").

(** The requests the routes above serve. *)
Inductive Request :=
| GetAuthUser
| GetSettings
| PutSettings (body : option Json)
| GetPlatforms
| PostPlatform (body : option Json)
| PutPlatform (id : option Z) (body : option Json)
| DeletePlatform (id : option Z)
| GetReviews
| GetReview (id : option Z)
| PostVariations (body : option Json)
| PostSimulateReview
| GetTemplates
| PostTemplate (body : option Json)
| PutTemplate (id : option Z) (body : option Json)
| DeleteTemplate (id : option Z).

Definition handler (userId : string) (request : Request) : Async Reply :=
  match request with
  | GetAuthUser => getAuthUser userId
  | GetSettings => getSettings userId
  | PutSettings body => putSettings userId body
  | GetPlatforms => getPlatformsRoute userId
  | PostPlatform body => postPlatform userId body
  | PutPlatform id body => putPlatform userId id body
  | DeletePlatform id => deletePlatformRoute userId id
  | GetReviews => getReviews userId
  | GetReview id => getReview userId id
  | PostVariations body => postVariations userId body
  | PostSimulateReview => postSimulateReview userId
  | GetTemplates => getTemplates userId
  | PostTemplate body => postTemplate userId body
  | PutTemplate id body => putTemplate userId id body
  | DeleteTemplate id => deleteTemplateRoute userId id
  end.

(** The middleware [extractUserId] (lines 22-28) before a handler;
    [sub] is [req.user?.claims?.sub].  An empty string is falsy. *)
Definition extractUserId (sub : option string) (next : string -> Async Reply)
    : Async Reply :=
  match sub with
  | Some (String a rest) => next (String a rest)
  | Some EmptyString | None => respond 401 (Message "Unauthorized")
  end.

Definition serve (sub : option string) (request : Request) : Async Reply :=
  extractUserId sub (fun userId => handler userId request).

(** ** What the properties of the routes speak of *)

(** The rows of the four tables that belong to other accounts than [u]. *)
Definition othersSettings (u : string) (d : Database) : list UserSettings.t :=
  filter (fun x => UserSettings.userId x <> u) (userSettings d).

Definition othersPlatforms (u : string) (d : Database) : list Platform.t :=
  filter (fun x => Platform.userId x <> u) (platforms d).

Definition othersReviews (u : string) (d : Database) : list Review.t :=
  filter (fun x => Review.userId x <> u) (reviews d).

Definition othersTemplates (u : string) (d : Database) : list ReplyTemplate.t :=
  filter (fun x => ReplyTemplate.userId x <> u) (replyTemplates d).

(** Nothing that belongs to another account than [u] differs between
    the two databases. *)
Definition sameForOthers (u : string) (d d' : Database) : Prop :=
  othersSettings u d' = othersSettings u d /\
  othersPlatforms u d' = othersPlatforms u d /\
  othersReviews u d' = othersReviews u d /\
  othersTemplates u d' = othersTemplates u d.

(** The primary keys of the platforms and of the templates: no id twice. *)
Definition keysDistinct (d : Database) : Prop :=
  NoDup (Platform.id <$> platforms d) /\
  NoDup (ReplyTemplate.id <$> replyTemplates d).

(** An environment in which nothing fails, and a server over a world. *)
Definition quiet : Env :=
  {| oracle := offering; refuses := fun _ _ _ => false;
     JSON_parse := fun _ => None |}.

Definition serverOver (w : World) : Server :=
  {| core := w; users := []; platformsSeq := 2; replyTemplatesSeq := 0;
     errorLog := [] |}.

(** A statement that only reads. *)
Definition readOnly {X} (c : Stmt X) : Prop :=
  match c with
  | SelectUserById _ | SelectUserByEmail _ | SelectPlatformById _
  | SelectReviewById _ | SelectUserReviews _ | SelectPendingReviews _
  | SelectReplyTemplates _ | SelectReplyTemplateById _
  | VariationsCompletion _ _ _ _ _ => True
  | _ => False
  end.

(** What holds of the outcome and the server when the handler is done. *)
Definition wp {A} (m : Async A) (e : Env) (Q : Outcome A -> Server -> Prop)
    (s : Server) : Prop :=
  Q (fst (m e s)) (snd (m e s)).

(** A statement that, issued for account [u] on the tables [d], writes
    rows of [u] only and leaves their owner as it is. *)
Definition ownStmt (u : string) (d : Database) {X} (c : Stmt X) : Prop :=
  match c with
  | InsertPlatformRow v _ => InsertPlatform.userId v = u
  | UpdatePlatformRows id v _ =>
      PartialPlatform.userId v = None /\
      forall p, p ∈ platforms d -> Z.of_nat (Platform.id p) = id -> Platform.userId p = u
  | UpdateReviewResponseRows id _ _ _ =>
      forall r, r ∈ reviews d -> Z.of_nat (Review.id r) = id -> Review.userId r = u
  | InsertReplyTemplateRow v _ => InsertReplyTemplate.userId v = u
  | UpdateReplyTemplateRows id v _ =>
      PartialReplyTemplate.userId v = None /\
      forall t, t ∈ replyTemplates d -> Z.of_nat (ReplyTemplate.id t) = id ->
        ReplyTemplate.userId t = u
  | _ => True
  end.

(** The handler has answered, and nothing of another account than [u]
    differs from the tables [d0]. *)
Definition isolated (u : string) (d0 : Database) {A} (o : Outcome A) (s : Server)
    : Prop :=
  (exists a, o = Returned a) /\ sameForOthers u d0 (tables s).

Definition unauthorized : Reply := {| code := 401; body := Message "Unauthorized" |}.

(** What a request names by the id in its path, on the tables [d]:
    nothing (the route has no id), no number, no row, or a row with its
    owner. *)
Inductive Addressed :=
| NotById
| BadId
| Missing
| OwnedBy (owner : string).

Definition firstOwner {A} (key : A -> nat) (owner : A -> string) (rows : list A)
    (id : option Z) : Addressed :=
  match id with
  | None => BadId
  | Some z =>
      match head (filter (fun x => Z.of_nat (key x) = z) rows) with
      | None => Missing
      | Some row => OwnedBy (owner row)
      end
  end.

Definition addressed (request : Request) (d : Database) : Addressed :=
  match request with
  | PutPlatform id _ | DeletePlatform id =>
      firstOwner Platform.id Platform.userId (platforms d) id
  | GetReview id => firstOwner Review.id Review.userId (reviews d) id
  | PutTemplate id _ | DeleteTemplate id =>
      firstOwner ReplyTemplate.id ReplyTemplate.userId (replyTemplates d) id
  | _ => NotById
  end.

(** The status of the answer. *)
Definition codeOf (o : Outcome Reply) : option nat :=
  match o with
  | Returned reply => Some (code reply)
  | Raised _ => None
  end.

(** [a] comes before [b] in a listing that shows the newest first. *)
Definition newestFirstOrder (a b : Review.t) : Prop :=
  notOlder (Review.createdAt a) (Review.createdAt b) = true.

(** Sample data: a review entered by hand, not answered yet. *)
Definition pendingReview : Review.t :=
  {| Review.id := 5; Review.userId := "u1"; Review.platformId := None;
     Review.externalReviewId := None; Review.customerName := None;
     Review.reviewText := "Not bad, not great.";
     Review.starRating := 3; Review.responseText := None;
     Review.responseTone := "Professional"; Review.respondedAt := None;
     Review.autoResponded := Some false; Review.createdAt := Some 700%N |}.

Definition inbox : Server :=
  serverOver
    (world (boot {| userSettings := [sampleSettings]; platforms := [samplePlatform];
                    reviews := [pendingReview]; replyTemplates := [];
                    userSettingsSeq := 1; reviewsSeq := 5 |} 1000)).

(** Sample data: a settings form. *)
Definition settingsBody : option Json :=
  Some (JObject [("defaultTone", JString "Friendly"); ("language", JString "French");
                 ("autoReplyEnabled", JBool true)]).

(** Sample data: a template form with a rating, and a platform form that
    also names an owner. *)
Definition templateBody (rating : Number) : option Json :=
  Some (JObject [("name", JString "Thanks"); ("content", JString "Thank you!");
                 ("tone", JString "Friendly"); ("starRating", JNumber rating)]).

Definition threeAndAHalf : Number := QArith_base.Qmake 7 2.

Definition platformBody : option Json :=
  Some (JObject [("platformName", JString "Yelp"); ("platformId", JString "y-1");
                 ("userId", JString "u2")]).

(** An environment in which the completion that asks for variations is
    refused. *)
Definition variationsDown : Env :=
  {| oracle := offering;
     refuses := fun X _ c =>
       match c with VariationsCompletion _ _ _ _ _ => true | _ => false end;
     JSON_parse := fun _ => None |}.

(** Sample data: a user, and a login that renames them. *)
Definition alice : User.t :=
  {| User.id := "u1"; User.username := "alice"; User.email := Some "alice@example.com";
     User.profileImageUrl := None; User.createdAt := Some 100%N |}.

Definition renamed : UpsertUser.t :=
  {| UpsertUser.id := "u1"; UpsertUser.username := "alice2"; UpsertUser.email := None;
     UpsertUser.profileImageUrl := None; UpsertUser.createdAt := None |}.

Definition withAlice : Server :=
  {| core := sampleWorld; users := [alice]; platformsSeq := 1; replyTemplatesSeq := 0;
     errorLog := [] |}.

(** Sample data: an environment whose completions are blank, and a
    template form whose name is sixty times the letter e with an acute
    accent (two bytes each in UTF-8). *)
Definition blankEnv : Env :=
  {| oracle := blank; refuses := fun _ _ _ => false; JSON_parse := fun _ => None |}.

Definition accentedName : string :=
  utf8 (mjoin (replicate 60 [195; 169])).

Definition templateNamed (name : string) : option Json :=
  Some (JObject [("name", JString name); ("content", JString "Thank you!");
                 ("tone", JString "Friendly")]).
(** * Reasoning about [run] *)

Section Run.
Variable o : Oracle.

Lemma run_bind {A B} (p : Prog A) (f : A -> Prog B) w :
  run o (bind p f) w =
  match run o p w with
  | (Ok a, w') => run o (f a) w'
  | (Fail e, w') => (Fail e, w')
  end.
Proof. revert w; induction p; intros; simpl; auto. Qed.

Lemma run_tryCatch {A} (p : Prog A) (h : Err -> Prog A) w :
  run o (tryCatch p h) w =
  match run o p w with
  | (Ok a, w') => (Ok a, w')
  | (Fail e, w') => run o (h e) w'
  end.
Proof. revert w; induction p; intros; simpl; auto. Qed.

Lemma run_tryFinally {A} (p : Prog A) (f : Prog unit) w :
  run o (tryFinally p f) w =
  match run o p w with
  | (r, w') =>
      match run o f w' with
      | (Ok _, w'') => (r, w'')
      | (Fail e, w'') => (Fail e, w'')
      end
  end.
Proof.
  revert w; induction p; intros; simpl; auto.
  - rewrite run_bind. destruct (run o f w) as [[[]|e] w']; reflexivity.
  - rewrite run_bind. destruct (run o f w) as [[[]|e'] w']; reflexivity.
Qed.

(** ** Rules for triples *)

Lemma hoare_conseq {A} (P P' : World -> Prop) (p : Prog A) Q Q' E E' :
  hoare o P' p Q' E' ->
  (forall w, P w -> P' w) ->
  (forall a w, Q' a w -> Q a w) ->
  (forall e w, E' e w -> E e w) ->
  hoare o P p Q E.
Proof.
  intros H HP HQ HE w Hw. specialize (H w (HP w Hw)).
  destruct (run o p w) as [[a|e] w']; auto.
Qed.

Lemma hoare_ret {A} (a : A) Q E : hoare o (Q a) (Ret a) Q E.
Proof. intros w Hw; exact Hw. Qed.

Lemma hoare_throw {A} (e : Err) (Q : A -> World -> Prop) E :
  hoare o (E e) (Throw e) Q E.
Proof. intros w Hw; exact Hw. Qed.

Lemma hoare_bind {A B} (p : Prog A) (f : A -> Prog B) P R Q E :
  hoare o P p R E ->
  (forall a, hoare o (R a) (f a) Q E) ->
  hoare o P (bind p f) Q E.
Proof.
  intros Hp Hf w Hw. rewrite run_bind. specialize (Hp w Hw).
  destruct (run o p w) as [[a|e] w']; auto. apply (Hf a w' Hp).
Qed.

Lemma hoare_tryCatch {A} (p : Prog A) (h : Err -> Prog A) P Q R E :
  hoare o P p Q R ->
  (forall e, hoare o (R e) (h e) Q E) ->
  hoare o P (tryCatch p h) Q E.
Proof.
  intros Hp Hh w Hw. rewrite run_tryCatch. specialize (Hp w Hw).
  destruct (run o p w) as [[a|e] w']; auto. apply (Hh e w' Hp).
Qed.

Lemma hoare_tryFinally {A} (p : Prog A) (f : Prog unit) P Q R Q' R' E :
  hoare o P p Q' R' ->
  (forall a, hoare o (Q' a) f (fun _ => Q a) E) ->
  (forall e, hoare o (R' e) f (fun _ => R e) E) ->
  (forall e w, R e w -> E e w) ->
  hoare o P (tryFinally p f) Q E.
Proof.
  intros Hp Hq Hr HRE w Hw. rewrite run_tryFinally. specialize (Hp w Hw).
  destruct (run o p w) as [[a|e] w'].
  - specialize (Hq a w' Hp). destruct (run o f w') as [[[]|e'] w'']; auto.
  - specialize (Hr e w' Hp). destruct (run o f w') as [[[]|e'] w'']; auto.
Qed.

(** A loop with an invariant that may mention the elements already
    visited. *)
Lemma hoare_forEach {X} (xs : list X) (body : X -> Prog unit)
    (I : list X -> World -> Prop) E :
  (forall pre x post, xs = pre ++ x :: post ->
     hoare o (I pre) (body x) (fun _ => I (pre ++ [x])) E) ->
  hoare o (I []) (forEach xs body) (fun _ => I xs) E.
Proof.
  intros Hbody.
  assert (G : forall post pre, xs = pre ++ post ->
            hoare o (I pre) (forEach post body) (fun _ => I xs) E).
  { induction post as [|x post IH]; intros pre Hxs.
    - rewrite app_nil_r in Hxs; subst pre. intros w Hw; exact Hw.
    - simpl. eapply hoare_bind.
      + apply (Hbody pre x post Hxs).
      + intros []. apply IH. rewrite <- app_assoc. exact Hxs. }
  apply (G xs []). reflexivity.
Qed.

Lemma hoare_forEach_inv {X} (xs : list X) (body : X -> Prog unit)
    (I : World -> Prop) E :
  (forall x, x ∈ xs -> hoare o I (body x) (fun _ => I) E) ->
  hoare o I (forEach xs body) (fun _ => I) E.
Proof.
  intros Hbody. apply (hoare_forEach xs body (fun _ => I)).
  intros pre x post ->. apply Hbody. set_solver.
Qed.

Lemma hoare_log (ev : LogEvent) (Q : unit -> World -> Prop) E :
  hoare o (fun w => Q tt (logEvent ev w)) (log ev) Q E.
Proof. intros w Hw; exact Hw. Qed.

Lemma hoare_newDate (Q : Date -> World -> Prop) E :
  hoare o (fun w => Q (clock w) w) newDate Q E.
Proof. intros w Hw; exact Hw. Qed.

Lemma hoare_simulate (Q : list SimReview.t -> World -> Prop) E :
  hoare o (fun w => Q (simulated o (steps w)) (nextStep w)) simulate Q E.
Proof. intros w Hw; exact Hw. Qed.

Lemma hoare_has u (Q : bool -> World -> Prop) E :
  hoare o (fun w => Q (bool_decide (u ∈ processingUsers w)) w) (has u) Q E.
Proof. intros w Hw; exact Hw. Qed.

Lemma hoare_add u (Q : unit -> World -> Prop) E :
  hoare o (fun w => Q tt (setProcessing ({[u]} ∪ processingUsers w) w)) (add u) Q E.
Proof. intros w Hw; exact Hw. Qed.

Lemma hoare_delete u (Q : unit -> World -> Prop) E :
  hoare o (fun w => Q tt (setProcessing (processingUsers w ∖ {[u]}) w)) (delete_ u) Q E.
Proof. intros w Hw; exact Hw. Qed.

Lemma hoare_await {X} (c : Call X) (Q : X -> World -> Prop) E :
  hoare o (fun w => match exec o c w with
                  | (Ok x, w') => Q x w'
                  | (Fail e, w') => E e w'
                  end) (await c) Q E.
Proof.
  intros w Hw. simpl. destruct (exec o c w) as [[x|e] w']; exact Hw.
Qed.

End Run.

(** * Equations of [run] on the primitive programs *)

Section RunPrimitives.
Variable o : Oracle.

Lemma run_ret {A} (a : A) w : run o (Ret a) w = (Ok a, w).
Proof. reflexivity. Qed.

Lemma run_throw {A} e w : run o (@Throw A e) w = (Fail e, w).
Proof. reflexivity. Qed.

Lemma run_await {X} (c : Call X) w : run o (await c) w = exec o c w.
Proof. unfold await. simpl. destruct (exec o c w) as [[x|e] w']; reflexivity. Qed.

Lemma run_yield {A} (k : Prog A) w : run o (Yield k) w = run o k w.
Proof. reflexivity. Qed.

(** Run on its own, a program is not affected by where it yields. *)
Lemma run_awaitCall {A} (p : Prog A) w : run o (awaitCall p) w = run o p w.
Proof.
  unfold awaitCall. rewrite run_tryCatch, run_bind.
  destruct (run o p w) as [[a|e] w']; reflexivity.
Qed.

Lemma run_log ev w : run o (log ev) w = (Ok tt, logEvent ev w).
Proof. reflexivity. Qed.

Lemma run_newDate w : run o newDate w = (Ok (clock w), w).
Proof. reflexivity. Qed.

Lemma run_simulate w : run o simulate w = (Ok (simulated o (steps w)), nextStep w).
Proof. reflexivity. Qed.

Lemma run_has u w :
  run o (has u) w = (Ok (bool_decide (u ∈ processingUsers w)), w).
Proof. reflexivity. Qed.

Lemma run_add u w :
  run o (add u) w = (Ok tt, setProcessing ({[u]} ∪ processingUsers w) w).
Proof. reflexivity. Qed.

Lemma run_delete u w :
  run o (delete_ u) w = (Ok tt, setProcessing (processingUsers w ∖ {[u]}) w).
Proof. reflexivity. Qed.

End RunPrimitives.

Create Rewrite HintDb run.
#[global] Hint Rewrite @run_awaitCall @run_bind @run_tryCatch @run_tryFinally
  @run_ret @run_throw @run_yield @run_await @run_log @run_newDate @run_simulate
  @run_has @run_add @run_delete : run.

(** Unfold one layer of a straight-line program under [run]. *)
Ltac run_simpl := repeat (autorewrite with run; cbn beta iota zeta).

(** * External calls *)

Lemma exec_rejected {X} o (c : Call X) w :
  rejects o (steps w) c = true -> exec o c w = (Fail Rejected, tick o w).
Proof. intros H. unfold exec. rewrite H, orb_true_r. reflexivity. Qed.

Lemma exec_violated {X} o (c : Call X) w :
  violates c (db w) = true -> exec o c w = (Fail Rejected, tick o w).
Proof. intros H. unfold exec. rewrite H. reflexivity. Qed.

Lemma exec_performed {X} o (c : Call X) w :
  violates c (db w) || rejects o (steps w) c = false ->
  exec o c w =
  (Ok (fst (perform c (completion o (steps w)) (clock (tick o w)) (db w))),
   setDb (snd (perform c (completion o (steps w)) (clock (tick o w)) (db w)))
     (tick o w)).
Proof. intros H. unfold exec. rewrite H. reflexivity. Qed.

Lemma exec_cases {X} o (c : Call X) w :
  exec o c w = (Fail Rejected, tick o w) \/
  exec o c w =
  (Ok (fst (perform c (completion o (steps w)) (clock (tick o w)) (db w))),
   setDb (snd (perform c (completion o (steps w)) (clock (tick o w)) (db w)))
     (tick o w)).
Proof.
  destruct (violates c (db w) || rejects o (steps w) c) eqn:H.
  - left. unfold exec. rewrite H. reflexivity.
  - right. apply exec_performed, H.
Qed.

(** * Tables as lists *)

Lemma filter_all {A} (P : A -> Prop) `{!forall x, Decision (P x)} (l : list A) :
  (forall x, x ∈ l -> P x) -> filter P l = l.
Proof.
  induction l as [|a l IH]; intros Hall; [reflexivity|].
  rewrite filter_cons_True by (apply Hall; left).
  f_equal. apply IH. intros x Hx. apply Hall. right. exact Hx.
Qed.

Lemma filter_none {A} (P : A -> Prop) `{!forall x, Decision (P x)} (l : list A) :
  (forall x, x ∈ l -> ~ P x) -> filter P l = [].
Proof.
  induction l as [|a l IH]; intros Hall; [reflexivity|].
  rewrite filter_cons_False by (apply Hall; left).
  apply IH. intros x Hx. apply Hall. right. exact Hx.
Qed.

Lemma orString_truthy (x : option string) (d : string) :
  orString x d =
  match x with
  | Some t => if decide (t = "") then d else t
  | None => d
  end.
Proof. destruct x as [[|a s]|]; reflexivity. Qed.

(** * The pipeline never raises *)

Lemma tryCatch_log_returns o (p : Prog unit) (ev : Err -> LogEvent) w :
  fst (run o (tryCatch p (fun e => log (ev e))) w) = Ok tt.
Proof.
  rewrite run_tryCatch. destruct (run o p w) as [[[]|e] w']; reflexivity.
Qed.

Lemma processUserReviews_returns o u tone lang w :
  fst (run o (processUserReviews u tone lang) w) = Ok tt.
Proof.
  unfold processUserReviews. rewrite run_bind, run_log. cbn beta iota.
  apply tryCatch_log_returns.
Qed.

Lemma processUserReviews_run o u tone lang w :
  run o (processUserReviews u tone lang) w =
  (Ok tt, snd (run o (processUserReviews u tone lang) w)).
Proof.
  pose proof (processUserReviews_returns o u tone lang w) as H.
  destruct (run o (processUserReviews u tone lang) w) as [r w']; simpl in *.
  subst. reflexivity.
Qed.

(** * The manual trigger, step by step *)

Lemma checkUserReviewsNow_busy o u w :
  u ∈ processingUsers w ->
  run o (checkUserReviewsNow u) w = (Fail busyError, w).
Proof.
  intros Hin. unfold checkUserReviewsNow. rewrite run_bind, run_has.
  cbn beta iota. rewrite bool_decide_eq_true_2 by exact Hin. reflexivity.
Qed.

Lemma checkUserReviewsNow_free o u w :
  u ∉ processingUsers w ->
  run o (checkUserReviewsNow u) w =
  let w1 := setProcessing ({[u]} ∪ processingUsers w) w in
  match exec o (SelectUserSettings u) w1 with
  | (Fail e, w2) => (Fail e, release u w2)
  | (Ok rows, w2) =>
      match head rows with
      | None => (Fail noSettingsError, release u w2)
      | Some s =>
          (Ok tt,
           release u
             (snd (run o (processUserReviews u (UserSettings.defaultTone s)
                            (UserSettings.language s)) w2)))
      end
  end.
Proof.
  intros Hout. unfold checkUserReviewsNow. rewrite run_bind, run_has.
  cbn beta iota. rewrite bool_decide_eq_false_2 by exact Hout.
  rewrite run_tryFinally, run_bind, run_add. cbn beta iota zeta.
  unfold getUserSettings. run_simpl.
  destruct (exec o (SelectUserSettings u) _) as [[rows|e] w2]; run_simpl;
    [|reflexivity].
  destruct (head rows) as [s|]; run_simpl; [|reflexivity].
  rewrite processUserReviews_run. reflexivity.
Qed.

Lemma select_settings_absent u w :
  settingsAbsent u w ->
  filter (fun s => UserSettings.userId s = u) (userSettings (db w)) = [].
Proof. intros H. apply filter_none. exact H. Qed.

Lemma select_settings_present u w :
  hasSettings u w ->
  exists s, head (filter (fun s => UserSettings.userId s = u) (userSettings (db w)))
            = Some s.
Proof.
  intros (s0 & Hs0 & Hu).
  destruct (filter (fun s => UserSettings.userId s = u) (userSettings (db w)))
    as [|s l] eqn:E.
  - exfalso. eapply (filter_nil_not_elem_of _ _ s0 E); [exact Hu | exact Hs0].
  - exists s. reflexivity.
Qed.

(** On a missing prerequisite the pipeline writes no review. *)
Lemma processUserReviews_early_exit o u tone lang w :
  noPlatformConnected u w \/ settingsAbsent u w ->
  reviews (db (snd (run o (processUserReviews u tone lang) w))) = reviews (db w).
Proof.
  intros Hmiss. unfold processUserReviews, getPlatforms, getUserSettings.
  run_simpl. set (w0 := logEvent _ w).
  destruct (exec_cases o (SelectPlatforms u) w0) as [-> | ->]; run_simpl;
    [reflexivity|].
  cbn [perform fst snd].
  destruct (filter _ (platforms (db w0))) as [|p ps] eqn:Eps; cbn [length Nat.eqb];
    run_simpl; [reflexivity|].
  destruct Hmiss as [Hnp | Habs].
  { exfalso. assert (Hp : p ∈ filter (fun p => Platform.userId p = u) (platforms (db w0))).
    { rewrite Eps. left. }
    apply list_elem_of_filter in Hp as [Hu Hp]. exact (Hnp p Hp Hu). }
  set (w1 := setDb _ _).
  destruct (exec_cases o (SelectUserSettings u) w1) as [-> | ->]; run_simpl;
    [reflexivity|].
  cbn [perform fst snd].
  rewrite (select_settings_absent u w1) by exact Habs. cbn [head]. run_simpl.
  reflexivity.
Qed.

(** * The service and its timer *)

Lemma resume_service o i rt :
  service (resume o i rt) = service rt /\ intervals (resume o i rt) = intervals rt /\
  handles (resume o i rt) = handles rt.
Proof.
  unfold resume. destruct (tasks rt !! i) as [[]|]; repeat split.
Qed.

Lemma start_running o rt :
  isRunning (service rt) = true -> start o rt = rt.
Proof. intros H. unfold start. rewrite H. reflexivity. Qed.

Lemma stop_stopped rt :
  isRunning (service rt) = false -> stop rt = rt.
Proof. intros H. unfold stop. rewrite H. reflexivity. Qed.

Lemma start_is_running o rt : isRunning (service (start o rt)) = true.
Proof.
  unfold start. destruct (isRunning (service rt)) eqn:E; [exact E|reflexivity].
Qed.

Lemma stop_is_stopped rt : isRunning (service (stop rt)) = false.
Proof.
  unfold stop. destruct (isRunning (service rt)) eqn:E; cbn [negb]; [|exact E].
  cbn. destruct (timer (service rt)); reflexivity.
Qed.

Lemma timerConsistent_step o rt ev :
  timerConsistent rt -> timerConsistent (step o rt ev).
Proof.
  intros H. destruct ev; cbn [step].
  - destruct H as [(Hr & Ht & Hi) | (h & Hr & Ht & Hi)].
    + right. exists (handles rt). unfold start. rewrite Hr. cbn.
      rewrite Hi. repeat split.
    + rewrite start_running by exact Hr. right. exists h. repeat split; assumption.
  - destruct H as [(Hr & Ht & Hi) | (h & Hr & Ht & Hi)].
    + rewrite stop_stopped by exact Hr. left. repeat split; assumption.
    + left. unfold stop. rewrite Hr. cbn. rewrite Ht. cbn. rewrite Hi.
      cbn. rewrite decide_False by (intros Hne; apply Hne; reflexivity).
      repeat split.
  - destruct (bool_decide _); [|exact H]. exact H.
  - exact H.
  - exact H.
  - destruct (resume_service o i rt) as (Hs & Hi & _).
    unfold timerConsistent. rewrite Hs, Hi. exact H.
  - exact H.
Qed.

Lemma timerConsistent_loop o evs rt :
  timerConsistent rt -> timerConsistent (loop o evs rt).
Proof.
  revert rt. induction evs as [|ev evs IH]; intros rt H; [exact H|].
  apply IH, timerConsistent_step, H.
Qed.

(** * Footprints and frames *)

Section Within.
Variable P : forall X, Call X -> Prop.

Lemma within_bind {A B} (p : Prog A) (f : A -> Prog B) :
  within P p -> (forall a, within P (f a)) -> within P (bind p f).
Proof.
  intros Hp Hf. induction p; simpl in *; try tauto; auto.
  destruct Hp as [Hc Hk]. split; auto.
Qed.

Lemma within_tryCatch {A} (p : Prog A) (h : Err -> Prog A) :
  within P p -> (forall e, within P (h e)) -> within P (tryCatch p h).
Proof.
  intros Hp Hh. induction p; simpl in *; try tauto; auto.
  destruct Hp as [Hc Hk]. split; auto.
Qed.

Lemma within_forEach {X} (xs : list X) (body : X -> Prog unit) :
  (forall x, within P (body x)) -> within P (forEach xs body).
Proof.
  intros Hb. induction xs as [|x xs IH]; simpl; [exact I|].
  apply within_bind; auto.
Qed.

Lemma within_await {X} (c : Call X) : P X c -> within P (await c).
Proof. intros Hc. split; [exact Hc|]. intros [x|e]; exact I. Qed.

Lemma within_awaitCall {A} (p : Prog A) : within P p -> within P (awaitCall p).
Proof.
  intros Hp. unfold awaitCall. apply within_tryCatch.
  - apply within_bind; [exact Hp|]. intros a. exact I.
  - intros e. exact I.
Qed.

Lemma within_log ev : within P (log ev).
Proof. exact I. Qed.

Lemma within_newDate : within P newDate.
Proof. intros d. exact I. Qed.

Lemma within_simulate : within P simulate.
Proof. intros l. exact I. Qed.

End Within.

Lemma within_weaken {A} (P Q : forall X, Call X -> Prop) (p : Prog A) :
  (forall X c, P X c -> Q X c) -> within P p -> within Q p.
Proof.
  intros HPQ. induction p; simpl; auto.
  intros [Hc Hk]. split; auto.
Qed.

(** A relation between worlds that every step of a program respects is
    respected by its run. *)
Section Frame.
Variable o : Oracle.
Variable P : forall X, Call X -> Prop.
Variable R : World -> World -> Prop.
Hypothesis R_refl : forall w, R w w.
Hypothesis R_trans : forall w1 w2 w3, R w1 w2 -> R w2 w3 -> R w1 w3.
Hypothesis R_log : forall ev w, R w (logEvent ev w).
Hypothesis R_next : forall w, R w (nextStep w).
Hypothesis R_exec : forall X (c : Call X) w, P X c -> R w (snd (exec o c w)).

Lemma run_frame {A} (p : Prog A) w : within P p -> R w (snd (run o p w)).
Proof.
  revert w. induction p; intros w Hp; simpl in *; try tauto; auto.
  - eapply R_trans; [apply R_log|]. apply IHp, Hp.
  - eapply R_trans; [apply R_next|]. apply H, Hp.
  - destruct Hp as [Hc Hk]. eapply R_trans; [apply (R_exec _ c w Hc)|].
    apply H, Hk.
Qed.
End Frame.

Lemma exec_snd_cases {X} o (c : Call X) w :
  snd (exec o c w) = tick o w \/
  snd (exec o c w) =
    setDb (snd (perform c (completion o (steps w)) (clock (tick o w)) (db w)))
      (tick o w).
Proof. destruct (exec_cases o c w) as [-> | ->]; [left|right]; reflexivity. Qed.

Lemma run_baseFrame o u {A} (p : Prog A) w :
  within (ownedBy u) p -> baseFrame w (snd (run o p w)).
Proof.
  apply run_frame; clear; unfold baseFrame.
  - intros w. split_and!; auto; try lia. exists []. rewrite app_nil_r. reflexivity.
  - intros w1 w2 w3 (Hp & Hc & [l Hl] & Hpl & Ht) (Hp' & Hc' & [l' Hl'] & Hpl' & Ht').
    split_and!; try congruence; try lia.
    exists (l ++ l'). rewrite Hl', Hl, app_assoc. reflexivity.
  - intros ev w. cbn. split_and!; auto; try lia. eexists. reflexivity.
  - intros w. cbn. split_and!; auto; try lia. exists []. rewrite app_nil_r. reflexivity.
  - intros X c w Hc.
    assert (Hnil : exists l, console w = console w ++ l).
    { exists []. rewrite app_nil_r. reflexivity. }
    destruct (exec_snd_cases o c w) as [-> | ->].
    + cbn. split_and!; auto; lia.
    + destruct c; cbn in Hc; try contradiction;
        cbn; split_and!; auto; lia.
Qed.

Lemma run_settingsFrame o {A} (p : Prog A) w :
  within reviewsOnly p -> settingsFrame w (snd (run o p w)).
Proof.
  apply run_frame; clear; unfold settingsFrame.
  - reflexivity.
  - intros; congruence.
  - reflexivity.
  - reflexivity.
  - intros X c w Hc. destruct (exec_snd_cases o c w) as [-> | ->]; [reflexivity|].
    destruct c; cbn in Hc; try contradiction; reflexivity.
Qed.

Lemma run_reviewsFrame o {A} (p : Prog A) w :
  within noReviewWritten p -> reviewsFrame w (snd (run o p w)).
Proof.
  apply run_frame; clear; unfold reviewsFrame.
  - reflexivity.
  - intros; congruence.
  - reflexivity.
  - reflexivity.
  - intros X c w Hc. destruct (exec_snd_cases o c w) as [-> | ->]; [reflexivity|].
    destruct c; cbn in Hc; try contradiction; reflexivity.
Qed.

Lemma filter_fmap_other {A} (P : A -> Prop) `{!forall x, Decision (P x)}
    (f : A -> A) (l : list A) :
  (forall x, P (f x) <-> P x) -> (forall x, P x -> f x = x) ->
  filter P (f <$> l) = filter P l.
Proof.
  intros Hiff Hid. induction l as [|a l IH]; [reflexivity|].
  rewrite fmap_cons, !filter_cons, IH.
  destruct (decide (P a)) as [Ha|Ha].
  - rewrite decide_True by (apply Hiff, Ha). rewrite (Hid a Ha). reflexivity.
  - rewrite decide_False by (rewrite Hiff; exact Ha). reflexivity.
Qed.

Lemma run_otherSettingsFrame o u b {A} (p : Prog A) w :
  u <> b -> within (ownedBy u) p -> otherSettingsFrame b w (snd (run o p w)).
Proof.
  intros Hne. revert w. apply run_frame; unfold otherSettingsFrame, settingsOf.
  - reflexivity.
  - intros; congruence.
  - reflexivity.
  - reflexivity.
  - intros X c w Hc. destruct (exec_snd_cases o c w) as [-> | ->]; [reflexivity|].
    destruct c; cbn in Hc; try contradiction; try reflexivity; cbn.
    + rewrite filter_app. rewrite filter_cons_False, filter_nil, app_nil_r; [reflexivity|].
      cbn. congruence.
    + destruct Hc as [-> Hv]. apply filter_fmap_other.
      * intros s. destruct (decide (UserSettings.userId s = u)) as [Hs|Hs]; [|reflexivity].
        cbn. rewrite Hv. cbn. split; congruence.
      * intros s Hs. rewrite decide_False by congruence. reflexivity.
Qed.

(** ** Footprints of the embedded programs *)

Ltac within_with known :=
  repeat first
    [ exact I
    | known
    | apply within_log | apply within_newDate | apply within_simulate
    | apply within_await
    | apply within_awaitCall
    | apply within_bind | apply within_tryCatch | apply within_forEach
    | match goal with
      | |- within _ (match ?x with _ => _ end) => destruct x
      | |- forall _, _ => intro
      end ].

Ltac within_tac := within_with fail.

Lemma generateResponse_within (P : forall X, Call X -> Prop) reviewText starRating tone language :
  P _ (ChatCompletion reviewText starRating tone language) ->
  within P (generateResponse reviewText starRating tone language).
Proof. intros H. unfold generateResponse. within_tac. exact H. Qed.

Lemma getPlatforms_within (P : forall X, Call X -> Prop) u :
  P _ (SelectPlatforms u) -> within P (getPlatforms u).
Proof. intros H. unfold getPlatforms. within_tac. exact H. Qed.

Lemma getUserSettings_within (P : forall X, Call X -> Prop) u :
  P _ (SelectUserSettings u) -> within P (getUserSettings u).
Proof. intros H. unfold getUserSettings. within_tac. exact H. Qed.

Lemma createUserSettings_within (P : forall X, Call X -> Prop) v :
  (forall t, P _ (InsertUserSettingsRow v t)) -> within P (createUserSettings v).
Proof. intros H. unfold createUserSettings. within_tac. apply H. Qed.

Lemma updateUserSettings_within (P : forall X, Call X -> Prop) u v :
  (forall t, P _ (UpdateUserSettingsRows u v t)) ->
  (forall v' t, InsertUserSettings.userId v' = u -> P _ (InsertUserSettingsRow v' t)) ->
  within P (updateUserSettings u v).
Proof.
  intros Hu Hi. unfold updateUserSettings. within_tac; try apply Hu;
    apply createUserSettings_within; intros t; apply Hi; reflexivity.
Qed.

Lemma createReview_within (P : forall X, Call X -> Prop) v :
  P _ (InsertReviewRow v) -> within P (createReview v).
Proof. intros H. unfold createReview. within_tac. exact H. Qed.

Lemma reviewLoopBody_within u tone lang platform review :
  within (reviewCallOf u) (reviewLoopBody u tone lang platform review).
Proof.
  unfold reviewLoopBody. within_tac.
  - split; reflexivity.
  - apply generateResponse_within. split; exact I.
  - apply createReview_within. split; [reflexivity | exact I].
Qed.

Lemma platformLoopBody_within u tone lang platform :
  within (reviewCallOf u) (platformLoopBody u tone lang platform).
Proof.
  unfold platformLoopBody. within_with ltac:(apply reviewLoopBody_within).
Qed.

Lemma platformLoop_within u tone lang ps :
  within (reviewCallOf u) (forEach ps (platformLoopBody u tone lang)).
Proof. apply within_forEach. intros p. apply platformLoopBody_within. Qed.

Lemma processUserReviews_within u tone lang :
  within (ownedBy u) (processUserReviews u tone lang).
Proof.
  assert (Hloop : forall p, within (ownedBy u) (platformLoopBody u tone lang p)).
  { intros p. eapply within_weaken; [|apply platformLoopBody_within].
    intros X c [H _]. exact H. }
  assert (Hupd : forall d, within (ownedBy u) (updateUserSettings u (watermark d))).
  { intros d. apply updateUserSettings_within.
    - intros t. split; reflexivity.
    - intros v' t Hv. exact Hv. }
  unfold processUserReviews.
  within_with ltac:(first [ apply Hloop | apply Hupd
                          | apply getPlatforms_within; reflexivity
                          | apply getUserSettings_within; reflexivity ]).
Qed.

(** * One candidate review

    What the body of the loop over the candidates does to the reviews
    table: nothing, or one new row for a pair that had none. *)

Lemma generateResponse_reviews o a b c d w :
  reviews (db (snd (run o (generateResponse a b c d) w))) = reviews (db w).
Proof.
  apply run_reviewsFrame, generateResponse_within. exact I.
Qed.

Lemma reviewLoopBody_effect o u tone lang platform review w :
  let w' := snd (run o (reviewLoopBody u tone lang platform review) w) in
  reviews (db w') = reviews (db w) \/
  (copies u (SimReview.externalReviewId review) w = 0 /\
   exists row,
     reviews (db w') = reviews (db w) ++ [row] /\
     Review.userId row = u /\
     Review.externalReviewId row = Some (SimReview.externalReviewId review)).
Proof.
  cbn zeta. unfold reviewLoopBody.
  rewrite run_tryCatch, run_bind, run_await.
  destruct (exec_cases o (FindReviews u (SimReview.externalReviewId review)) w)
    as [-> | ->]; cbn beta iota; [left; reflexivity|].
  cbn [perform fst snd].
  change (length (filter _ (reviews (db w))))
    with (copies u (SimReview.externalReviewId review) w).
  destruct (copies u (SimReview.externalReviewId review) w) as [|n] eqn:Hc;
    cbn [Nat.ltb Nat.leb]; [|left; reflexivity].
  rewrite run_bind, run_awaitCall.
  set (w1 := setDb (db w) (tick o w)).
  pose proof (generateResponse_reviews o (SimReview.reviewText review)
                (SimReview.starRating review) tone lang w1) as Hgen.
  destruct (run o (generateResponse _ _ _ _) w1) as [[text|e] w2];
    cbn [snd] in Hgen; cbn beta iota; [|left; exact Hgen].
  rewrite run_bind, run_newDate. cbn beta iota.
  rewrite run_bind, run_awaitCall. unfold createReview. rewrite run_bind, run_await.
  destruct (exec_cases o (InsertReviewRow
             {| InsertReview.userId := u;
                InsertReview.platformId := Some (Platform.id platform);
                InsertReview.externalReviewId := Some (SimReview.externalReviewId review);
                InsertReview.customerName := Some (SimReview.customerName review);
                InsertReview.reviewText := SimReview.reviewText review;
                InsertReview.starRating := SimReview.starRating review;
                InsertReview.responseText := Some text;
                InsertReview.responseTone := tone;
                InsertReview.respondedAt := Some (clock w2);
                InsertReview.autoResponded := Some true |}) w2)
    as [-> | ->]; cbn beta iota; [left; exact Hgen|].
  cbn [perform fst snd head]. run_simpl.
  right. split; [reflexivity|]. eexists. cbn. rewrite Hgen. cbn.
  split; [reflexivity|]. split; reflexivity.
Qed.

(** * Properties maintained along a run *)

Section Maintains.
Variable o : Oracle.
Variable I : World -> Prop.

Lemma maintains_snd {A} (p : Prog A) w :
  maintains o I p -> I w -> I (snd (run o p w)).
Proof.
  intros H Hw. specialize (H w Hw). destruct (run o p w) as [[a|e] w']; exact H.
Qed.

Lemma maintains_of_snd {A} (p : Prog A) :
  (forall w, I w -> I (snd (run o p w))) -> maintains o I p.
Proof.
  intros H w Hw. specialize (H w Hw). destruct (run o p w) as [[a|e] w']; exact H.
Qed.

Lemma maintains_bind {A B} (p : Prog A) (f : A -> Prog B) :
  maintains o I p -> (forall a, maintains o I (f a)) -> maintains o I (bind p f).
Proof. intros Hp Hf. eapply hoare_bind; [exact Hp|exact Hf]. Qed.

Lemma maintains_tryCatch {A} (p : Prog A) h :
  maintains o I p -> (forall e, maintains o I (h e)) -> maintains o I (tryCatch p h).
Proof. intros Hp Hh. eapply hoare_tryCatch; [exact Hp|exact Hh]. Qed.

Lemma maintains_forEach {X} (xs : list X) (body : X -> Prog unit) :
  (forall x, maintains o I (body x)) -> maintains o I (forEach xs body).
Proof. intros Hb. apply hoare_forEach_inv. intros x _. apply Hb. Qed.

Lemma maintains_frame {A} (R : World -> World -> Prop) (p : Prog A) :
  (forall w, R w (snd (run o p w))) ->
  (forall w w', I w -> R w w' -> I w') ->
  maintains o I p.
Proof.
  intros Hframe HI. apply maintains_of_snd. intros w Hw.
  apply (HI w); [exact Hw|]. apply Hframe.
Qed.
End Maintains.

(** * Duplicate suppression *)

Lemma copies_reviews u e w w' :
  reviews (db w') = reviews (db w) -> copies u e w' = copies u e w.
Proof. unfold copies. intros ->. reflexivity. Qed.

Lemma noNewDuplicates_reviews w0 w w' :
  noNewDuplicates w0 w -> reviewsFrame w w' -> noNewDuplicates w0 w'.
Proof.
  intros H Hr u e. rewrite (copies_reviews u e w w' Hr). apply H.
Qed.

Lemma maintains_noNewDuplicates_frame o w0 {A} (p : Prog A) :
  within noReviewWritten p -> maintains o (noNewDuplicates w0) p.
Proof.
  intros Hp. apply maintains_frame with (R := reviewsFrame).
  - intros w. apply run_reviewsFrame, Hp.
  - apply noNewDuplicates_reviews.
Qed.

Lemma reviewLoopBody_noNewDuplicates o w0 u tone lang platform review :
  maintains o (noNewDuplicates w0) (reviewLoopBody u tone lang platform review).
Proof.
  apply maintains_of_snd. intros w Hw.
  destruct (reviewLoopBody_effect o u tone lang platform review w)
    as [Hsame | (Hzero & row & Hrows & Hu & He)].
  - eapply noNewDuplicates_reviews; [exact Hw|exact Hsame].
  - intros u' e'. specialize (Hw u' e'). revert Hw. unfold copies.
    rewrite Hrows, filter_app, length_app, filter_cons, filter_nil.
    destruct (decide _) as [[Hu' He']|Hno]; cbn [length]; [|lia].
    assert (Hz : copies u' e' w = 0).
    { replace u' with u by congruence.
      replace e' with (SimReview.externalReviewId review) by congruence.
      exact Hzero. }
    unfold copies in Hz. rewrite Hz. lia.
Qed.

Lemma processUserReviews_noNewDuplicates o w0 u tone lang :
  maintains o (noNewDuplicates w0) (processUserReviews u tone lang).
Proof.
  pose proof (fun ev => maintains_noNewDuplicates_frame o w0 (log ev)
                          (within_log _ ev)) as Hlog.
  unfold processUserReviews.
  apply maintains_bind; [apply Hlog|]. intros _.
  apply maintains_tryCatch; [|intros e; apply Hlog].
  apply maintains_bind.
  { apply maintains_noNewDuplicates_frame, within_awaitCall, getPlatforms_within.
    exact I. }
  intros platforms. destruct (length platforms =? 0)%nat; [apply Hlog|].
  apply maintains_bind.
  { apply maintains_noNewDuplicates_frame, within_awaitCall, getUserSettings_within.
    exact I. }
  intros [settings|]; [|apply Hlog].
  apply maintains_bind.
  { apply maintains_forEach. intros platform. unfold platformLoopBody.
    apply maintains_tryCatch; [|intros e; apply Hlog].
    apply maintains_bind; [apply Hlog|]. intros _.
    apply maintains_bind.
    { apply maintains_noNewDuplicates_frame, within_simulate. }
    intros newReviews. apply maintains_forEach. intros review.
    apply reviewLoopBody_noNewDuplicates. }
  intros _. apply maintains_bind.
  { apply maintains_noNewDuplicates_frame, within_newDate. }
  intros now. apply maintains_bind; [|intros _; apply Hlog].
  apply maintains_noNewDuplicates_frame, within_awaitCall, updateUserSettings_within;
    intros; exact I.
Qed.

(** * The response generator *)

Lemma includes_elem_of l s : includes l s = true <-> s ∈ l.
Proof.
  unfold includes. rewrite existsb_exists. split.
  - intros (x & Hx & He). apply String.eqb_eq in He. subst x.
    apply list_elem_of_In, Hx.
  - intros H. exists s. split; [apply list_elem_of_In, H | apply String.eqb_refl].
Qed.



Lemma fallback_defined tone s :
  exists text, fallbackResponses (toneToUse tone) s = Some text.
Proof.
  unfold toneToUse, includes, validTones. cbn [existsb].
  destruct (String.eqb tone "Friendly") eqn:E1; cbn [orb].
  { unfold fallbackResponses. rewrite E1. eexists. reflexivity. }
  destruct (String.eqb tone "Professional") eqn:E2; cbn [orb].
  { unfold fallbackResponses. rewrite E1, E2. eexists. reflexivity. }
  destruct (String.eqb tone "Apologetic") eqn:E3; cbn [orb].
  { unfold fallbackResponses. rewrite E1, E2, E3. eexists. reflexivity. }
  destruct (String.eqb tone "Enthusiastic") eqn:E4; cbn [orb].
  { unfold fallbackResponses. rewrite E1, E2, E3, E4. eexists. reflexivity. }
  eexists. reflexivity.
Qed.

Lemma generateResponse_run o reviewText starRating tone lang w :
  exists text,
    run o (generateResponse reviewText starRating tone lang) w =
    (Ok text,
     if rejects o (steps w) (ChatCompletion reviewText starRating tone lang)
     then logEvent (LogErrOpenAI Rejected) (tick o w) else tick o w) /\
    (rejects o (steps w) (ChatCompletion reviewText starRating tone lang) = true ->
     fallbackResponses (toneToUse tone) (sentimentOf starRating) = Some text).
Proof.
  unfold generateResponse. rewrite run_tryCatch, run_bind, run_await.
  destruct (rejects o (steps w) (ChatCompletion reviewText starRating tone lang)) eqn:E.
  - rewrite exec_rejected by exact E. cbn beta iota.
    rewrite run_bind, run_log. cbn beta iota.
    destruct (fallback_defined tone (sentimentOf starRating)) as [text Ht].
    rewrite Ht. exists text. split; [reflexivity|]. intros _. reflexivity.
  - rewrite exec_performed by exact E. cbn beta iota. eexists.
    split; [reflexivity|]. discriminate.
Qed.


(** * The pipeline run to its end *)

Lemma forEach_returns o {X} (xs : list X) (body : X -> Prog unit) w :
  (forall x w, fst (run o (body x) w) = Ok tt) ->
  fst (run o (forEach xs body) w) = Ok tt.
Proof.
  intros Hb. revert w. induction xs as [|x xs IH]; intros w; [reflexivity|].
  simpl. rewrite run_bind. specialize (Hb x w).
  destruct (run o (body x) w) as [[[]|e] w']; simpl in Hb; [apply IH|discriminate].
Qed.

Lemma platformLoop_returns o u tone lang ps w :
  fst (run o (forEach ps (platformLoopBody u tone lang)) w) = Ok tt.
Proof.
  apply forEach_returns. intros p w'. unfold platformLoopBody.
  apply tryCatch_log_returns.
Qed.

Lemma select_platforms_present u w :
  hasPlatform u w ->
  exists p ps, filter (fun p => Platform.userId p = u) (platforms (db w)) = p :: ps.
Proof.
  intros (p0 & Hp0 & Hu).
  destruct (filter (fun p => Platform.userId p = u) (platforms (db w)))
    as [|p ps] eqn:E.
  - exfalso. eapply (filter_nil_not_elem_of _ _ p0 E); [exact Hu | exact Hp0].
  - exists p, ps. reflexivity.
Qed.

Lemma platformLoop_frames o u tone lang ps w :
  let w' := snd (run o (forEach ps (platformLoopBody u tone lang)) w) in
  baseFrame w w' /\ settingsFrame w w'.
Proof.
  split.
  - apply (run_baseFrame o u). eapply within_weaken; [|apply platformLoop_within].
    intros X c [H _]. exact H.
  - apply run_settingsFrame. eapply within_weaken; [|apply (platformLoop_within u)].
    intros X c [_ H]. exact H.
Qed.

(** With its platform and settings queries and its watermark update
    executing, the pipeline of an account with a platform and settings
    runs to its end: the world after the loop over the platforms, [w3],
    with the rows of the account stamped. *)
Lemma processUserReviews_completes o u tone lang w :
  (forall n, rejects o n (SelectPlatforms u) = false) ->
  (forall n, rejects o n (SelectUserSettings u) = false) ->
  (forall n v t, rejects o n (UpdateUserSettingsRows u v t) = false) ->
  hasPlatform u w -> hasSettings u w ->
  exists w3,
    run o (processUserReviews u tone lang) w = (Ok tt, stamped o u w3) /\
    baseFrame w w3 /\ settingsFrame w w3.
Proof.
  intros Hsp Hss Hup Hplat Hset.
  unfold processUserReviews, getPlatforms, getUserSettings.
  rewrite run_bind, run_log. cbn beta iota.
  rewrite run_tryCatch, run_bind, run_awaitCall, run_await, exec_performed
    by apply Hsp.
  cbn beta iota. cbn [perform fst snd db logEvent tick].
  destruct (select_platforms_present u w Hplat) as (p & ps & ->).
  cbn [length Nat.eqb].
  rewrite run_bind, run_awaitCall, run_bind, run_await, exec_performed by apply Hss.
  cbn beta iota. cbn [perform fst snd db logEvent tick setDb]. rewrite run_ret.
  cbn beta iota.
  destruct (select_settings_present u w Hset) as (s0 & Hs0). rewrite Hs0.
  rewrite run_bind.
  match goal with
  | |- context [run o (forEach (p :: ps) _) ?w0] => set (w2 := w0)
  end.
  pose proof (platformLoop_returns o u tone lang (p :: ps) w2) as Hret.
  destruct (platformLoop_frames o u tone lang (p :: ps) w2) as [Hbf Hsf].
  destruct (run o (forEach (p :: ps) (platformLoopBody u tone lang)) w2)
    as [r w3]. cbn [fst snd] in *. subst r. cbn beta iota.
  exists w3. split.
  - rewrite run_bind, run_newDate. cbn beta iota.
    unfold updateUserSettings.
    run_simpl. rewrite exec_performed by apply Hup.
    cbn beta iota. cbn [perform fst snd].
    assert (Hrows : exists s1,
               head (updatedUserSettings (watermark (clock w3)) (clock w3) <$>
                       filter (fun s => UserSettings.userId s = u)
                         (userSettings (db w3))) = Some s1).
    { destruct (select_settings_present u w3) as [s1 Hs1].
      - destruct Hset as (s & Hs & Hu). exists s. split; [|exact Hu].
        unfold settingsFrame in Hsf. rewrite Hsf. exact Hs.
      - destruct (filter _ (userSettings (db w3))) as [|s1' l]; [discriminate|].
        eexists. reflexivity. }
    destruct Hrows as [s1 ->]. run_simpl. reflexivity.
  - destruct Hbf as (Hp & Hc & [l Hl] & Hpl & Ht). unfold baseFrame, settingsFrame in *.
    subst w2. cbn in *. split_and!; auto; try lia.
    exists ([LogProcessing u] ++ l). rewrite Hl, app_assoc. reflexivity.
Qed.

Lemma stamp_owner u now s : UserSettings.userId (stamp u now s) = UserSettings.userId s.
Proof. unfold stamp. destruct (decide _); reflexivity. Qed.

Lemma stamped_rows o u w3 s :
  s ∈ userSettings (db (stamped o u w3)) -> UserSettings.userId s = u ->
  UserSettings.lastCheckTime s = Some (clock w3).
Proof.
  cbn. intros Hs Hu. apply list_elem_of_fmap in Hs as (s' & -> & Hs').
  rewrite stamp_owner in Hu. unfold stamp. rewrite decide_True by exact Hu.
  reflexivity.
Qed.

Lemma stamped_hasSettings o u w3 : hasSettings u w3 -> hasSettings u (stamped o u w3).
Proof.
  intros (s & Hs & Hu). exists (stamp u (clock w3) s). split.
  - cbn. apply list_elem_of_fmap. exists s. split; [reflexivity|exact Hs].
  - rewrite stamp_owner. exact Hu.
Qed.

Lemma hasSettings_frame u w w' : settingsFrame w w' -> hasSettings u w -> hasSettings u w'.
Proof. unfold settingsFrame, hasSettings. intros ->. auto. Qed.


(** * The sweep *)

Lemma sweepLoopBody_run o s w :
  run o (sweepLoopBody s) w = (Ok tt, swept o s w).
Proof.
  unfold sweepLoopBody, swept. cbn zeta. rewrite run_bind, run_has. cbn beta iota.
  destruct (bool_decide _); [reflexivity|].
  rewrite run_bind, run_add. cbn beta iota.
  rewrite run_tryFinally, run_tryCatch, run_awaitCall, processUserReviews_run.
  cbn beta iota.
  rewrite run_delete. reflexivity.
Qed.

Lemma processUserReviews_baseFrame o u tone lang w :
  baseFrame w (snd (run o (processUserReviews u tone lang) w)).
Proof. apply (run_baseFrame o u), processUserReviews_within. Qed.


Lemma release_acquire u (P : gset string) : u ∉ P -> ({[u]} ∪ P) ∖ {[u]} = P.
Proof.
  intros H. apply set_eq. intros x.
  rewrite elem_of_difference, elem_of_union, elem_of_singleton. split.
  - intros [[->|Hx] Hne]; [contradiction Hne; reflexivity | exact Hx].
  - intros Hx. split; [right; exact Hx|]. intros ->. contradiction.
Qed.




Lemma sweepLoop_run o rows w :
  run o (forEach rows sweepLoopBody) w =
  (Ok tt, fold_left (fun w s => swept o s w) rows w).
Proof.
  revert w. induction rows as [|s rows IH]; intros w; [reflexivity|].
  cbn [forEach fold_left]. rewrite run_bind, sweepLoopBody_run. cbn beta iota.
  apply IH.
Qed.


Lemma processAllUsers_run o w :
  rejects o (steps w) SelectAutoReplySettings = false ->
  run o processAllUsers w =
  (Ok tt, fold_left (fun w s => swept o s w) (enabledRows w) (sweepStart o w)).
Proof.
  intros Hsel. unfold processAllUsers.
  rewrite run_tryCatch, run_bind, run_log. cbn beta iota.
  rewrite run_bind, run_await, exec_performed by exact Hsel.
  cbn beta iota. cbn [perform fst snd]. rewrite run_bind, run_log. cbn beta iota.
  rewrite sweepLoop_run. reflexivity.
Qed.



(** * The guard discipline *)

Lemma disc_bind {A B} (p : Prog A) (f : A -> Prog B) ph q q' e :
  disc ph p q e -> (forall a, disc q (f a) q' e) -> disc ph (bind p f) q' e.
Proof.
  intros Hp Hf. revert ph Hp.
  induction p; intros ph Hp; simpl in *.
  - subst. apply Hf.
  - exact Hp.
  - destruct Hp as (-> & H1 & H2). auto.
  - destruct Hp as (-> & H1). auto.
  - destruct Hp as (-> & H1). auto.
  - destruct (edge ev); [destruct Hp as (-> & H1)..|]; auto.
  - auto.
  - auto.
  - destruct Hp as (Hs & Hk). auto.
  - destruct Hp as (Hs & Hk). auto.
Qed.

Lemma disc_tryCatch {A} (p : Prog A) (h : Err -> Prog A) ph q e e' :
  disc ph p q e' -> (forall err, disc e' (h err) q e) -> disc ph (tryCatch p h) q e.
Proof.
  intros Hp Hh. revert ph Hp.
  induction p; intros ph Hp; simpl in *.
  - exact Hp.
  - subst. apply Hh.
  - destruct Hp as (-> & H1 & H2). auto.
  - destruct Hp as (-> & H1). auto.
  - destruct Hp as (-> & H1). auto.
  - destruct (edge ev); [destruct Hp as (-> & H1)..|]; auto.
  - auto.
  - auto.
  - destruct Hp as (Hs & Hk). auto.
  - destruct Hp as (Hs & Hk). auto.
Qed.

Lemma disc_tryFinally {A} (p : Prog A) (f : Prog unit) ph q q' e e' :
  disc ph p q' e' -> disc q' f q e -> disc e' f e e ->
  disc ph (tryFinally p f) q e.
Proof.
  intros Hp Hq He. revert ph Hp.
  induction p; intros ph Hp; simpl in *.
  - subst. eapply disc_bind; [exact Hq|]. intros _. reflexivity.
  - subst. eapply disc_bind; [exact He|]. intros _. reflexivity.
  - destruct Hp as (-> & H1 & H2). auto.
  - destruct Hp as (-> & H1). auto.
  - destruct Hp as (-> & H1). auto.
  - destruct (edge ev); [destruct Hp as (-> & H1)..|]; auto.
  - auto.
  - auto.
  - destruct Hp as (Hs & Hk). auto.
  - destruct Hp as (Hs & Hk). auto.
Qed.

Lemma disc_forEach {X} (xs : list X) (body : X -> Prog unit) ph e :
  (forall x, disc ph (body x) ph e) -> disc ph (forEach xs body) ph e.
Proof.
  intros Hb. induction xs as [|x xs IH]; simpl; [reflexivity|].
  eapply disc_bind; [apply Hb|]. intros _. exact IH.
Qed.

Lemma disc_await {X} (c : Call X) ph : stable ph -> disc ph (await c) ph ph.
Proof. intros Hs. split; [exact Hs|]. intros [x|err]; reflexivity. Qed.

Lemma disc_awaitCall {A} (p : Prog A) ph q e :
  stable q -> stable e -> disc ph p q e -> disc ph (awaitCall p) q e.
Proof.
  intros Hq He Hp. unfold awaitCall. eapply disc_tryCatch.
  - eapply disc_bind; [exact Hp|]. intros a. split; [exact Hq|reflexivity].
  - intros err. split; [exact He|reflexivity].
Qed.

Lemma disc_log ev ph e : edge ev = NoEdge -> disc ph (log ev) ph e.
Proof. intros H. simpl. rewrite H. reflexivity. Qed.

Lemma disc_newDate ph e : disc ph newDate ph e.
Proof. intros d. reflexivity. Qed.

Lemma disc_simulate ph e : disc ph simulate ph e.
Proof. intros l. reflexivity. Qed.

(** ** The embedded programs keep the discipline *)

Ltac disc_step known :=
  lazymatch goal with
  | |- disc _ (bind _ _) _ _ => eapply disc_bind
  | |- disc _ (tryCatch _ _) _ _ => eapply disc_tryCatch
  | |- disc _ (forEach _ _) _ _ => eapply disc_forEach
  | |- disc _ (await _) _ _ => apply disc_await; assumption
  | |- disc _ (awaitCall _) _ _ => apply disc_awaitCall; [eassumption..|]
  | |- disc _ (log _) _ _ => apply disc_log; reflexivity
  | |- disc _ newDate _ _ => apply disc_newDate
  | |- disc _ simulate _ _ => apply disc_simulate
  | |- disc _ (Ret _) _ _ => reflexivity
  | |- disc _ (Throw _) _ _ => reflexivity
  | |- disc _ (match ?x with _ => _ end) _ _ => destruct x
  | |- forall _, _ => intro
  | |- _ => known
  end.

Ltac disc_with known := repeat (disc_step known).
Ltac disc_tac := disc_with fail.

Section Quiet.
Variable ph : Phase.
Hypothesis Hstable : stable ph.

Lemma getUserSettings_disc u : disc ph (getUserSettings u) ph ph.
Proof. unfold getUserSettings. disc_tac. Qed.

Lemma getPlatforms_disc u : disc ph (getPlatforms u) ph ph.
Proof. unfold getPlatforms. disc_tac. Qed.

Lemma createUserSettings_disc v : disc ph (createUserSettings v) ph ph.
Proof. unfold createUserSettings. disc_tac. Qed.

Lemma updateUserSettings_disc u v : disc ph (updateUserSettings u v) ph ph.
Proof.
  unfold updateUserSettings. disc_with ltac:(apply createUserSettings_disc).
Qed.

Lemma createReview_disc v : disc ph (createReview v) ph ph.
Proof. unfold createReview. disc_tac. Qed.

Lemma generateResponse_disc a b c d : disc ph (generateResponse a b c d) ph ph.
Proof. unfold generateResponse. disc_tac. Qed.

Lemma reviewLoopBody_disc u tone lang platform review e :
  disc ph (reviewLoopBody u tone lang platform review) ph e.
Proof.
  unfold reviewLoopBody.
  disc_with ltac:(first [apply generateResponse_disc | apply createReview_disc]).
Qed.

Lemma platformLoopBody_disc u tone lang platform e :
  disc ph (platformLoopBody u tone lang platform) ph e.
Proof.
  unfold platformLoopBody. disc_with ltac:(apply reviewLoopBody_disc).
Qed.
End Quiet.

Lemma disc_enter u e : disc (Held u) (log (LogProcessing u)) (Running u) e.
Proof. simpl. auto. Qed.

Lemma disc_exit ev u e : edge ev = Exit u -> disc (Running u) (log ev) (Held u) e.
Proof. intros H. simpl. rewrite H. auto. Qed.

Lemma disc_has {A} u (k : bool -> Prog A) q e :
  disc Idle (k true) q e -> disc (Checked u) (k false) q e ->
  disc Idle (bind (has u) k) q e.
Proof. intros H1 H2. simpl. auto. Qed.

Lemma disc_add {A} u (k : unit -> Prog A) q e :
  disc (Held u) (k tt) q e -> disc (Checked u) (bind (add u) k) q e.
Proof. intros H. simpl. auto. Qed.

Lemma disc_delete u e : disc (Held u) (delete_ u) Idle e.
Proof. simpl. auto. Qed.

Lemma processUserReviews_disc u tone lang e :
  disc (Held u) (processUserReviews u tone lang) (Held u) e.
Proof.
  unfold processUserReviews.
  eapply disc_bind; [apply disc_enter|]. intros _.
  eapply disc_tryCatch with (e' := Running u).
  - eapply disc_bind.
    { apply (disc_awaitCall _ (Running u) (Running u) (Running u)); [exact I..|].
      apply getPlatforms_disc. exact I. }
    intros platforms.
    destruct (length platforms =? 0)%nat; [apply disc_exit; reflexivity|].
    eapply disc_bind.
    { apply (disc_awaitCall _ (Running u) (Running u) (Running u)); [exact I..|].
      apply getUserSettings_disc. exact I. }
    intros [settings|]; [|apply disc_exit; reflexivity].
    eapply disc_bind.
    { apply disc_forEach. intros p. apply platformLoopBody_disc. exact I. }
    intros _. eapply disc_bind; [apply disc_newDate|]. intros now.
    eapply disc_bind.
    { apply (disc_awaitCall _ (Running u) (Running u) (Running u)); [exact I..|].
      apply updateUserSettings_disc. exact I. }
    intros _. apply disc_exit. reflexivity.
  - intros err. apply disc_exit. reflexivity.
Qed.

Lemma sweepLoopBody_disc s : disc Idle (sweepLoopBody s) Idle Idle.
Proof.
  unfold sweepLoopBody. cbn zeta. apply disc_has; [reflexivity|].
  apply disc_add.
  eapply disc_tryFinally with (q' := Held _) (e' := Held _).
  - eapply disc_tryCatch.
    + apply (disc_awaitCall _ (Held (UserSettings.userId s))
               (Held (UserSettings.userId s)) (Held (UserSettings.userId s)));
        [exact I..|].
      apply processUserReviews_disc.
    + intros err. apply disc_log. reflexivity.
  - apply disc_delete.
  - apply disc_delete.
Qed.

Lemma processAllUsers_disc : disc Idle processAllUsers Idle Idle.
Proof.
  unfold processAllUsers. eapply disc_tryCatch with (e' := Idle).
  - eapply disc_bind; [apply disc_log; reflexivity|]. intros _.
    eapply disc_bind; [apply disc_await; exact I|]. intros rows.
    eapply disc_bind; [apply disc_log; reflexivity|]. intros _.
    apply disc_forEach. intros s. apply sweepLoopBody_disc.
  - intros err. apply disc_log. reflexivity.
Qed.

Lemma checkUserReviewsNow_disc u : disc Idle (checkUserReviewsNow u) Idle Idle.
Proof.
  unfold checkUserReviewsNow. apply disc_has; [reflexivity|].
  eapply disc_tryFinally with (q' := Held u) (e' := Held u).
  - apply disc_add.
    eapply disc_bind.
    { apply (disc_awaitCall _ (Held u) (Held u) (Held u)); [exact I..|].
      apply getUserSettings_disc. exact I. }
    intros [settings|]; [|reflexivity].
    apply disc_awaitCall; [exact I..|]. apply processUserReviews_disc.
  - apply disc_delete.
  - apply disc_delete.
Qed.

Lemma checkReviewsHandler_disc u :
  disc Idle (checkReviewsHandler u;; Ret tt) Idle Idle.
Proof.
  eapply disc_bind; [|intros r; reflexivity].
  unfold checkReviewsHandler. eapply disc_tryCatch with (e' := Idle).
  - eapply disc_bind; [|intros _; reflexivity].
    apply disc_awaitCall; [exact I..|]. apply checkUserReviewsNow_disc.
  - intros err. eapply disc_bind; [apply disc_log; reflexivity|].
    intros _. reflexivity.
Qed.

(** ** The tasks of the event loop *)

Lemma entered_snoc u l ev : entered u (l ++ [ev]) = entered u l + enters u ev.
Proof. unfold entered. rewrite sum_list_with_app. simpl. lia. Qed.

Lemma exited_snoc u l ev : exited u (l ++ [ev]) = exited u l + exits u ev.
Proof. unfold exited. rewrite sum_list_with_app. simpl. lia. Qed.

Lemma holds_self u : holds u (Held u) = 1.
Proof. simpl. rewrite decide_True; reflexivity. Qed.

Lemma consistent_world ph H R w w' :
  processingUsers w' = processingUsers w -> console w' = console w ->
  consistent ph H R w -> consistent ph H R w'.
Proof.
  intros Hp Hc (H1 & H2 & H3 & H4). unfold consistent. rewrite Hp, Hc.
  split_and!; auto.
Qed.

(** Running a task up to its next [await] keeps the bookkeeping right, and
    leaves the task in a phase in which it may yield. *)
Lemma sync_consistent o {A} (p : Prog A) ph H R w q e :
  stable q -> stable e ->
  disc ph p q e -> consistent ph H R w ->
  exists ph', stable ph' /\ disc ph' (fst (sync o p w)) q e /\
              consistent ph' H R (snd (sync o p w)).
Proof.
  intros Hq He. revert ph w.
  induction p as [a|err|u k IH|u k IH|u k IH|ev k IH|k IH|k IH|X c k IH|k IH];
    intros ph w Hd Hc; simpl in Hd.
  - exists ph. subst. split; [exact Hq|split; [reflexivity|exact Hc]].
  - exists ph. subst. split; [exact He|split; [reflexivity|exact Hc]].
  - destruct Hd as (-> & Ht & Hf). simpl.
    destruct (bool_decide (u ∈ processingUsers w)) eqn:E.
    + apply (IH true Idle); assumption.
    + apply bool_decide_eq_false_1 in E. apply (IH false (Checked u)); [exact Hf|].
      destruct Hc as (H1 & H2 & H3 & _). split_and!; auto.
  - destruct Hd as (-> & Hk). simpl. apply (IH (Held u)); [exact Hk|].
    destruct Hc as (H1 & H2 & H3 & H4). simpl in H1, H2, H3.
    assert (HHu : H u = 0).
    { specialize (H1 u). specialize (H2 u). destruct (H u) as [|[|n]]; [reflexivity| |lia].
      exfalso. apply H4, H2. reflexivity. }
    split_and!; [| | |exact I].
    + intros v. simpl. destruct (decide (u = v)) as [<-|Hne]; [lia|apply (H1 v)].
    + intros v. cbn [processingUsers setProcessing]. rewrite elem_of_union, elem_of_singleton.
      specialize (H2 v). simpl in H2 |- *. destruct (decide (u = v)) as [<-|Hne].
      * rewrite HHu. split; [reflexivity|auto].
      * simpl. split; [intros [->|Hv]; [congruence|apply H2, Hv]|].
        intros Hv. right. apply H2, Hv.
    + intros v. specialize (H3 v). simpl in *. exact H3.
  - destruct Hd as (-> & Hk). simpl. apply (IH Idle); [exact Hk|].
    destruct Hc as (H1 & H2 & H3 & _).
    assert (HHu : H u = 0).
    { specialize (H1 u). rewrite holds_self in H1. lia. }
    split_and!; [| | |exact I].
    + intros v. specialize (H1 v). simpl in *. destruct (decide (u = v)); lia.
    + intros v. cbn [processingUsers setProcessing].
      rewrite elem_of_difference, elem_of_singleton. simpl.
      destruct (decide (v = u)) as [->|Hne].
      * rewrite HHu. split; [intros [_ Hn]; contradiction|discriminate].
      * specialize (H2 v). simpl in H2. rewrite decide_False in H2 by congruence.
        simpl in H2. split; [intros [Hv _]; apply H2, Hv|].
        intros Hv. split; [apply H2, Hv|exact Hne].
    + intros v. specialize (H3 v). simpl in *. exact H3.
  - simpl. destruct (edge ev) as [u|u|] eqn:Eev.
    + destruct Hd as (-> & Hk). apply (IH (Running u)); [exact Hk|].
      destruct Hc as (H1 & H2 & H3 & _). split_and!; [| | |exact I].
      * exact H1.
      * exact H2.
      * intros v. cbn [console logEvent]. rewrite entered_snoc, exited_snoc.
        specialize (H3 v). unfold enters, exits. rewrite Eev. simpl in *.
        destruct (decide (u = v)); lia.
    + destruct Hd as (-> & Hk). apply (IH (Held u)); [exact Hk|].
      destruct Hc as (H1 & H2 & H3 & _). split_and!; [| | |exact I].
      * exact H1.
      * exact H2.
      * intros v. cbn [console logEvent]. rewrite entered_snoc, exited_snoc.
        specialize (H3 v). unfold enters, exits. rewrite Eev. simpl in *.
        destruct (decide (u = v)); lia.
    + apply (IH ph); [exact Hd|].
      destruct Hc as (H1 & H2 & H3 & H4). split_and!; auto.
      intros v. cbn [console logEvent]. rewrite entered_snoc, exited_snoc.
      specialize (H3 v). unfold enters, exits. rewrite Eev. lia.
  - simpl. apply (IH (clock w) ph); [apply Hd|exact Hc].
  - simpl. apply (IH _ ph); [apply Hd|].
    eapply consistent_world; [| |exact Hc]; reflexivity.
  - destruct Hd as (Hs & Hk). exists ph. simpl. split; [exact Hs|].
    split; [|exact Hc]. split; assumption.
  - destruct Hd as (Hs & Hk). exists ph. simpl. split; [exact Hs|].
    split; [|exact Hc]. split; assumption.
Qed.

Lemma guarded_world rt w :
  processingUsers w = processingUsers (world rt) ->
  console w = console (world rt) ->
  guarded rt -> guarded (setWorld w rt).
Proof.
  intros Hp Hc (phs & Hf & Hcons). exists phs. split; [exact Hf|].
  eapply consistent_world; [exact Hp|exact Hc|exact Hcons].
Qed.

Lemma guarded_log rt ev :
  edge ev = NoEdge -> guarded rt -> guarded (setWorld (logEvent ev (world rt)) rt).
Proof.
  intros He (phs & Hf & (H1 & H2 & H3 & H4)). exists phs. split; [exact Hf|].
  split_and!; auto. intros u. cbn [world setWorld console logEvent].
  rewrite entered_snoc, exited_snoc.
  specialize (H3 u). unfold enters, exits. rewrite He. lia.
Qed.

Lemma guarded_spawn o p rt :
  disc Idle p Idle Idle -> guarded rt -> guarded (spawn o p rt).
Proof.
  intros Hd (phs & Hf & Hcons).
  destruct (sync_consistent o p Idle _ _ (world rt) Idle Idle I I Hd Hcons)
    as (ph' & Hs & Hd' & (H1 & H2 & H3 & _)).
  exists (phs ++ [ph']). split.
  - cbn. apply Forall2_app; [exact Hf|]. constructor; [split; assumption|constructor].
  - cbn. split_and!; [| | |exact I].
    + intros u. rewrite sum_list_with_app. specialize (H1 u). simpl in *. lia.
    + intros u. rewrite sum_list_with_app, (H2 u). simpl. lia.
    + intros u. rewrite sum_list_with_app, (H3 u). simpl. lia.
Qed.

Lemma exec_guard {X} o (c : Call X) w :
  processingUsers (snd (exec o c w)) = processingUsers w /\
  console (snd (exec o c w)) = console w.
Proof. destruct (exec_snd_cases o c w) as [-> | ->]; split; reflexivity. Qed.

Lemma sum_list_with_middle {A} (f : A -> nat) l1 x l2 :
  sum_list_with f (l1 ++ x :: l2) = f x + sum_list_with f (l1 ++ l2).
Proof. rewrite !sum_list_with_app. simpl. lia. Qed.

(** Task [i], in phase [ph], goes on with [p] from a world [w1] that
    differs from the current one only in what an external call changes. *)
Lemma guarded_continue o i rt phs ph (p : Prog unit) w1 :
  Forall2 taskOK phs (tasks rt) ->
  consistent Idle (fun u => sum_list_with (holds u) phs)
    (fun u => sum_list_with (runs u) phs) (world rt) ->
  phs !! i = Some ph -> stable ph -> disc ph p Idle Idle ->
  processingUsers w1 = processingUsers (world rt) ->
  console w1 = console (world rt) ->
  guarded {| world := snd (sync o p w1); service := service rt;
             intervals := intervals rt; handles := handles rt;
             tasks := <[i := fst (sync o p w1)]> (tasks rt) |}.
Proof.
  intros Hf Hcons Eph Hs Hd Hp Hc.
  pose proof (take_drop_middle _ _ _ Eph) as Hsplit.
  set (l1 := take i phs) in *. set (l2 := drop (S i) phs) in *.
  assert (Hcons1 : consistent ph (fun u => sum_list_with (holds u) (l1 ++ l2))
                     (fun u => sum_list_with (runs u) (l1 ++ l2)) w1).
  { eapply consistent_world; [exact Hp|exact Hc|].
    destruct Hcons as (H1 & H2 & H3 & _). rewrite <- Hsplit in H1, H2, H3.
    split_and!.
    - intros u. specialize (H1 u). rewrite sum_list_with_middle in H1. simpl in H1. lia.
    - intros u. rewrite (H2 u), sum_list_with_middle. simpl. lia.
    - intros u. rewrite (H3 u), sum_list_with_middle. simpl. lia.
    - destruct ph; auto; contradiction. }
  destruct (sync_consistent o p ph _ _ w1 Idle Idle I I Hd Hcons1)
    as (ph' & Hs' & Hd' & (H1 & H2 & H3 & _)).
  exists (<[i := ph']> phs). split.
  - cbn. apply Forall2_insert; [exact Hf|split; assumption].
  - assert (Hins : <[i := ph']> phs = l1 ++ ph' :: l2).
    { unfold l1, l2. apply insert_take_drop. eapply lookup_lt_Some, Eph. }
    rewrite Hins. cbn. split_and!; [| | |exact I].
    + intros u. rewrite sum_list_with_middle. specialize (H1 u). simpl. lia.
    + intros u. rewrite sum_list_with_middle, (H2 u). simpl. lia.
    + intros u. rewrite sum_list_with_middle, (H3 u). simpl. lia.
Qed.

Lemma guarded_resume o i rt : guarded rt -> guarded (resume o i rt).
Proof.
  intros (phs & Hf & Hcons). unfold resume.
  destruct (tasks rt !! i) as [t|] eqn:Et; [|exists phs; auto].
  destruct (Forall2_lookup_r _ _ _ _ _ Hf Et) as (ph & Eph & Hs & Hd).
  destruct t; try (exists phs; split; assumption); simpl in Hd.
  - destruct Hd as [_ Hk].
    destruct (exec_guard o c (world rt)) as [Hp Hc].
    eapply guarded_continue; eauto.
  - destruct Hd as [_ Hk].
    eapply guarded_continue; eauto.
Qed.

Lemma guarded_step o rt ev : guarded rt -> guarded (step o rt ev).
Proof.
  intros H. destruct ev; cbn [step].
  - unfold start. destruct (isRunning (service rt)); [exact H|].
    cbn. apply (guarded_log _ LogStarting eq_refl) in H.
    apply (guarded_spawn o processAllUsers _ processAllUsers_disc) in H.
    destruct H as (phs & Hf & Hc). exists phs. split; assumption.
  - unfold stop. destruct (isRunning (service rt)); cbn [negb]; [|exact H].
    apply (guarded_log _ LogStopping eq_refl) in H.
    cbn. destruct (timer (service rt)); destruct H as (phs & Hf & Hc);
      exists phs; split; assumption.
  - destruct (bool_decide _); [|exact H].
    apply guarded_spawn; [apply processAllUsers_disc|exact H].
  - apply guarded_spawn; [apply checkUserReviewsNow_disc|exact H].
  - apply guarded_spawn; [apply checkReviewsHandler_disc|exact H].
  - apply guarded_resume, H.
  - apply guarded_world; [reflexivity|reflexivity|exact H].
Qed.

Lemma guarded_loop o evs rt : guarded rt -> guarded (loop o evs rt).
Proof.
  revert rt. induction evs as [|ev evs IH]; intros rt H; [exact H|].
  apply IH, guarded_step, H.
Qed.

Lemma guarded_boot d now : guarded (boot d now).
Proof.
  exists []. split; [constructor|]. split_and!; cbn; auto.
  intros u. split; [|discriminate]. intros Hu.
  apply not_elem_of_empty in Hu. contradiction.
Qed.

Lemma runs_le_holds u ph : runs u ph <= holds u ph.
Proof. destruct ph; simpl; lia. Qed.

Lemma sum_list_with_le {A} (f g : A -> nat) l :
  (forall x, f x <= g x) -> sum_list_with f l <= sum_list_with g l.
Proof.
  intros H. induction l as [|x l IH]; simpl; [lia|]. specialize (H x). lia.
Qed.

Lemma guarded_single_flight rt u :
  guarded rt ->
  exited u (console (world rt)) <= entered u (console (world rt)) /\
  entered u (console (world rt)) <= exited u (console (world rt)) + 1.
Proof.
  intros (phs & _ & (H1 & _ & H3 & _)). specialize (H1 u). specialize (H3 u).
  pose proof (sum_list_with_le (runs u) (holds u) phs (runs_le_holds u)).
  simpl in *. lia.
Qed.

(** [run] is [sync] followed by [run] on what is left: the two semantics
    agree on a task that is alone. *)
Lemma run_sync o {A} (p : Prog A) w :
  run o p w = run o (fst (sync o p w)) (snd (sync o p w)).
Proof.
  revert w. induction p; intros w; simpl; auto.
Qed.

Lemma sync_checkUserReviewsNow_busy o u w :
  u ∈ processingUsers w ->
  sync o (checkUserReviewsNow u) w = (Throw busyError, w).
Proof.
  intros Hin. unfold checkUserReviewsNow. simpl.
  rewrite bool_decide_eq_true_2 by exact Hin. reflexivity.
Qed.

(** * The watermark and the loop over the platforms *)

Lemma processUserReviews_completes_at o u tone lang w :
  (forall n, rejects o n (SelectPlatforms u) = false) ->
  (forall n, rejects o n (SelectUserSettings u) = false) ->
  (forall n v t, rejects o n (UpdateUserSettingsRows u v t) = false) ->
  hasPlatform u w -> hasSettings u w ->
  let w3 := afterPlatforms o u tone lang w in
  run o (processUserReviews u tone lang) w = (Ok tt, stamped o u w3) /\
  baseFrame w w3 /\ settingsFrame w w3.
Proof.
  intros Hsp Hss Hup Hplat Hset. cbn zeta. unfold afterPlatforms.
  unfold processUserReviews, getPlatforms, getUserSettings.
  rewrite run_bind, run_log. cbn beta iota.
  rewrite run_tryCatch, run_bind, run_awaitCall, run_await, exec_performed
    by apply Hsp.
  cbn beta iota. cbn [perform fst snd db logEvent tick].
  destruct (select_platforms_present u w Hplat) as (p & ps & ->).
  cbn [length Nat.eqb].
  rewrite run_bind, run_awaitCall, run_bind, run_await, exec_performed by apply Hss.
  cbn beta iota. cbn [perform fst snd db logEvent tick setDb]. rewrite run_ret.
  cbn beta iota.
  destruct (select_settings_present u w Hset) as (s0 & Hs0). rewrite Hs0.
  rewrite run_bind.
  match goal with
  | |- context [run o (forEach (p :: ps) _) ?w0] =>
      replace w0 with (tick o (tick o (logEvent (LogProcessing u) w)))
        by (destruct w; reflexivity)
  end.
  set (w2 := tick o (tick o (logEvent (LogProcessing u) w))).
  pose proof (platformLoop_returns o u tone lang (p :: ps) w2) as Hret.
  destruct (platformLoop_frames o u tone lang (p :: ps) w2) as [Hbf Hsf].
  destruct (run o (forEach (p :: ps) (platformLoopBody u tone lang)) w2)
    as [r w3]. cbn [fst snd] in *. subst r. cbn beta iota.
  split.
  - rewrite run_bind, run_newDate. cbn beta iota.
    unfold updateUserSettings.
    run_simpl. rewrite exec_performed by apply Hup.
    cbn beta iota. cbn [perform fst snd].
    assert (Hrows : exists s1,
               head (updatedUserSettings (watermark (clock w3)) (clock w3) <$>
                       filter (fun s => UserSettings.userId s = u)
                         (userSettings (db w3))) = Some s1).
    { destruct (select_settings_present u w3) as [s1 Hs1].
      - destruct Hset as (s & Hs & Hu). exists s. split; [|exact Hu].
        unfold settingsFrame in Hsf. rewrite Hsf. exact Hs.
      - destruct (filter _ (userSettings (db w3))) as [|s1' l]; [discriminate|].
        eexists. reflexivity. }
    destruct Hrows as [s1 ->]. run_simpl. reflexivity.
  - destruct Hbf as (Hp & Hc & [l Hl] & Hpl & Ht). unfold baseFrame, settingsFrame in *.
    subst w2. cbn in *. split_and!; auto; try lia.
    exists ([LogProcessing u] ++ l). rewrite Hl, app_assoc. reflexivity.
Qed.

Lemma platformLoopBody_visit o u tone lang p w :
  exists l,
    run o (platformLoopBody u tone lang p) w
      = (Ok tt, snd (run o (platformLoopBody u tone lang p) w)) /\
    console (snd (run o (platformLoopBody u tone lang p) w))
      = console w ++ LogCheckingPlatform (Platform.platformName p) u :: l.
Proof.
  assert (Hok : fst (run o (platformLoopBody u tone lang p) w) = Ok tt)
    by apply tryCatch_log_returns.
  assert (Hl : exists l,
             console (snd (run o (platformLoopBody u tone lang p) w))
               = console w ++ LogCheckingPlatform (Platform.platformName p) u :: l).
  { unfold platformLoopBody.
    rewrite run_tryCatch, run_bind, run_log. cbn beta iota.
    rewrite run_bind, run_simulate. cbn beta iota.
    set (w0 := nextStep _). set (rs := simulated o _).
    assert (Hf : baseFrame w0 (snd (run o (forEach rs (reviewLoopBody u tone lang p)) w0))).
    { apply (run_baseFrame o u). apply within_forEach. intros r.
      eapply within_weaken; [|apply reviewLoopBody_within].
      intros X c [H _]. exact H. }
    assert (Hret : fst (run o (forEach rs (reviewLoopBody u tone lang p)) w0) = Ok tt).
    { apply forEach_returns. intros x w'. apply tryCatch_log_returns. }
    destruct (run o (forEach rs (reviewLoopBody u tone lang p)) w0) as [res w1].
    cbn [fst snd] in *. subst res. cbn beta iota. cbn [fst snd].
    destruct Hf as (_ & _ & [l Hl] & _). exists l. rewrite Hl. subst w0. cbn.
    rewrite <- app_assoc. reflexivity. }
  destruct Hl as [l Hl]. exists l. split; [|exact Hl].
  destruct (run o (platformLoopBody u tone lang p) w) as [r w1].
  cbn [fst snd] in *. subst r. reflexivity.
Qed.

Lemma platformLoop_visited o u tone lang ps w p :
  p ∈ ps ->
  exists l,
    console (snd (run o (forEach ps (platformLoopBody u tone lang)) w)) = console w ++ l /\
    LogCheckingPlatform (Platform.platformName p) u ∈ l.
Proof.
  revert w. induction ps as [|q ps IH]; intros w Hp; [inversion Hp|].
  cbn [forEach]. rewrite run_bind.
  destruct (platformLoopBody_visit o u tone lang q w) as (l1 & Hq & H1).
  set (w1 := snd (run o (platformLoopBody u tone lang q) w)) in *.
  rewrite Hq. cbn beta iota. cbn [snd].
  apply elem_of_cons in Hp as [-> | Hp].
  - destruct (platformLoop_frames o u tone lang ps w1) as [(_ & _ & [l2 H2] & _) _].
    exists ((LogCheckingPlatform (Platform.platformName q) u :: l1) ++ l2). split.
    + rewrite H2, H1, <- app_assoc. reflexivity.
    + apply elem_of_app. left. left.
  - destruct (IH w1 Hp) as (l2 & H2 & Hin).
    exists ((LogCheckingPlatform (Platform.platformName q) u :: l1) ++ l2). split.
    + rewrite H2, H1, <- app_assoc. reflexivity.
    + apply elem_of_app. right. exact Hin.
Qed.

(** * Strings: cutting a string into its code points loses nothing *)

Lemma append_empty_r (c : string) : c +:+ EmptyString = c.
Proof.
  induction c as [|a c IH]; [reflexivity|].
  change (String a (c +:+ EmptyString) = String a c). rewrite IH. reflexivity.
Qed.

Lemma append_assoc (a b c : string) : (a +:+ b) +:+ c = a +:+ (b +:+ c).
Proof.
  induction a as [|x a IH]; [reflexivity|].
  change (String x ((a +:+ b) +:+ c) = String x (a +:+ (b +:+ c))).
  rewrite IH. reflexivity.
Qed.

Lemma concat_cons c l :
  String.concat EmptyString (c :: l) = c +:+ String.concat EmptyString l.
Proof.
  destruct l as [|d l]; cbn [String.concat].
  - symmetry. apply append_empty_r.
  - reflexivity.
Qed.

Lemma concat_codePointsFrom current expected s :
  String.concat EmptyString (codePointsFrom current expected s) = current +:+ s.
Proof.
  revert current expected. induction s as [|a s IH]; intros current expected.
  - cbn. symmetry. apply append_empty_r.
  - cbn [codePointsFrom]. destruct expected as [|n].
    + rewrite concat_cons, IH. reflexivity.
    + destruct (isContinuation a).
      * rewrite IH, append_assoc. reflexivity.
      * rewrite concat_cons, IH. reflexivity.
Qed.

Lemma concat_codePoints s : String.concat EmptyString (codePoints s) = s.
Proof. destruct s as [|a s]; [reflexivity|]. apply concat_codePointsFrom. Qed.


(** * The storage layer *)

(** C10, as stated, fails: not every id is answered with [true].  Once
    the pipeline has stored a review that came from a platform, the
    delete of that platform raises (nothing failing outside), and the
    platform is still there. *)
Lemma delete_of_referenced_platform_raises :
  let w := snd (run offering (processUserReviews "u1" "Friendly" "English") sampleWorld) in
  let rp := run offering (deletePlatform 1) w in
  (forall X (c : Call X) n, rejects offering n c = false) /\
  fst rp <> Ok true /\ fst rp = Fail Rejected /\
  samplePlatform ∈ platforms (db (snd rp)).
Proof.
  cbn zeta. split; [intros X c n; reflexivity|].
  split; [vm_compute; discriminate|].
  split; [vm_compute; reflexivity|].
  vm_compute. left.
Qed.

(** C10, amended: [deletePlatform] and [deleteReplyTemplate] answer [true]
    whenever their delete executes, whether or not a row has the id: the
    rows with the id are gone, and when no row has it the table is left
    as it was and the answer is still [true].  The delete executes for
    every id in the range of the [integer] column, except, for a
    platform, one that a review names; otherwise it raises and the tables
    are as they were.  (The outside is taken not to fail the statement.) *)
Theorem delete_reports_success o id w :
  rejects o (steps w) (DeletePlatformRows id) = false ->
  rejects o (steps w) (DeleteReplyTemplateRows id) = false ->
  let rp := run o (deletePlatform id) w in
  let rt := run o (deleteReplyTemplate id) w in
  (if int4 id && negb (referenced id (db w))
   then fst rp = Ok true /\
        platforms (db (snd rp))
          = filter (fun p => Z.of_nat (Platform.id p) <> id) (platforms (db w))
   else fst rp = Fail Rejected /\ db (snd rp) = db w) /\
  (if int4 id
   then fst rt = Ok true /\
        replyTemplates (db (snd rt))
          = filter (fun t => Z.of_nat (ReplyTemplate.id t) <> id) (replyTemplates (db w))
   else fst rt = Fail Rejected /\ db (snd rt) = db w) /\
  ((forall p, p ∈ platforms (db w) -> Z.of_nat (Platform.id p) <> id) ->
     platforms (db (snd rp)) = platforms (db w)) /\
  ((forall t, t ∈ replyTemplates (db w) -> Z.of_nat (ReplyTemplate.id t) <> id) ->
     replyTemplates (db (snd rt)) = replyTemplates (db w)).
Proof.
  intros Hp Ht. cbn zeta. unfold deletePlatform, deleteReplyTemplate, await.
  cbn [run bind].
  assert (Hplat : violates (DeletePlatformRows id) (db w)
                  = negb (int4 id && negb (referenced id (db w)))).
  { cbn [violates]. destruct (int4 id), (referenced id (db w)); reflexivity. }
  split_and!.
  - destruct (int4 id && negb (referenced id (db w))).
    + rewrite exec_performed by (rewrite Hplat, Hp; reflexivity).
      split; reflexivity.
    + rewrite exec_violated by (rewrite Hplat; reflexivity). split; reflexivity.
  - destruct (int4 id) eqn:Hid.
    + rewrite exec_performed by (cbn [violates]; rewrite Hid, Ht; reflexivity).
      split; reflexivity.
    + rewrite exec_violated by (cbn [violates]; rewrite Hid; reflexivity).
      split; reflexivity.
  - intros Hno. destruct (exec_cases o (DeletePlatformRows id) w) as [-> | ->];
      [reflexivity|]. cbn. apply filter_all, Hno.
  - intros Hno. destruct (exec_cases o (DeleteReplyTemplateRows id) w) as [-> | ->];
      [reflexivity|]. cbn. apply filter_all, Hno.
Qed.

(** C9, as stated, fails: a provided but empty [defaultTone] is not kept;
    the created row gets ["Professional"]. *)
Lemma updateUserSettings_empty_tone_not_kept :
  ~ exists row,
      fst (run calm (updateUserSettings "u1" onlyEmptyTone) emptyWorld)
        = Ok (Some row) /\
      createdFromPartial "u1" onlyEmptyTone
        (clock emptyWorld + elapsed calm (steps emptyWorld))%N row.
Proof.
  intros (row & Hrun & _ & Htone & _).
  vm_compute in Hrun. injection Hrun as <-. vm_compute in Htone. discriminate.
Qed.

(** C9, amended: for a [userId] without a settings row, [updateUserSettings]
    (its two statements executing) creates a row and returns it; the row
    holds the provided values that are not empty strings, ["Professional"],
    ["English"] and [false] for the keys left out or empty, and as
    [lastCheckTime] the provided date or else the time read after the
    update statement returned. *)
Theorem updateUserSettings_creates_missing_row o u v w :
  (forall s, s ∈ userSettings (db w) -> UserSettings.userId s <> u) ->
  (forall X (c : Call X), rejects o (steps w) c = false) ->
  (forall X (c : Call X), rejects o (S (steps w)) c = false) ->
  exists row,
    let rw := run o (updateUserSettings u v) w in
    fst rw = Ok (Some row) /\
    row ∈ userSettings (db (snd rw)) /\
    createdFromTruthy u v (clock w + elapsed o (steps w))%N row.
Proof.
  intros Hno H0 H1. unfold updateUserSettings. run_simpl.
  rewrite exec_performed by apply H0.
  cbn [perform fst snd]. rewrite (filter_none _ _ Hno). cbn [fmap list_fmap head].
  set (w1 := setDb _ _). run_simpl.
  assert (Hlct : run o (match PartialUserSettings.lastCheckTime v with
                        | Some (Some d) => Ret d
                        | _ => newDate
                        end) w1
                 = (Ok match PartialUserSettings.lastCheckTime v with
                       | Some (Some d) => d
                       | _ => (clock w + elapsed o (steps w))%N
                       end, w1)).
  { destruct (PartialUserSettings.lastCheckTime v) as [[d|]|]; reflexivity. }
  rewrite Hlct. unfold createUserSettings. run_simpl.
  rewrite exec_performed by apply H1. cbn [perform fst snd head].
  eexists. split; [reflexivity|]. split.
  - cbn. apply elem_of_app. right. left.
  - unfold createdFromTruthy. cbn. rewrite !orString_truthy. repeat split.
Qed.

(** * The manual check endpoint *)

(** C8, as stated, fails: a busy account and an account without settings
    get the same status, 500. *)
Lemma busy_not_distinguished : ~ busyIsDistinguished.
Proof.
  intros H.
  apply (H calm "u1" busyWorld emptyWorld noSettingsError failedResponse
           failedResponse); try reflexivity.
  discriminate.
Qed.

(** C8, amended: the endpoint answers 200 ("Review check initiated") when
    [checkUserReviewsNow] returns, whatever was ingested, and 500 ("Failed
    to check for reviews") when it raises, the busy error included: busy is
    not told apart from other failures. *)
Theorem manual_check_statuses o u w :
  fst (run o (checkReviewsHandler u) w) =
    Ok match fst (run o (checkUserReviewsNow u) w) with
       | Ok _ => okResponse
       | Fail _ => failedResponse
       end /\
  (u ∈ processingUsers w ->
     fst (run o (checkUserReviewsNow u) w) = Fail busyError /\
     fst (run o (checkReviewsHandler u) w) = Ok failedResponse) /\
  (u ∉ processingUsers w -> hasSettings u w ->
     rejects o (steps w) (SelectUserSettings u) = false ->
     fst (run o (checkReviewsHandler u) w) = Ok okResponse).
Proof.
  assert (G : fst (run o (checkReviewsHandler u) w) =
              Ok match fst (run o (checkUserReviewsNow u) w) with
                 | Ok _ => okResponse
                 | Fail _ => failedResponse
                 end).
  { unfold checkReviewsHandler. rewrite run_tryCatch, run_bind, run_awaitCall.
    destruct (run o (checkUserReviewsNow u) w) as [[[]|e] w']; reflexivity. }
  split; [exact G|]. split.
  - intros Hin. rewrite G, checkUserReviewsNow_busy by exact Hin. split; reflexivity.
  - intros Hout Hset Hrej. rewrite G, checkUserReviewsNow_free by exact Hout.
    cbn zeta. rewrite exec_performed by exact Hrej. cbn [perform fst snd].
    destruct (select_settings_present u _ Hset) as [s Hs]. cbn [db setProcessing].
    cbn [db setProcessing tick] in Hs |- *. rewrite Hs. reflexivity.
Qed.

(** C7, as stated, fails: on an account without settings the manual
    trigger raises "User settings not found". *)
Lemma manual_trigger_raises_without_settings :
  settingsAbsent "u1" emptyWorld /\
  ~ completesWithoutRaising calm (checkUserReviewsNow "u1") emptyWorld.
Proof.
  split.
  - intros s Hs. inversion Hs.
  - intros [a Ha]. vm_compute in Ha. discriminate.
Qed.

(** C7, amended: the pipeline never raises, and writes no review when the
    account has no platform or no settings.  The manual trigger on an
    account that is not busy (its settings query executing) completes
    without raising when settings exist and no platform is connected, but
    raises "User settings not found" when the settings are absent; in both
    cases it writes no review and leaves the account out of
    [processingUsers]. *)
Theorem missing_prerequisites o u tone lang w :
  fst (run o (processUserReviews u tone lang) w) = Ok tt /\
  (noPlatformConnected u w \/ settingsAbsent u w ->
     reviews (db (snd (run o (processUserReviews u tone lang) w)))
       = reviews (db w)) /\
  (u ∉ processingUsers w ->
   rejects o (steps w) (SelectUserSettings u) = false ->
   let rw := run o (checkUserReviewsNow u) w in
   (settingsAbsent u w -> fst rw = Fail noSettingsError) /\
   (hasSettings u w -> noPlatformConnected u w -> fst rw = Ok tt) /\
   (settingsAbsent u w \/ noPlatformConnected u w ->
      reviews (db (snd rw)) = reviews (db w) /\ u ∉ processingUsers (snd rw))).
Proof.
  split; [apply processUserReviews_returns|].
  split; [apply processUserReviews_early_exit|].
  intros Hout Hrej. cbn zeta. rewrite checkUserReviewsNow_free by exact Hout.
  cbn zeta. rewrite exec_performed by exact Hrej.
  cbn [perform fst snd db setProcessing tick].
  assert (Hrel : forall w', u ∉ processingUsers (release u w')).
  { intros w'. unfold release. cbn. rewrite elem_of_difference, elem_of_singleton.
    intros [_ Hne]. apply Hne. reflexivity. }
  split; [|split].
  - intros Habs. rewrite (select_settings_absent u w Habs). reflexivity.
  - intros Hpres _. destruct (select_settings_present u w Hpres) as [s ->].
    reflexivity.
  - intros Hmiss.
    destruct (filter (fun s => UserSettings.userId s = u) (userSettings (db w)))
      as [|s l] eqn:Erows; cbn [head snd].
    + split; [reflexivity|apply Hrel].
    + split; [|apply Hrel].
      unfold release. cbn [db setProcessing].
      rewrite processUserReviews_early_exit; [reflexivity|].
      destruct Hmiss as [Habs|Hnp]; [|left; exact Hnp].
      rewrite (select_settings_absent u w Habs) in Erows. discriminate.
Qed.

(** * The scheduler *)

(** C6: [start()] on a running service changes nothing, so a second call
    arms no second timer; on a stopped service it launches one sweep (a new
    task: [processAllUsers] run up to its query for the enabled accounts)
    and arms one timer of period [CHECK_INTERVAL], five minutes, each
    firing of which launches a sweep.  [stop()] on a stopped service
    changes nothing; on a running one it only clears the timer and the
    flag (and logs): tasks in flight, the database and [processingUsers]
    are untouched, and no firing launches a sweep any more.  In every state
    the process reaches from boot there is at most one armed timer. *)
Theorem start_stop_idempotent o rt :
  CHECK_INTERVAL = (5 * 60 * 1000)%N /\
  (isRunning (service rt) = true -> start o rt = rt) /\
  start o (start o rt) = start o rt /\
  (isRunning (service rt) = false ->
     isRunning (service (start o rt)) = true /\
     timer (service (start o rt)) = Some (handles rt) /\
     intervals (start o rt) = intervals rt ++ [(handles rt, CHECK_INTERVAL)] /\
     tasks (start o rt) =
       tasks rt ++ [fst (sync o processAllUsers (logEvent LogStarting (world rt)))] /\
     exists k, fst (sync o processAllUsers (logEvent LogStarting (world rt)))
               = Await SelectAutoReplySettings k) /\
  (forall h, h ∈ (fst <$> intervals rt) ->
     step o rt (EvInterval h) = spawn o processAllUsers rt) /\
  (isRunning (service rt) = false -> stop rt = rt) /\
  stop (stop rt) = stop rt /\
  (tasks (stop rt) = tasks rt /\ db (world (stop rt)) = db (world rt) /\
   processingUsers (world (stop rt)) = processingUsers (world rt)) /\
  (forall h, isRunning (service rt) = true -> timer (service rt) = Some h ->
     timer (service (stop rt)) = None /\
     intervals (stop rt) = filter (fun hp => fst hp <> h) (intervals rt)) /\
  (timerConsistent rt -> forall h, step o (stop rt) (EvInterval h) = stop rt) /\
  (forall evs d now,
     timerConsistent (loop o evs (boot d now)) /\
     length (intervals (loop o evs (boot d now))) <= 1).
Proof.
  split; [reflexivity|].
  split; [apply start_running|].
  split; [apply start_running, start_is_running|].
  split.
  { intros Hr. unfold start. rewrite Hr. cbn. split_and!; try reflexivity.
    eexists. reflexivity. }
  split.
  { intros h Hh. cbn [step]. rewrite bool_decide_eq_true_2 by exact Hh. reflexivity. }
  split; [apply stop_stopped|].
  split; [apply stop_stopped, stop_is_stopped|].
  split.
  { unfold stop. destruct (isRunning (service rt)); cbn; [|repeat split].
    destruct (timer (service rt)); repeat split. }
  split.
  { intros h Hr Ht. unfold stop. rewrite Hr. cbn. rewrite Ht. split; reflexivity. }
  split.
  { intros Hcons h. cbn [step].
    assert (Hnone : intervals (stop rt) = []).
    { destruct Hcons as [(Hr & _ & Hi) | (h' & Hr & Ht & Hi)].
      - rewrite stop_stopped by exact Hr. exact Hi.
      - unfold stop. rewrite Hr. cbn. rewrite Ht. cbn. rewrite Hi. cbn.
        rewrite decide_False by (intros Hne; apply Hne; reflexivity). reflexivity. }
    rewrite Hnone. reflexivity. }
  intros evs d now.
  assert (H : timerConsistent (loop o evs (boot d now))).
  { apply timerConsistent_loop. left. repeat split. }
  split; [exact H|].
  destruct H as [(_ & _ & ->) | (h & _ & _ & ->)]; cbn; lia.
Qed.

(** * The per-account pipeline *)

(** C1: a candidate whose ([userId], [externalReviewId]) pair already has a
    row is skipped, the reviews table staying as it was; and after one run
    of the pipeline, and after a second one (whatever the source, the
    generator and the database do in either), no pair has more rows than it
    had before, unless it had none and now has one: no pair ever gets a
    second row. *)
Theorem ingestion_is_idempotent o1 o2 u tone lang w :
  let w1 := snd (run o1 (processUserReviews u tone lang) w) in
  let w2 := snd (run o2 (processUserReviews u tone lang) w1) in
  (forall o platform review w,
     0 < copies u (SimReview.externalReviewId review) w ->
     reviews (db (snd (run o (reviewLoopBody u tone lang platform review) w)))
       = reviews (db w)) /\
  (forall u' e, copies u' e w1 <= max 1 (copies u' e w)) /\
  (forall u' e, copies u' e w2 <= max 1 (copies u' e w)).
Proof.
  cbn zeta. split; [|split].
  - intros o platform review w' Hpos.
    destruct (reviewLoopBody_effect o u tone lang platform review w')
      as [Hsame | (Hzero & _)]; [exact Hsame | lia].
  - apply (maintains_snd o1 (noNewDuplicates w)).
    + apply processUserReviews_noNewDuplicates.
    + intros u' e. lia.
  - apply (maintains_snd o2 (noNewDuplicates w)).
    + apply processUserReviews_noNewDuplicates.
    + apply (maintains_snd o1 (noNewDuplicates w)).
      * apply processUserReviews_noNewDuplicates.
      * intros u' e. lia.
Qed.



(** C4: for an account with a connected platform and a settings row, the
    pipeline (its platform and settings queries and its watermark update
    executing) returns normally and sets [lastCheckTime] of the account to
    the current time after all platforms are processed: the time [now]
    that the clock shows when the loop over the platforms has come to
    its end, every platform of the account having been visited by then
    and the settings table still being as it was.  That time is not
    before the time at which the run began; once it is read, the run
    only awaits the update and logs its completion.  Nothing is assumed
    of the candidates nor of their existence checks, generations and
    inserts: they may be none, and they may all fail. *)
Theorem watermark_advances o u tone lang w :
  reliableFor o u -> hasPlatform u w -> hasSettings u w ->
  let w3 := afterPlatforms o u tone lang w in
  let now := clock w3 in
  exists w',
    run o (processUserReviews u tone lang) w = (Ok tt, w') /\
    (clock w <= now)%N /\ clock w' = (now + elapsed o (steps w3))%N /\
    (forall p, p ∈ platforms (db w) -> Platform.userId p = u ->
       loggedSince w w3 (LogCheckingPlatform (Platform.platformName p) u)) /\
    userSettings (db w3) = userSettings (db w) /\
    hasSettings u w' /\
    (forall s, s ∈ userSettings (db w') -> UserSettings.userId s = u ->
       UserSettings.lastCheckTime s = Some now) /\
    reviews (db w') = reviews (db w3) /\
    console w' = console w3 ++ [LogCompleted u] /\
    loggedSince w w' (LogCompleted u).
Proof.
  intros (Hsp & Hss & Hup) Hplat Hset. cbn zeta.
  destruct (processUserReviews_completes_at o u tone lang w Hsp Hss Hup Hplat Hset)
    as (Hrun & (Hp & Hc & [l Hl] & Hpl & Ht) & Hsf).
  set (w3 := afterPlatforms o u tone lang w) in *.
  exists (stamped o u w3). split; [exact Hrun|].
  split; [exact Hc|]. split; [reflexivity|]. split.
  { intros p Hin Hu.
    destruct (platformLoop_visited o u tone lang
                (filter (fun p => Platform.userId p = u) (platforms (db w)))
                (tick o (tick o (logEvent (LogProcessing u) w))) p)
      as (l' & Hl' & Hin'); [apply list_elem_of_filter; split; assumption|].
    exists (LogProcessing u :: l'). split.
    - subst w3. unfold afterPlatforms. rewrite Hl'. cbn.
      rewrite <- app_assoc. reflexivity.
    - right. exact Hin'. }
  split; [exact Hsf|]. split.
  { apply stamped_hasSettings. eapply hasSettings_frame; [exact Hsf|exact Hset]. }
  split; [apply stamped_rows|].
  split; [reflexivity|]. split; [reflexivity|].
  exists (l ++ [LogCompleted u]). split.
  - cbn. rewrite Hl, app_assoc. reflexivity.
  - apply elem_of_app. right. left.
Qed.

(** * The sweep *)


(** * The guard *)

(** C2: in every state the process reaches from boot, under any
    interleaving of sweeps, manual triggers, requests to the check
    endpoint and settling calls, the console
    shows for each account at most one pipeline invocation begun and not
    ended: at most one is in flight.  A sweep passes over an account that is
    in [processingUsers] without running its pipeline or changing anything;
    a manual trigger on such an account raises the busy error at once,
    before any [await]; and both paths leave the account out of
    [processingUsers] when they are done, because the removal is the
    [finally] block of the guarded code, which runs whether that code
    returns or raises. *)
Theorem single_flight_per_account o :
  (forall evs d now u,
     let l := console (world (loop o evs (boot d now))) in
     exited u l <= entered u l /\ entered u l <= exited u l + 1) /\
  (forall s w, UserSettings.userId s ∈ processingUsers w ->
     run o (sweepLoopBody s) w = (Ok tt, w)) /\
  (forall u w, u ∈ processingUsers w ->
     run o (checkUserReviewsNow u) w = (Fail busyError, w) /\
     sync o (checkUserReviewsNow u) w = (Throw busyError, w)) /\
  (forall s w, UserSettings.userId s ∉ processingUsers w ->
     UserSettings.userId s ∉ processingUsers (snd (run o (sweepLoopBody s) w))) /\
  (forall u w, u ∉ processingUsers w ->
     u ∉ processingUsers (snd (run o (checkUserReviewsNow u) w))) /\
  (forall u (p : Prog unit) w,
     fst (run o (tryFinally p (delete_ u)) w) = fst (run o p w) /\
     u ∉ processingUsers (snd (run o (tryFinally p (delete_ u)) w))).
Proof.
  split_and!.
  - intros evs d now u. apply guarded_single_flight, guarded_loop, guarded_boot.
  - intros s w Hin. rewrite sweepLoopBody_run. unfold swept.
    rewrite bool_decide_eq_true_2 by exact Hin. reflexivity.
  - intros u w Hin. split; [apply checkUserReviewsNow_busy, Hin|].
    apply sync_checkUserReviewsNow_busy, Hin.
  - intros s w Hout. rewrite sweepLoopBody_run. unfold swept.
    rewrite bool_decide_eq_false_2 by exact Hout. cbn.
    rewrite elem_of_difference, elem_of_singleton. intros [_ Hne]. apply Hne. reflexivity.
  - intros u w Hout. rewrite checkUserReviewsNow_free by exact Hout. cbn zeta.
    destruct (exec o (SelectUserSettings u) _) as [[rows|e] w2].
    + destruct (head rows); cbn; rewrite elem_of_difference, elem_of_singleton;
        intros [_ Hne]; apply Hne; reflexivity.
    + cbn. rewrite elem_of_difference, elem_of_singleton.
      intros [_ Hne]. apply Hne. reflexivity.
  - intros u p w. rewrite run_tryFinally.
    destruct (run o p w) as [r w'] eqn:E. rewrite run_delete. cbn.
    split; [reflexivity|].
    rewrite elem_of_difference, elem_of_singleton. intros [_ Hne]. apply Hne. reflexivity.
Qed.

(** * The theorems at concrete inputs *)

Lemma ingestion_is_idempotent_witness :
  let w1 := snd (run offering (processUserReviews "u1" "Friendly" "English") sampleWorld) in
  copies "u1" (SimReview.externalReviewId sampleReview) w1 = 1 /\
  reviews (db (snd (run offering
                      (reviewLoopBody "u1" "Friendly" "English" samplePlatform sampleReview)
                      w1))) = reviews (db w1).
Proof.
  split; [vm_compute; reflexivity|].
  apply (proj1 (ingestion_is_idempotent offering offering "u1" "Friendly" "English"
                  sampleWorld)).
  vm_compute. lia.
Defined.

Lemma single_flight_per_account_witness :
  run calm (sweepLoopBody sampleSettings) busyWorld = (Ok tt, busyWorld) /\
  run calm (checkUserReviewsNow "u1") busyWorld = (Fail busyError, busyWorld) /\
  ("u1" ∉ processingUsers (snd (run calm (sweepLoopBody sampleSettings) sampleWorld))) /\
  ("u1" ∉ processingUsers (snd (run calm (checkUserReviewsNow "u1") sampleWorld))).
Proof.
  destruct (single_flight_per_account calm) as (_ & Hskip & Hbusy & Hsweep & Hmanual & _).
  assert (Hin : "u1" ∈ processingUsers busyWorld) by (vm_compute; reflexivity).
  assert (Hout : "u1" ∉ processingUsers sampleWorld) by (vm_compute; discriminate).
  split_and!.
  - apply Hskip. exact Hin.
  - apply Hbusy. exact Hin.
  - apply (Hsweep sampleSettings sampleWorld). exact Hout.
  - apply Hmanual. exact Hout.
Defined.


Lemma watermark_advances_witness :
  exists w',
    run offering (processUserReviews "u1" "Friendly" "English") sampleWorld = (Ok tt, w') /\
    (forall s, s ∈ userSettings (db w') -> UserSettings.userId s = "u1" ->
       UserSettings.lastCheckTime s = Some 1005%N) /\
    clock w' = 1006%N /\
    loggedSince sampleWorld w' (LogCompleted "u1").
Proof.
  destruct (watermark_advances offering "u1" "Friendly" "English" sampleWorld)
    as (w' & Hrun & _ & Hclock & _ & _ & _ & Hrows & _ & _ & Hlog).
  - split_and!; intros; reflexivity.
  - exists samplePlatform. split; [left | reflexivity].
  - exists sampleSettings. split; [left | reflexivity].
  - exists w'. split_and!; [exact Hrun | exact Hrows | exact Hclock | exact Hlog].
Defined.


Lemma start_stop_idempotent_witness :
  let rt := boot emptyDatabase 0 in
  isRunning (service (start calm rt)) = true /\
  timer (service (start calm rt)) = Some 1 /\
  intervals (start calm rt) = [(1, 300000%N)] /\
  length (tasks (start calm rt)) = 1 /\
  start calm (start calm rt) = start calm rt /\
  length (tasks (step calm (start calm rt) (EvInterval 1))) = 2 /\
  stop rt = rt /\
  intervals (stop (start calm rt)) = [] /\
  step calm (stop (start calm rt)) (EvInterval 1) = stop (start calm rt).
Proof.
  cbn zeta.
  destruct (start_stop_idempotent calm (boot emptyDatabase 0))
    as (_ & _ & Hidem & Hstart & _ & Hstop & _).
  destruct (Hstart eq_refl) as (Hr & Ht & Hi & Hk & _).
  destruct (start_stop_idempotent calm (start calm (boot emptyDatabase 0)))
    as (_ & _ & _ & _ & Hfire & _ & _ & _ & Hclear & Hquiet & _).
  destruct (Hclear 1 Hr Ht) as [_ Hc].
  split_and!.
  - exact Hr.
  - exact Ht.
  - exact Hi.
  - rewrite Hk. reflexivity.
  - exact Hidem.
  - rewrite Hfire; [reflexivity|]. rewrite Hi. left.
  - apply Hstop. reflexivity.
  - rewrite Hc, Hi. reflexivity.
  - apply Hquiet. right. exists 1. split_and!; [exact Hr | exact Ht | exact Hi].
Defined.

Lemma missing_prerequisites_witness :
  fst (run calm (processUserReviews "u1" "Friendly" "English") emptyWorld) = Ok tt /\
  reviews (db (snd (run calm (processUserReviews "u1" "Friendly" "English") emptyWorld)))
    = reviews (db emptyWorld) /\
  fst (run calm (checkUserReviewsNow "u1") emptyWorld) = Fail noSettingsError /\
  fst (run calm (checkUserReviewsNow "u1")
         (setDb (setPlatforms [] (db sampleWorld)) sampleWorld)) = Ok tt.
Proof.
  assert (Habs : settingsAbsent "u1" emptyWorld) by (intros s Hs; inversion Hs).
  destruct (missing_prerequisites calm "u1" "Friendly" "English" emptyWorld)
    as (Hret & Hexit & Hmanual).
  destruct Hmanual as (Hraise & _ & _);
    [vm_compute; discriminate | reflexivity |].
  destruct (missing_prerequisites calm "u1" "Friendly" "English"
              (setDb (setPlatforms [] (db sampleWorld)) sampleWorld))
    as (_ & _ & Hmanual').
  destruct Hmanual' as (_ & Hok & _);
    [vm_compute; discriminate | reflexivity |].
  split_and!.
  - exact Hret.
  - apply Hexit. right. exact Habs.
  - apply Hraise, Habs.
  - apply Hok.
    + exists sampleSettings. split; [left | reflexivity].
    + intros p Hp. inversion Hp.
Defined.

Lemma manual_check_statuses_witness :
  fst (run calm (checkReviewsHandler "u1") busyWorld) = Ok failedResponse /\
  fst (run calm (checkReviewsHandler "u1") sampleWorld) = Ok okResponse.
Proof.
  destruct (manual_check_statuses calm "u1" busyWorld) as (_ & Hbusy & _).
  destruct (manual_check_statuses calm "u1" sampleWorld) as (_ & _ & Hok).
  split.
  - apply Hbusy. vm_compute. reflexivity.
  - apply Hok.
    + vm_compute. discriminate.
    + exists sampleSettings. split; [left | reflexivity].
    + reflexivity.
Defined.

Lemma updateUserSettings_creates_missing_row_witness :
  exists row,
    fst (run calm (updateUserSettings "u1" onlyEmptyTone) emptyWorld) = Ok (Some row) /\
    UserSettings.defaultTone row = "Professional" /\
    UserSettings.lastCheckTime row = Some 1001%N.
Proof.
  destruct (updateUserSettings_creates_missing_row calm "u1" onlyEmptyTone emptyWorld)
    as (row & Hrun & _ & (_ & Htone & _ & _ & Htime)).
  - intros s Hs. inversion Hs.
  - intros X c. reflexivity.
  - intros X c. reflexivity.
  - exists row. split_and!; [exact Hrun | exact Htone | exact Htime].
Defined.

Lemma delete_reports_success_witness :
  fst (run calm (deletePlatform 7) sampleWorld) = Ok true /\
  fst (run calm (deleteReplyTemplate 7) sampleWorld) = Ok true /\
  platforms (db (snd (run calm (deletePlatform 7) sampleWorld))) = [samplePlatform].
Proof.
  destruct (delete_reports_success calm 7 sampleWorld eq_refl eq_refl)
    as (Hp & Ht & Hkeep & _).
  split_and!; [exact (proj1 Hp) | exact (proj1 Ht) |].
  apply Hkeep. intros p Hp'. apply list_elem_of_singleton in Hp'. subst p.
  discriminate.
Defined.

(** ** Executions of the event loop *)

(** A manual trigger while the account's pipeline is in flight: the second
    task has failed with the busy error as soon as it is started, and the
    first still holds the account. *)
Example busy_trigger_fails_at_once :
  let rt := loop offering [EvCheckNow "u1"; EvCheckNow "u1"] (boot sampleDatabase 1000) in
  tasks rt !! 1 = Some (Throw busyError) /\
  elements (processingUsers (world rt)) = ["u1"] /\
  console (world rt) = [].
Proof. vm_compute. repeat split. Qed.

(** A sweep that finds the account held by a manual trigger passes over it
    and is done; the trigger's task is still suspended. *)
Example sweep_passes_over_held_account :
  let rt := loop offering [EvCheckNow "u1"; EvStart; EvResume 1] (boot sampleDatabase 1000) in
  tasks rt !! 1 = Some (Ret tt) /\
  elements (processingUsers (world rt)) = ["u1"] /\
  console (world rt) = [LogStarting; LogChecking; LogFound 1].
Proof. vm_compute. repeat split. Qed.

(** Two manual triggers one after the other, the source offering the same
    review both times: one row, the account released, the watermark set. *)
Example second_trigger_adds_no_row :
  let rt := loop offering
              ([EvCheckNow "u1"] ++ replicate 30 (EvResume 0) ++
               [EvCheckNow "u1"] ++ replicate 30 (EvResume 1))
              (boot sampleDatabase 1000) in
  tasks rt = [Ret tt; Ret tt] /\
  length (reviews (db (world rt))) = 1 /\
  elements (processingUsers (world rt)) = [] /\
  UserSettings.lastCheckTime <$> userSettings (db (world rt)) = [Some 1011%N].
Proof. vm_compute. repeat split. Qed.

(** * Further properties of the automation service *)

Lemma pipelineCallOf_ownedBy u {A} (p : Prog A) :
  within (pipelineCallOf u) p -> within (ownedBy u) p.
Proof. apply within_weaken. intros X c [H _]. exact H. Qed.

Lemma reviewLoopBody_pipelineCall u tone lang platform review :
  within (pipelineCallOf u) (reviewLoopBody u tone lang platform review).
Proof.
  unfold reviewLoopBody. within_tac.
  - split; [reflexivity | exact I].
  - apply generateResponse_within. split; exact I.
  - apply createReview_within. split; [reflexivity|]. cbn. split_and!; eauto.
Qed.

Lemma processUserReviews_pipelineCall u tone lang :
  within (pipelineCallOf u) (processUserReviews u tone lang).
Proof.
  assert (Hloop : forall p, within (pipelineCallOf u) (platformLoopBody u tone lang p)).
  { intros p. unfold platformLoopBody.
    within_with ltac:(apply reviewLoopBody_pipelineCall). }
  assert (Hupd : forall d, within (pipelineCallOf u) (updateUserSettings u (watermark d))).
  { intros d. apply updateUserSettings_within.
    - intros t. split; [split; reflexivity | exact I].
    - intros v' t Hv. split; [exact Hv | exact I]. }
  unfold processUserReviews.
  within_with ltac:(first [ apply Hloop | apply Hupd
                          | apply getPlatforms_within; split; [reflexivity | exact I]
                          | apply getUserSettings_within; split; [reflexivity | exact I] ]).
Qed.

Lemma run_appendedFor o u {A} (p : Prog A) w :
  within (pipelineCallOf u) p -> appendedFor u w (snd (run o p w)).
Proof.
  apply run_frame; clear; unfold appendedFor.
  - intros w. exists []. rewrite app_nil_r. split; [reflexivity | constructor].
  - intros w1 w2 w3 (r1 & H1 & F1) (r2 & H2 & F2). exists (r1 ++ r2).
    rewrite H2, H1, app_assoc. split; [reflexivity|]. apply Forall_app. auto.
  - intros ev w. exists []. rewrite app_nil_r. split; [reflexivity | constructor].
  - intros w. exists []. rewrite app_nil_r. split; [reflexivity | constructor].
  - intros X c w [Hown Hc].
    assert (Hnil : exists rows, reviews (db w) = reviews (db w) ++ rows /\
                                Forall (autoAnswered u) rows).
    { exists []. rewrite app_nil_r. split; [reflexivity | constructor]. }
    destruct (exec_snd_cases o c w) as [-> | ->]; [exact Hnil|].
    destruct c; cbn in Hown; try contradiction; try exact Hnil.
    cbn. eexists. split; [reflexivity|]. constructor; [|constructor].
    destruct Hc as (Ha & Ht & Hr & He & Hp).
    unfold autoAnswered. cbn. rewrite Ha. cbn. split_and!; auto.
Qed.

(** The settings table after a pipeline run: as before, or with the rows
    of the account stamped with a time read during the run. *)
Lemma processUserReviews_settings o u tone lang w :
  let w' := snd (run o (processUserReviews u tone lang) w) in
  userSettings (db w') = userSettings (db w) \/
  exists now, (clock w <= now)%N /\
    userSettings (db w') = stamp u now <$> userSettings (db w).
Proof.
  cbn zeta. unfold processUserReviews, getPlatforms, getUserSettings.
  run_simpl. set (w0 := logEvent _ w).
  destruct (exec_cases o (SelectPlatforms u) w0) as [-> | ->]; run_simpl;
    [left; reflexivity|].
  cbn [perform fst snd].
  destruct (filter _ (platforms (db w0))) as [|p ps] eqn:Eps; cbn [length Nat.eqb];
    run_simpl; [left; reflexivity|].
  set (w1 := setDb _ _).
  destruct (exec_cases o (SelectUserSettings u) w1) as [-> | ->]; run_simpl;
    [left; reflexivity|].
  cbn [perform fst snd].
  destruct (head (filter _ (userSettings (db w1)))) as [s0|] eqn:Es0; run_simpl;
    [|left; reflexivity].
  set (w2 := setDb _ (tick o w1)).
  pose proof (platformLoop_returns o u tone lang (p :: ps) w2) as Hret.
  destruct (platformLoop_frames o u tone lang (p :: ps) w2) as [Hbf Hsf].
  destruct (run o (forEach (p :: ps) (platformLoopBody u tone lang)) w2)
    as [r w3]. cbn [fst snd] in *. subst r. cbn beta iota.
  unfold updateUserSettings. run_simpl.
  assert (Hset : userSettings (db w3) = userSettings (db w)) by exact Hsf.
  assert (Hclock : (clock w <= clock w3)%N).
  { destruct Hbf as (_ & Hc & _). cbn in Hc. lia. }
  destruct (exec_cases o (UpdateUserSettingsRows u (watermark (clock w3)) (clock w3)) w3)
    as [-> | ->]; run_simpl; [left; exact Hset|].
  cbn [perform fst snd].
  assert (Hrows : exists s1,
             head (updatedUserSettings (watermark (clock w3)) (clock w3) <$>
                     filter (fun s => UserSettings.userId s = u)
                       (userSettings (db w3))) = Some s1).
  { rewrite Hset. change (userSettings (db w)) with (userSettings (db w1)).
    destruct (filter _ (userSettings (db w1))) as [|s1' l]; [discriminate|].
    eexists. reflexivity. }
  destruct Hrows as [s1 ->]. run_simpl. right. exists (clock w3).
  split; [exact Hclock|]. cbn. rewrite Hset. reflexivity.
Qed.

Lemma stamp_samePreferences u now s : samePreferences u s (stamp u now s).
Proof.
  unfold stamp, samePreferences. destruct (decide _) as [Hu|Hu]; cbn.
  - split_and!; try reflexivity. intros Hne. contradiction.
  - split_and!; reflexivity.
Qed.

(** X1: a pipeline run never alters the preferences of any account: the
    settings table keeps its rows, in their order, each with its id,
    owner, tone, language, auto-reply flag and creation time; a row of
    another account is left exactly as it was, so at most [lastCheckTime]
    and [updatedAt] of the rows of the account itself change, and these
    to a time not before the start of the run.  The run creates no
    settings row, and leaves the platforms, the templates and
    [processingUsers] as they were. *)
Theorem pipeline_keeps_preferences o u tone lang w :
  let w' := snd (run o (processUserReviews u tone lang) w) in
  Forall2 (samePreferences u) (userSettings (db w)) (userSettings (db w')) /\
  (forall b, b <> u -> settingsOf b w' = settingsOf b w) /\
  (userSettings (db w') = userSettings (db w) \/
   exists now, (clock w <= now)%N /\
     forall s', s' ∈ settingsOf u w' ->
       UserSettings.lastCheckTime s' = Some now /\
       UserSettings.updatedAt s' = Some now) /\
  platforms (db w') = platforms (db w) /\
  replyTemplates (db w') = replyTemplates (db w) /\
  processingUsers w' = processingUsers w.
Proof.
  cbn zeta.
  destruct (processUserReviews_baseFrame o u tone lang w) as (Hp & _ & _ & Hpl & Ht).
  pose proof (processUserReviews_settings o u tone lang w) as Hs. cbn zeta in Hs.
  split_and!; auto.
  - destruct Hs as [-> | (now & _ & ->)].
    + apply Forall2_same_length_lookup. split; [reflexivity|].
      intros i s s' H1 H2. assert (s' = s) by congruence. subst s'.
      unfold samePreferences. split_and!; reflexivity.
    + apply Forall2_fmap_r, Forall_Forall2_diag, Forall_forall.
      intros s _. apply stamp_samePreferences.
  - intros b Hb.
    apply (run_otherSettingsFrame o u b (processUserReviews u tone lang) w);
      [congruence | apply processUserReviews_within].
  - destruct Hs as [Hs | (now & Hn & Hs)]; [left; exact Hs|].
    right. exists now. split; [exact Hn|]. intros s' Hs'.
    unfold settingsOf in Hs'. apply list_elem_of_filter in Hs' as [Hu Hs'].
    rewrite Hs in Hs'. apply list_elem_of_fmap in Hs' as (s & -> & _).
    rewrite stamp_owner in Hu. unfold stamp. rewrite decide_True by exact Hu.
    split; reflexivity.
Qed.

Lemma processUserReviews_reviewsOf_other o u tone lang w b :
  b <> u ->
  reviewsOf b (snd (run o (processUserReviews u tone lang) w)) = reviewsOf b w.
Proof.
  intros Hb.
  destruct (run_appendedFor o u (processUserReviews u tone lang) w
              (processUserReviews_pipelineCall u tone lang)) as (rows & Hrows & Hall).
  unfold reviewsOf. rewrite Hrows, filter_app.
  rewrite (filter_none _ rows), app_nil_r; [reflexivity|].
  intros r Hr Hu. rewrite Forall_forall in Hall.
  destruct (Hall r Hr) as [Hown _]. congruence.
Qed.

(** X2: a pipeline run only appends to the reviews table: every row that
    was there is still there, unchanged and in place, and every row added
    belongs to the account, carries a response text and a response time,
    is marked as answered automatically and names the platform and the
    external review it came from.  So the review rows of every other
    account are as they were. *)
Theorem pipeline_appends_answered_reviews o u tone lang w :
  let w' := snd (run o (processUserReviews u tone lang) w) in
  (exists rows,
     reviews (db w') = reviews (db w) ++ rows /\ Forall (autoAnswered u) rows) /\
  (forall b, b <> u -> reviewsOf b w' = reviewsOf b w).
Proof.
  cbn zeta.
  pose proof (run_appendedFor o u (processUserReviews u tone lang) w
                (processUserReviews_pipelineCall u tone lang)) as Happ.
  split; [exact Happ|].
  intros b Hb. apply processUserReviews_reviewsOf_other, Hb.
Qed.

(** * The sweep and the accounts it does not serve *)

Lemma swept_other o s w b :
  UserSettings.userId s <> b ->
  settingsOf b (swept o s w) = settingsOf b w /\
  reviewsOf b (swept o s w) = reviewsOf b w.
Proof.
  intros Hne. unfold swept. destruct (bool_decide _); [split; reflexivity|].
  set (a := UserSettings.userId s) in *.
  set (p := processUserReviews a (UserSettings.defaultTone s) (UserSettings.language s)).
  split.
  - change (settingsOf b (snd (run o p (acquire a w))) = settingsOf b (acquire a w)).
    apply (run_otherSettingsFrame o a b p (acquire a w) Hne),
      processUserReviews_within.
  - change (reviewsOf b (snd (run o p (acquire a w))) = reviewsOf b (acquire a w)).
    apply processUserReviews_reviewsOf_other. congruence.
Qed.

Lemma sweepLoop_other o rows w b :
  (forall s, s ∈ rows -> UserSettings.userId s <> b) ->
  let w' := fold_left (fun w s => swept o s w) rows w in
  settingsOf b w' = settingsOf b w /\ reviewsOf b w' = reviewsOf b w.
Proof.
  cbn zeta. revert w. induction rows as [|s rows IH]; intros w Hall;
    [split; reflexivity|].
  cbn [fold_left].
  destruct (IH (swept o s w)) as [H1 H2].
  { intros s' Hs'. apply Hall. right. exact Hs'. }
  destruct (swept_other o s w b) as [H3 H4]; [apply Hall; left|].
  split; congruence.
Qed.

(** X3: a sweep serves only the accounts that have auto-reply switched
    on when it starts: for any other account, whatever its platforms and
    whatever happens to the accounts that are served, the settings rows
    (watermark included) and the review rows are after the sweep exactly
    as they were before it. *)
Theorem sweep_leaves_disabled_accounts_alone o w b :
  ~ autoReplyOn b w ->
  let w' := snd (run o processAllUsers w) in
  settingsOf b w' = settingsOf b w /\ reviewsOf b w' = reviewsOf b w.
Proof.
  intros Hoff. cbn zeta.
  destruct (rejects o (steps w) SelectAutoReplySettings) eqn:Hsel.
  - unfold processAllUsers. run_simpl. rewrite exec_rejected by exact Hsel.
    run_simpl. split; reflexivity.
  - rewrite processAllUsers_run by exact Hsel. cbn [snd].
    apply (sweepLoop_other o (enabledRows w) (sweepStart o w) b).
    intros s Hs Hu. apply Hoff. unfold enabledRows in Hs.
    apply list_elem_of_filter in Hs as [Hon Hs]. exists s. auto.
Qed.

Lemma sweep_leaves_disabled_accounts_alone_witness :
  let w' := snd (run offering processAllUsers mixedWorld) in
  settingsOf "u2" w' = [disabledSettings] /\ reviewsOf "u2" w' = [] /\
  length (reviewsOf "u1" w') = 1.
Proof.
  cbn zeta.
  destruct (sweep_leaves_disabled_accounts_alone offering mixedWorld "u2") as [H1 H2].
  - intros (s & Hs & Hon & Hu). cbn in Hs.
    apply elem_of_cons in Hs as [-> | Hs]; [discriminate|].
    apply list_elem_of_singleton in Hs. subst s. discriminate.
  - rewrite H1, H2. split_and!; reflexivity.
Defined.

(** * A candidate review that goes through *)

Lemma orString_nonempty x d : d <> "" -> orString x d <> "".
Proof. intros Hd. destruct x as [[|a s]|]; cbn; [exact Hd | discriminate | exact Hd]. Qed.

(** X4: a candidate without a row, whose existence check, chat completion
    and insert all execute, gets exactly one new row, appended to the
    table: it belongs to the account, names the platform it was polled
    from and the external id, the customer, text and rating of the
    candidate, carries as response the trimmed answer of the completion
    (or the standard sentence when that answer is missing or blank, so
    never an empty text), the tone passed to the pipeline, the time read
    once the response was there, and the automatic-response mark.  The
    console records the id of the new row and the post that a real
    integration would make. *)
Theorem ingestion_stores_generated_response o u tone lang platform review w :
  copies u (SimReview.externalReviewId review) w = 0 ->
  rejects o (steps w) (FindReviews u (SimReview.externalReviewId review)) = false ->
  rejects o (S (steps w))
    (ChatCompletion (SimReview.reviewText review) (SimReview.starRating review)
       tone lang) = false ->
  (forall v, rejects o (S (S (steps w))) (InsertReviewRow v) = false) ->
  let text := orString (trim <$> completion o (S (steps w))) defaultResponse in
  let respondedAt := (clock w + elapsed o (steps w) + elapsed o (S (steps w)))%N in
  let createdAt := (respondedAt + elapsed o (S (S (steps w))))%N in
  let id := S (reviewsSeq (db w)) in
  let rw := run o (reviewLoopBody u tone lang platform review) w in
  fst rw = Ok tt /\
  reviews (db (snd rw)) =
    reviews (db w) ++ [autoRow u tone platform review text respondedAt createdAt id] /\
  text <> "" /\
  console (snd rw) =
    console w ++ [LogAutoGenerated id;
                  LogWouldPost (Platform.platformName platform)
                    (SimReview.externalReviewId review)].
Proof.
  intros Hzero Hfind Hgen Hins. cbn zeta. unfold reviewLoopBody.
  rewrite run_tryCatch, run_bind, run_await, exec_performed by exact Hfind.
  cbn beta iota. cbn [perform fst snd].
  change (length (filter _ (reviews (db w))))
    with (copies u (SimReview.externalReviewId review) w).
  rewrite Hzero. cbn [Nat.ltb Nat.leb]. rewrite run_bind, run_awaitCall.
  set (w1 := setDb (db w) (tick o w)).
  destruct (generateResponse_run o (SimReview.reviewText review)
              (SimReview.starRating review) tone lang w1) as (text & Hrun & _).
  assert (Htext : text = orString (trim <$> completion o (S (steps w))) defaultResponse).
  { revert Hrun. unfold generateResponse.
    rewrite run_tryCatch, run_bind, run_await, exec_performed by exact Hgen.
    cbn beta iota. cbn [perform fst snd]. rewrite run_ret.
    intros H. injection H as H _. symmetry. exact H. }
  rewrite Hrun. cbn beta iota. change (steps w1) with (S (steps w)).
  rewrite Hgen. subst text.
  rewrite run_bind, run_newDate. cbn beta iota.
  rewrite run_bind, run_awaitCall. unfold createReview. rewrite run_bind, run_await.
  rewrite exec_performed by apply Hins. cbn beta iota. cbn [perform fst snd head].
  run_simpl. split_and!.
  - reflexivity.
  - reflexivity.
  - apply orString_nonempty. discriminate.
  - cbn. rewrite <- app_assoc. reflexivity.
Qed.

Lemma ingestion_stores_generated_response_witness :
  let rw := run offering (reviewLoopBody "u1" "Friendly" "English" samplePlatform
                            sampleReview) sampleWorld in
  let rb := run blank (reviewLoopBody "u1" "Friendly" "English" samplePlatform
                         sampleReview) sampleWorld in
  fst rw = Ok tt /\
  reviews (db (snd rw)) =
    [autoRow "u1" "Friendly" samplePlatform sampleReview "Thank you!" 1002 1003 1] /\
  reviews (db (snd rb)) =
    [autoRow "u1" "Friendly" samplePlatform sampleReview defaultResponse 1002 1003 1].
Proof.
  cbn zeta.
  destruct (ingestion_stores_generated_response offering "u1" "Friendly" "English"
              samplePlatform sampleReview sampleWorld) as (H1 & H2 & _);
    try reflexivity.
  destruct (ingestion_stores_generated_response blank "u1" "Friendly" "English"
              samplePlatform sampleReview sampleWorld) as (_ & H3 & _);
    try reflexivity.
  split_and!; [exact H1 | exact H2 | exact H3].
Defined.

(** * The response generator *)

Lemma fallbackResponses_nonempty tone s text :
  fallbackResponses tone s = Some text -> text <> "".
Proof.
  unfold fallbackResponses.
  destruct (String.eqb tone "Friendly");
    [|destruct (String.eqb tone "Professional");
      [|destruct (String.eqb tone "Apologetic");
        [|destruct (String.eqb tone "Enthusiastic"); [|discriminate]]]];
    destruct s; intros [= <-]; discriminate.
Qed.

(** X5: [generateResponse] always answers with a text that is not empty,
    and never writes to the database.  When the chat completion executes,
    the text is its trimmed content, or the standard sentence if the
    content is missing or blank; when it fails, the text is a fallback
    template and the failure is logged. *)
Theorem generateResponse_never_empty o reviewText starRating tone lang w :
  let rw := run o (generateResponse reviewText starRating tone lang) w in
  let failed := rejects o (steps w) (ChatCompletion reviewText starRating tone lang) in
  exists text,
    fst rw = Ok text /\ text <> "" /\
    db (snd rw) = db w /\
    (failed = false ->
       text = orString (trim <$> completion o (steps w)) defaultResponse /\
       console (snd rw) = console w) /\
    (failed = true ->
       fallbackResponses (toneToUse tone) (sentimentOf starRating) = Some text /\
       console (snd rw) = console w ++ [LogErrOpenAI Rejected]).
Proof.
  cbn zeta. unfold generateResponse. rewrite run_tryCatch, run_bind, run_await.
  destruct (rejects o (steps w) (ChatCompletion reviewText starRating tone lang)) eqn:E.
  - rewrite exec_rejected by exact E. cbn beta iota.
    rewrite run_bind, run_log. cbn beta iota.
    destruct (fallback_defined tone (sentimentOf starRating)) as [text Ht].
    rewrite Ht. exists text. split_and!; try reflexivity; try discriminate.
    + eapply fallbackResponses_nonempty, Ht.
    + intros _. split; reflexivity.
  - rewrite exec_performed by exact E. cbn beta iota. cbn [perform fst snd].
    rewrite run_ret. eexists. split_and!; try reflexivity; try discriminate.
    + apply orString_nonempty. discriminate.
    + intros _. split; reflexivity.
Qed.

Lemma generateResponse_never_empty_witness :
  fst (run blank (generateResponse "Great!" 5 "Friendly" "English") sampleWorld)
    = Ok defaultResponse /\
  fst (run offering (generateResponse "Great!" 5 "Friendly" "English") sampleWorld)
    = Ok "Thank you!".
Proof.
  destruct (generateResponse_never_empty blank "Great!" 5 "Friendly" "English"
              sampleWorld) as (text & Hrun & _ & _ & Hok & _).
  destruct (generateResponse_never_empty offering "Great!" 5 "Friendly" "English"
              sampleWorld) as (text' & Hrun' & _ & _ & Hok' & _).
  destruct (Hok eq_refl) as [Htext _]. destruct (Hok' eq_refl) as [Htext' _].
  split.
  - exact (eq_trans Hrun (f_equal Ok Htext)).
  - exact (eq_trans Hrun' (f_equal Ok Htext')).
Defined.

(** * The guard is held by suspended tasks only *)

Lemma sum_list_with_pos {A} (f : A -> nat) l :
  0 < sum_list_with f l -> exists x, x ∈ l /\ 0 < f x.
Proof.
  induction l as [|a l IH]; cbn; [lia|]. intros H.
  destruct (f a) as [|n] eqn:E.
  - destruct IH as (x & Hx & Hf); [lia|]. exists x. split; [right; exact Hx | exact Hf].
  - exists a. split; [left | lia].
Qed.

Lemma finished_idle ph (t : Prog unit) :
  disc ph t Idle Idle -> finished t = true -> ph = Idle.
Proof. destruct t; cbn; intros H Hf; try discriminate; exact H. Qed.

Lemma guarded_holder rt u :
  guarded rt -> u ∈ processingUsers (world rt) ->
  exists t, t ∈ tasks rt /\ finished t = false.
Proof.
  intros (phs & Hall & _ & Hin & _) Hu.
  apply Hin in Hu. cbn in Hu.
  destruct (sum_list_with_pos (holds u) phs) as (ph & Hph & Hpos); [lia|].
  apply list_elem_of_lookup in Hph as [i Hi].
  destruct (Forall2_lookup_l _ _ _ _ _ Hall Hi) as (t & Ht & _ & Hdisc).
  exists t. split; [eapply list_elem_of_lookup_2, Ht|].
  destruct (finished t) eqn:Hf; [|reflexivity].
  rewrite (finished_idle ph t Hdisc Hf) in Hpos. cbn in Hpos. lia.
Qed.

(** X6: in every state the process reaches from boot, an account is in
    [processingUsers] only while some task is still suspended at an
    [await]: the guard is never left behind by a task that has returned
    or raised.  In particular, whenever all tasks have finished,
    [processingUsers] is empty. *)
Theorem guard_held_only_while_suspended o evs d now :
  let rt := loop o evs (boot d now) in
  (forall u, u ∈ processingUsers (world rt) ->
     exists t, t ∈ tasks rt /\ finished t = false) /\
  (forallb finished (tasks rt) = true -> processingUsers (world rt) = ∅).
Proof.
  cbn zeta.
  assert (Hg : guarded (loop o evs (boot d now))).
  { apply guarded_loop, guarded_boot. }
  split.
  - intros u Hu. eapply guarded_holder; eassumption.
  - intros Hall. apply set_eq. intros u. split; [|intros Hu; inversion Hu].
    intros Hu. destruct (guarded_holder _ u Hg Hu) as (t & Ht & Hf).
    rewrite forallb_forall in Hall. apply list_elem_of_In in Ht.
    rewrite (Hall t Ht) in Hf. discriminate.
Qed.

Lemma guard_held_only_while_suspended_witness :
  let busy := loop offering [EvCheckNow "u1"] (boot sampleDatabase 1000) in
  let done := loop offering ([EvCheckNow "u1"] ++ replicate 30 (EvResume 0))
                (boot sampleDatabase 1000) in
  elements (processingUsers (world busy)) = ["u1"] /\
  forallb finished (tasks busy) = false /\
  processingUsers (world done) = ∅.
Proof.
  cbn zeta. split_and!; [reflexivity | reflexivity |].
  apply (guard_held_only_while_suspended offering
           ([EvCheckNow "u1"] ++ replicate 30 (EvResume 0)) sampleDatabase 1000).
  vm_compute. reflexivity.
Defined.

(** * The manual trigger and the auto-reply flag *)

(** X7: the manual trigger does not look at [autoReplyEnabled].  For any
    account that is not being processed and has a settings row and a
    platform (its platform and settings queries and its watermark update
    executing), it runs the pipeline to its end, with the tone and
    language of the account's first settings row: it returns normally,
    the watermark of the account is advanced to a time not before the
    call, and [processingUsers] is left as it was found. *)
Theorem manual_trigger_runs_pipeline o u w :
  u ∉ processingUsers w -> reliableFor o u -> hasPlatform u w -> hasSettings u w ->
  let rw := run o (checkUserReviewsNow u) w in
  fst rw = Ok tt /\
  watermarkAtLeast u (clock w) (snd rw) /\
  processingUsers (snd rw) = processingUsers w /\
  loggedSince w (snd rw) (LogCompleted u).
Proof.
  intros Hfree (R1 & R2 & R3) Hplat Hset. cbn zeta.
  rewrite checkUserReviewsNow_free by exact Hfree. cbn zeta.
  rewrite exec_performed by apply R2. cbn [perform fst snd].
  set (w1 := setProcessing ({[u]} ∪ processingUsers w) w).
  destruct (select_settings_present u w1 Hset) as [s Hs]. rewrite Hs.
  set (w2 := setDb (db w1) (tick o w1)).
  destruct (processUserReviews_completes o u (UserSettings.defaultTone s)
              (UserSettings.language s) w2 R1 R2 R3 Hplat Hset)
    as (w3 & Hrun & (Hp & Hc & [l Hl] & _) & Hsf).
  rewrite Hrun. cbn [fst snd]. split_and!.
  - reflexivity.
  - intros r Hr Hu. exists (clock w3). split.
    + apply (stamped_rows o u w3 r); [exact Hr | exact Hu].
    + cbn in Hc. lia.
  - cbn. rewrite Hp. cbn. apply release_acquire, Hfree.
  - exists (l ++ [LogCompleted u]). split.
    + cbn. rewrite Hl. cbn. rewrite app_assoc. reflexivity.
    + apply elem_of_app. right. left.
Qed.

Lemma manual_trigger_runs_pipeline_witness :
  let rw := run offering (checkUserReviewsNow "u2") mixedWorld in
  UserSettings.autoReplyEnabled <$> settingsOf "u2" mixedWorld = [false] /\
  fst rw = Ok tt /\
  watermarkAtLeast "u2" 1000 (snd rw) /\
  length (reviewsOf "u2" (snd rw)) = 1.
Proof.
  cbn zeta. split; [reflexivity|].
  destruct (manual_trigger_runs_pipeline offering "u2" mixedWorld) as (H1 & H2 & _).
  - vm_compute. discriminate.
  - split_and!; intros; reflexivity.
  - exists disabledPlatform. split; [right; left | reflexivity].
  - exists disabledSettings. split; [right; left | reflexivity].
  - split_and!; [exact H1 | exact H2 | reflexivity].
Defined.

(** * Every candidate and every platform is dealt with *)

Lemma reviewLoopBody_outcome o u tone lang platform review w :
  exists l,
    console (snd (run o (reviewLoopBody u tone lang platform review) w))
      = console w ++ l /\
    sum_list_with outcome l = 1 /\ sum_list_with visit l = 0 /\
    sum_list_with platformFailure l = 0.
Proof.
  unfold reviewLoopBody.
  rewrite run_tryCatch, run_bind, run_await.
  destruct (exec_cases o (FindReviews u (SimReview.externalReviewId review)) w)
    as [-> | ->]; cbn beta iota.
  { rewrite run_log. eexists. split; [reflexivity|]. split_and!; reflexivity. }
  cbn [perform fst snd].
  destruct (length (filter _ (reviews (db w)))) as [|n];
    cbn [Nat.ltb Nat.leb].
  2:{ rewrite run_log. eexists. split; [reflexivity|]. split_and!; reflexivity. }
  rewrite run_bind, run_awaitCall.
  set (w1 := setDb (db w) (tick o w)).
  destruct (generateResponse_run o (SimReview.reviewText review)
              (SimReview.starRating review) tone lang w1) as (text & Hrun & _).
  rewrite Hrun. cbn beta iota.
  set (w2 := if rejects o (steps w1) _ then _ else _).
  assert (Hw2 : exists l2, console w2 = console w ++ l2 /\
                  sum_list_with outcome l2 = 0 /\ sum_list_with visit l2 = 0 /\
                  sum_list_with platformFailure l2 = 0).
  { subst w2. destruct (rejects o (steps w1) _).
    - exists [LogErrOpenAI Rejected]. split_and!; reflexivity.
    - exists []. rewrite app_nil_r. split_and!; reflexivity. }
  destruct Hw2 as (l2 & Hl2 & Ho & Hv & Hf). clearbody w2.
  rewrite run_bind, run_newDate. cbn beta iota.
  rewrite run_bind, run_awaitCall. unfold createReview. rewrite run_bind, run_await.
  match goal with
  | |- context [exec o ?c w2] => destruct (exec_cases o c w2) as [-> | ->]
  end; cbn beta iota.
  - rewrite run_log. exists (l2 ++ [LogErrReview Rejected]). split.
    + cbn. rewrite Hl2, app_assoc. reflexivity.
    + rewrite !sum_list_with_app, Ho, Hv, Hf. split_and!; reflexivity.
  - cbn [perform fst snd head]. run_simpl.
    eexists (l2 ++ [_; _]). split.
    + cbn. rewrite Hl2, <- !app_assoc. reflexivity.
    + rewrite !sum_list_with_app, Ho, Hv, Hf. split_and!; reflexivity.
Qed.

Lemma candidateLoop_outcome o u tone lang platform rs w :
  exists l,
    console (snd (run o (forEach rs (reviewLoopBody u tone lang platform)) w))
      = console w ++ l /\
    sum_list_with outcome l = length rs /\ sum_list_with visit l = 0 /\
    sum_list_with platformFailure l = 0.
Proof.
  revert w. induction rs as [|r rs IH]; intros w.
  - exists []. cbn. rewrite app_nil_r. split_and!; reflexivity.
  - cbn [forEach]. rewrite run_bind.
    destruct (reviewLoopBody_outcome o u tone lang platform r w)
      as (l1 & H1 & O1 & V1 & F1).
    pose proof (tryCatch_log_returns o) as Hret.
    assert (Hok : fst (run o (reviewLoopBody u tone lang platform r) w) = Ok tt)
      by apply tryCatch_log_returns.
    destruct (run o (reviewLoopBody u tone lang platform r) w) as [res w1].
    cbn [fst snd] in *. subst res. cbn beta iota.
    destruct (IH w1) as (l2 & H2 & O2 & V2 & F2).
    exists (l1 ++ l2). split.
    + rewrite H2, H1, app_assoc. reflexivity.
    + rewrite !sum_list_with_app, O1, O2, V1, V2, F1, F2. cbn [length].
      split_and!; reflexivity.
Qed.

Lemma platformLoop_visits o u tone lang ps w :
  exists l,
    console (snd (run o (forEach ps (platformLoopBody u tone lang)) w))
      = console w ++ l /\
    sum_list_with visit l = length ps /\ sum_list_with platformFailure l = 0.
Proof.
  revert w. induction ps as [|p ps IH]; intros w.
  - exists []. cbn. rewrite app_nil_r. split_and!; reflexivity.
  - cbn [forEach]. rewrite run_bind.
    assert (Hok : fst (run o (platformLoopBody u tone lang p) w) = Ok tt)
      by apply tryCatch_log_returns.
    assert (H1 : exists l1,
               console (snd (run o (platformLoopBody u tone lang p) w))
                 = console w ++ l1 /\
               sum_list_with visit l1 = 1 /\ sum_list_with platformFailure l1 = 0).
    { unfold platformLoopBody.
      rewrite run_tryCatch, run_bind, run_log. cbn beta iota.
      rewrite run_bind, run_simulate. cbn beta iota.
      set (w0 := nextStep _). set (rs := simulated o _).
      destruct (candidateLoop_outcome o u tone lang p rs w0) as (l & Hl & _ & V & F).
      assert (Hret : fst (run o (forEach rs (reviewLoopBody u tone lang p)) w0) = Ok tt).
      { apply forEach_returns. intros x w'. apply tryCatch_log_returns. }
      destruct (run o (forEach rs (reviewLoopBody u tone lang p)) w0) as [res w1].
      cbn [fst snd] in *. subst res. cbn beta iota. cbn [fst snd].
      exists (LogCheckingPlatform (Platform.platformName p) u :: l). split.
      - rewrite Hl. cbn. rewrite <- app_assoc. reflexivity.
      - cbn. rewrite V, F. split; reflexivity. }
    destruct H1 as (l1 & H1 & V1 & F1).
    destruct (run o (platformLoopBody u tone lang p) w) as [res w1].
    cbn [fst snd] in *. subst res. cbn beta iota.
    destruct (IH w1) as (l2 & H2 & V2 & F2).
    exists (l1 ++ l2). split.
    + rewrite H2, H1, app_assoc. reflexivity.
    + rewrite !sum_list_with_app, V1, V2, F1, F2. cbn [length].
      split; reflexivity.
Qed.

(** X8: no candidate is dropped and no platform is passed over, whatever
    fails.  The loop over the candidates of a platform returns normally
    and logs exactly one outcome per candidate (it exists already, line
    148; it was stored, line 176; or it failed, line 182); the loop over
    the platforms returns normally and logs exactly one visit (line 131)
    per platform, and never reaches the [catch] around a platform (line
    186). *)
Theorem every_candidate_and_platform_is_dealt_with o u tone lang :
  (forall platform rs w,
     let rw := run o (forEach rs (reviewLoopBody u tone lang platform)) w in
     fst rw = Ok tt /\
     exists l, console (snd rw) = console w ++ l /\
               sum_list_with outcome l = length rs) /\
  (forall ps w,
     let rw := run o (forEach ps (platformLoopBody u tone lang)) w in
     fst rw = Ok tt /\
     exists l, console (snd rw) = console w ++ l /\
               sum_list_with visit l = length ps /\
               sum_list_with platformFailure l = 0).
Proof.
  split.
  - intros platform rs w. cbn zeta. split.
    + apply forEach_returns. intros x w'. apply tryCatch_log_returns.
    + destruct (candidateLoop_outcome o u tone lang platform rs w) as (l & Hl & Ho & _).
      exists l. split; assumption.
  - intros ps w. cbn zeta. split; [apply platformLoop_returns|].
    apply platformLoop_visits.
Qed.

Lemma every_candidate_and_platform_is_dealt_with_witness :
  let rw := run generatorDown
              (forEach [sampleReview; sampleReview]
                 (reviewLoopBody "u1" "Friendly" "English" samplePlatform))
              sampleWorld in
  fst rw = Ok tt /\
  exists l, console (snd rw) = console sampleWorld ++ l /\ sum_list_with outcome l = 2.
Proof.
  destruct (every_candidate_and_platform_is_dealt_with generatorDown "u1" "Friendly"
              "English") as [H _].
  exact (H samplePlatform [sampleReview; sampleReview] sampleWorld).
Defined.

(** * The storage layer and the routes *)

Lemma query_refused {X} (c : Stmt X) e s :
  refuses e (steps (core s)) c = true ->
  query c e s = (Raised (Js Rejected), setCore (tick (oracle e) (core s)) s).
Proof. intros H. unfold query. cbn zeta. rewrite H. reflexivity. Qed.

Lemma query_cases {X} (c : Stmt X) e s :
  let s1 := setCore (tick (oracle e) (core s)) s in
  query c e s = (Raised (Js Rejected), s1) \/
  exists x s2,
    refuses e (steps (core s)) c = false /\
    performStmt c (completion (oracle e) (steps (core s))) (clock (core s1)) s1
      = Some (x, s2) /\
    query c e s = (Returned x, s2).
Proof.
  cbn zeta. unfold query. cbn zeta.
  destruct (refuses e (steps (core s)) c); [left; reflexivity|].
  destruct (performStmt c _ _ _) as [[x s2]|]; [|left; reflexivity].
  right. exists x, s2. split_and!; reflexivity.
Qed.

Lemma first_with_key {A} (key : A -> nat) (l : list A) id p :
  NoDup (key <$> l) ->
  head (filter (fun x => Z.of_nat (key x) = id) l) = Some p ->
  p ∈ l /\ Z.of_nat (key p) = id /\
  forall q, q ∈ l -> Z.of_nat (key q) = id -> q = p.
Proof.
  intros Hnd Hhead.
  assert (Hp : p ∈ filter (fun x => Z.of_nat (key x) = id) l).
  { destruct (filter _ l) as [|p' l']; [discriminate|].
    cbn in Hhead. injection Hhead as ->. left. }
  apply list_elem_of_filter in Hp as [Hpid Hp].
  split; [exact Hp|]. split; [exact Hpid|].
  intros q Hq Hid.
  apply list_elem_of_lookup in Hp as [i Hi].
  apply list_elem_of_lookup in Hq as [j Hj].
  assert (i = j).
  { eapply NoDup_lookup; [exact Hnd| |].
    - rewrite list_lookup_fmap, Hi. reflexivity.
    - rewrite list_lookup_fmap, Hj. cbn. f_equal. lia. }
  subst j. congruence.
Qed.

Lemma head_filter_none {A} (P : A -> Prop) `{!forall x, Decision (P x)} (l : list A) :
  head (filter P l) = None -> forall x, x ∈ l -> ~ P x.
Proof.
  intros Hnone x Hx HP.
  assert (Hin : x ∈ filter P l) by (apply list_elem_of_filter; auto).
  destruct (filter P l); [inversion Hin | discriminate].
Qed.

(** Deleting, or rewriting, the rows of one key leaves the rows of the
    other accounts alone when the key is the requester's. *)
Lemma filter_filter_owned {A} (owner : A -> string) (sel : A -> Prop)
    `{!forall x, Decision (sel x)} (u : string) (l : list A) :
  (forall x, x ∈ l -> ~ sel x -> owner x = u) ->
  filter (fun x => owner x <> u) (filter sel l) = filter (fun x => owner x <> u) l.
Proof.
  intros Hown. induction l as [|a l IH]; [reflexivity|].
  assert (IH' : filter (fun x => owner x <> u) (filter sel l)
                = filter (fun x => owner x <> u) l).
  { apply IH. intros x Hx. apply Hown. right. exact Hx. }
  rewrite (filter_cons sel). destruct (decide (sel a)) as [Hs|Hs].
  - rewrite !filter_cons, IH'. reflexivity.
  - rewrite IH'. rewrite filter_cons_False; [reflexivity|].
    intros Hne. apply Hne, Hown; [left | exact Hs].
Qed.

Lemma filter_updateWhere_owned {A} (owner : A -> string) (sel : A -> Prop)
    `{!forall x, Decision (sel x)} (f : A -> A) (u : string) (l : list A) :
  (forall x, x ∈ l -> sel x -> owner x = u) ->
  (forall x, owner (f x) = owner x) ->
  filter (fun x => owner x <> u) (updateWhere sel f l) = filter (fun x => owner x <> u) l.
Proof.
  intros Hown Hf. unfold updateWhere. induction l as [|a l IH]; [reflexivity|].
  assert (IH' : filter (fun x => owner x <> u)
                  ((fun x => if decide (sel x) then f x else x) <$> l)
                = filter (fun x => owner x <> u) l).
  { apply IH. intros x Hx. apply Hown. right. exact Hx. }
  rewrite fmap_cons. destruct (decide (sel a)) as [Hs|Hs].
  - rewrite !filter_cons_False, IH'; [reflexivity| |].
    + intros Hne. apply Hne, Hown; [left | exact Hs].
    + rewrite Hf. intros Hne. apply Hne, Hown; [left | exact Hs].
  - rewrite !filter_cons, IH'. reflexivity.
Qed.

(** ** Stepping through a handler *)

Ltac async_unfold :=
  unfold catch, andThen, respond, ret, raise, failed, invalidOrFailed,
    consoleError, today, parse; cbn beta.

Lemma performStmt_readOnly {X} (c : Stmt X) answer now s :
  readOnly c -> exists x, performStmt c answer now s = Some (x, s).
Proof. destruct c; cbn; intros H; try contradiction; eexists; reflexivity. Qed.

Lemma query_readOnly {X} (c : Stmt X) e s :
  readOnly c ->
  let s1 := setCore (tick (oracle e) (core s)) s in
  query c e s = (Raised (Js Rejected), s1) \/
  exists x,
    refuses e (steps (core s)) c = false /\
    performStmt c (completion (oracle e) (steps (core s))) (clock (core s1)) s1
      = Some (x, s1) /\
    query c e s = (Returned x, s1).
Proof.
  intros Hro. cbn zeta.
  destruct (query_cases c e s) as [H | (x & s2 & Href & Hperf & Hq)]; [left; exact H|].
  right. destruct (performStmt_readOnly c (completion (oracle e) (steps (core s)))
                     (clock (core (setCore (tick (oracle e) (core s)) s)))
                     (setCore (tick (oracle e) (core s)) s) Hro) as [x' Hx'].
  rewrite Hx' in Hperf. injection Hperf as -> <-.
  exists x. split_and!; auto.
Qed.

(** ** Postconditions of handlers *)

Section Wp.
Variable e : Env.

Lemma wp_ret {A} (a : A) (Q : Outcome A -> Server -> Prop) s :
  Q (Returned a) s -> wp (ret a) e Q s.
Proof. exact id. Qed.

Lemma wp_respond code body (Q : Outcome Reply -> Server -> Prop) s :
  Q (Returned {| code := code; body := body |}) s -> wp (respond code body) e Q s.
Proof. exact id. Qed.

Lemma wp_raise {A} f (Q : Outcome A -> Server -> Prop) s :
  Q (Raised f) s -> wp (raise f) e Q s.
Proof. exact id. Qed.

Lemma wp_andThen {A B} (m : Async A) (k : A -> Async B) Q s :
  wp m e (fun o s' =>
            match o with
            | Returned a => wp (k a) e Q s'
            | Raised f => Q (Raised f) s'
            end) s ->
  wp (andThen m k) e Q s.
Proof.
  unfold wp, andThen. destruct (m e s) as [[a|f] s']; cbn; exact id.
Qed.

Lemma wp_catch {A} (m : Async A) (h : Failure -> Async A) Q s :
  wp m e (fun o s' =>
            match o with
            | Returned a => Q (Returned a) s'
            | Raised f => wp (h f) e Q s'
            end) s ->
  wp (catch m h) e Q s.
Proof.
  unfold wp, catch. destruct (m e s) as [[a|f] s']; cbn; exact id.
Qed.

Lemma wp_today (Q : Outcome Date -> Server -> Prop) s :
  Q (Returned (clock (core s))) s -> wp today e Q s.
Proof. exact id. Qed.

Lemma wp_consoleError label f (Q : Outcome unit -> Server -> Prop) s :
  Q (Returned tt) (logError label f s) -> wp (consoleError label f) e Q s.
Proof. exact id. Qed.

Lemma wp_parse {A} (schema : option Json -> list Issue + A) body
    (Q : Outcome A -> Server -> Prop) s :
  (forall data, schema body = inr data -> Q (Returned data) s) ->
  (forall issues, schema body = inl issues -> Q (Raised (ZodError issues)) s) ->
  wp (parse schema body) e Q s.
Proof.
  intros H1 H2. unfold wp, parse. destruct (schema body) as [issues|data]; cbn; auto.
Qed.

Lemma wp_query {X} (c : Stmt X) (Q : Outcome X -> Server -> Prop) s :
  let s1 := setCore (tick (oracle e) (core s)) s in
  Q (Raised (Js Rejected)) s1 ->
  (forall x s2,
     refuses e (steps (core s)) c = false ->
     performStmt c (completion (oracle e) (steps (core s))) (clock (core s1)) s1
       = Some (x, s2) ->
     Q (Returned x) s2) ->
  wp (query c) e Q s.
Proof.
  cbn zeta. intros H1 H2. unfold wp.
  destruct (query_cases c e s) as [-> | (x & s2 & Href & Hperf & ->)]; cbn; auto.
Qed.

(** The same, for a statement that is known to execute. *)
Lemma wp_query_executed {X} (c : Stmt X) (Q : Outcome X -> Server -> Prop) s :
  let s1 := setCore (tick (oracle e) (core s)) s in
  refuses e (steps (core s)) c = false ->
  (forall x s2,
     performStmt c (completion (oracle e) (steps (core s))) (clock (core s1)) s1
       = Some (x, s2) ->
     Q (Returned x) s2) ->
  (performStmt c (completion (oracle e) (steps (core s))) (clock (core s1)) s1 = None ->
     Q (Raised (Js Rejected)) s1) ->
  wp (query c) e Q s.
Proof.
  cbn zeta. intros Href H1 H2. unfold wp, query. cbn zeta. rewrite Href.
  destruct (performStmt c _ _ _) as [[x s2]|]; cbn; auto.
Qed.

Lemma wp_call {A} (p : Prog A) (Q : Outcome A -> Server -> Prop) s :
  (forall a w, run (oracle e) p (core s) = (Ok a, w) -> Q (Returned a) (setCore w s)) ->
  (forall err w, run (oracle e) p (core s) = (Fail err, w) ->
     Q (Raised (Js err)) (setCore w s)) ->
  wp (call p) e Q s.
Proof.
  intros H1 H2. unfold wp, call.
  destruct (run (oracle e) p (core s)) as [[a|err] w]; cbn; auto.
Qed.

Lemma wp_weaken {A} (m : Async A) (Q Q' : Outcome A -> Server -> Prop) s :
  (forall o s', Q o s' -> Q' o s') -> wp m e Q s -> wp m e Q' s.
Proof. unfold wp. auto. Qed.

End Wp.

(** One step through a handler: the rule of its head. *)
Ltac wp_step :=
  lazymatch goal with
  | |- wp (andThen _ _) _ _ _ => apply wp_andThen
  | |- wp (catch _ _) _ _ _ => apply wp_catch
  | |- wp (respond _ _) _ _ _ => apply wp_respond
  | |- wp (ret _) _ _ _ => apply wp_ret
  | |- wp (raise _) _ _ _ => apply wp_raise
  | |- wp today _ _ _ => apply wp_today
  | |- wp (consoleError _ _) _ _ _ => apply wp_consoleError
  | |- wp (failed _ _ _) _ _ _ => unfold failed
  | |- wp (invalidOrFailed _ _ _) _ _ _ => unfold invalidOrFailed
  | |- wp (if negb (String.eqb ?a ?b) then _ else _) _ _ _ =>
      destruct (String.eqb_spec a b); cbn [negb]
  | |- wp (match ?x with _ => _ end) _ _ _ => destruct x eqn:?
  end.

Ltac wp_steps := repeat wp_step.

(** ** No request writes to the rows of another account *)

Lemma sameForOthers_refl u d : sameForOthers u d d.
Proof. repeat split. Qed.

Lemma sameForOthers_trans u d1 d2 d3 :
  sameForOthers u d1 d2 -> sameForOthers u d2 d3 -> sameForOthers u d1 d3.
Proof.
  intros (A1 & A2 & A3 & A4) (B1 & B2 & B3 & B4). repeat split; congruence.
Qed.

Lemma filter_app_own {A} (P : A -> Prop) `{!forall x, Decision (P x)} (l : list A) x :
  ~ P x -> filter P (l ++ [x]) = filter P l.
Proof.
  intros Hx. rewrite filter_app, filter_cons_False by exact Hx.
  rewrite filter_nil, app_nil_r. reflexivity.
Qed.

Lemma performStmt_others u {X} (c : Stmt X) answer now s x s2 :
  performStmt c answer now s = Some (x, s2) ->
  ownStmt u (tables s) c ->
  sameForOthers u (tables s) (tables s2).
Proof.
  intros Hperf Hown. unfold sameForOthers, othersSettings, othersPlatforms,
    othersReviews, othersTemplates.
  destruct c; cbn in Hperf, Hown.
  - injection Hperf as _ <-. repeat split.
  - injection Hperf as _ <-. repeat split.
  - destruct (filter _ (users s)); injection Hperf as _ <-; repeat split.
  - injection Hperf as _ <-. repeat split.
  - injection Hperf as _ <-. cbn. split_and!; try reflexivity.
    apply filter_app_own. cbn. intros Hne. apply Hne, Hown.
  - injection Hperf as _ <-. cbn. split_and!; try reflexivity.
    destruct Hown as [Hv Hown].
    apply (filter_updateWhere_owned Platform.userId); [exact Hown|].
    intros p. cbn. rewrite Hv. reflexivity.
  - injection Hperf as _ <-. repeat split.
  - injection Hperf as _ <-. repeat split.
  - injection Hperf as _ <-. repeat split.
  - injection Hperf as _ <-. cbn. split_and!; try reflexivity.
    apply (filter_updateWhere_owned Review.userId); [exact Hown|].
    intros r. reflexivity.
  - injection Hperf as _ <-. repeat split.
  - injection Hperf as _ <-. repeat split.
  - destruct (wholeOrNull _); [|discriminate].
    injection Hperf as _ <-. cbn. split_and!; try reflexivity.
    apply filter_app_own. cbn. intros Hne. apply Hne, Hown.
  - destruct (match PartialReplyTemplate.starRating v with
              | Some q => _ | None => _ end); [|discriminate].
    injection Hperf as _ <-. cbn. split_and!; try reflexivity.
    destruct Hown as [Hv Hown].
    apply (filter_updateWhere_owned ReplyTemplate.userId); [exact Hown|].
    intros t. cbn. rewrite Hv. reflexivity.
  - injection Hperf as _ <-. repeat split.
Qed.

Lemma run_sameForOthers o u {A} (p : Prog A) w :
  within (ownedBy u) p -> sameForOthers u (db w) (db (snd (run o p w))).
Proof.
  apply (run_frame o (ownedBy u) (fun w w' => sameForOthers u (db w) (db w'))).
  - intros w0. apply sameForOthers_refl.
  - intros w1 w2 w3. apply sameForOthers_trans.
  - intros ev w0. apply sameForOthers_refl.
  - intros w0. apply sameForOthers_refl.
  - intros X c w0 Hc.
    destruct (exec_snd_cases o c w0) as [-> | ->]; [apply sameForOthers_refl|].
    unfold sameForOthers, othersSettings, othersPlatforms, othersReviews,
      othersTemplates.
    destruct c; cbn in Hc; try contradiction; cbn; split_and!; try reflexivity.
    + apply filter_app_own. cbn. intros Hne. apply Hne, Hc.
    + destruct Hc as [-> Hv].
      change (filter (fun x => UserSettings.userId x <> u)
                (updateWhere (fun s => UserSettings.userId s = u)
                   (updatedUserSettings v updatedAt) (userSettings (db w0)))
              = filter (fun x => UserSettings.userId x <> u) (userSettings (db w0))).
      apply (filter_updateWhere_owned UserSettings.userId); [auto|].
      intros s. cbn. rewrite Hv. reflexivity.
    + apply filter_app_own. cbn. intros Hne. apply Hne, Hc.
Qed.

Lemma deletePlatform_sameForOthers o u id w :
  (forall q, q ∈ platforms (db w) -> Z.of_nat (Platform.id q) = id -> Platform.userId q = u) ->
  sameForOthers u (db w) (db (snd (run o (deletePlatform id) w))).
Proof.
  intros Hown. unfold deletePlatform. rewrite run_bind, run_await.
  destruct (exec_cases o (DeletePlatformRows id) w) as [-> | ->]; cbn beta iota;
    [apply sameForOthers_refl|].
  rewrite run_ret.
  unfold sameForOthers, othersSettings, othersPlatforms, othersReviews,
    othersTemplates. cbn. split_and!; try reflexivity.
  apply (filter_filter_owned Platform.userId).
  intros q Hq Hid. apply Hown; [exact Hq|].
  destruct (decide (Z.of_nat (Platform.id q) = id)); [assumption | contradiction].
Qed.

Lemma deleteReplyTemplate_sameForOthers o u id w :
  (forall q, q ∈ replyTemplates (db w) -> Z.of_nat (ReplyTemplate.id q) = id ->
     ReplyTemplate.userId q = u) ->
  sameForOthers u (db w) (db (snd (run o (deleteReplyTemplate id) w))).
Proof.
  intros Hown. unfold deleteReplyTemplate. rewrite run_bind, run_await.
  destruct (exec_cases o (DeleteReplyTemplateRows id) w) as [-> | ->]; cbn beta iota;
    [apply sameForOthers_refl|].
  rewrite run_ret.
  unfold sameForOthers, othersSettings, othersPlatforms, othersReviews,
    othersTemplates. cbn. split_and!; try reflexivity.
  apply (filter_filter_owned ReplyTemplate.userId).
  intros q Hq Hid. apply Hown; [exact Hq|].
  destruct (decide (Z.of_nat (ReplyTemplate.id q) = id)); [assumption | contradiction].
Qed.

Section Isolation.
Variable e : Env.
Variable u : string.
Variable d0 : Database.

Lemma wp_call_framed {A} (p : Prog A) (Q : Outcome A -> Server -> Prop) s :
  sameForOthers u (db (core s)) (db (snd (run (oracle e) p (core s)))) ->
  sameForOthers u d0 (tables s) ->
  (forall o s', sameForOthers u d0 (tables s') -> Q o s') ->
  wp (call p) e Q s.
Proof.
  intros Hf H0 HQ.
  apply wp_call; intros a w Hrun; rewrite Hrun in Hf; apply HQ;
    exact (sameForOthers_trans u _ _ _ H0 Hf).
Qed.

Lemma wp_call_kept {A} (p : Prog A) (Q : Outcome A -> Server -> Prop) s :
  within (ownedBy u) p -> sameForOthers u d0 (tables s) ->
  (forall o s', sameForOthers u d0 (tables s') -> Q o s') ->
  wp (call p) e Q s.
Proof.
  intros Hw. apply wp_call_framed, run_sameForOthers, Hw.
Qed.

Lemma wp_query_kept {X} (c : Stmt X) (Q : Outcome X -> Server -> Prop) s :
  ownStmt u (tables s) c -> sameForOthers u d0 (tables s) ->
  (forall o s', sameForOthers u d0 (tables s') -> Q o s') ->
  wp (query c) e Q s.
Proof.
  intros Hown H0 HQ. apply wp_query.
  - apply HQ. exact H0.
  - intros x s2 _ Hperf. apply HQ.
    eapply sameForOthers_trans; [exact H0|].
    exact (performStmt_others u c _ _ (setCore (tick (oracle e) (core s)) s) x s2
             Hperf Hown).
Qed.

Lemma wp_failed_isolated label message f s :
  sameForOthers u d0 (tables s) ->
  wp (failed label message f) e (isolated u d0) s.
Proof. intros H. split; [eexists; reflexivity | exact H]. Qed.

Lemma wp_invalidOrFailed_isolated label message f s :
  sameForOthers u d0 (tables s) ->
  wp (invalidOrFailed label message f) e (isolated u d0) s.
Proof.
  intros H. destruct f as [err|issues|]; (split; [eexists; reflexivity | exact H]).
Qed.

End Isolation.

Ltac kept_step :=
  lazymatch goal with
  | |- wp (failed _ _ _) _ _ _ => apply wp_failed_isolated; assumption
  | |- wp (invalidOrFailed _ _ _) _ _ _ => apply wp_invalidOrFailed_isolated; assumption
  | |- wp (call _) _ _ _ =>
      eapply wp_call_kept; [ | eassumption | intros [?|?] ? ?]
  | |- wp (query _) _ _ _ =>
      eapply wp_query_kept; [ | eassumption | intros [?|?] ? ?]
  | |- wp (parse _ _) _ _ _ => apply wp_parse; intros ? ?
  | |- isolated _ _ (Returned _) _ => split; [eexists; reflexivity | assumption]
  | |- _ => wp_step
  end.

(** The first statement of a route that names a row by its id: the rows
    with that id, the tables staying as they are. *)
Ltac wp_select :=
  apply wp_query;
    [ | let Hperf := fresh "Hperf" in
        intros ? ? _ Hperf; cbn in Hperf; injection Hperf as <- <- ].

Lemma generateResponseVariations_isolated e u d0 a b c d n s :
  sameForOthers u d0 (tables s) ->
  wp (generateResponseVariations a b c d n) e
    (fun o s' => sameForOthers u d0 (tables s')) s.
Proof.
  intros H0. unfold generateResponseVariations.
  apply wp_catch, wp_andThen. wp_select; [exact H0|].
  destruct (trim <$> _) as [[|ch content]|]; [exact H0| |exact H0].
  apply wp_catch, wp_andThen. unfold wp at 1.
  destruct (JSON_parse e _) as [parsed|]; cbn [fst snd]; [|exact H0].
  apply wp_andThen. destruct parsed; cbn; try exact H0.
  destruct (property _ _) as [[]|]; try exact H0.
  destruct items; exact H0.
Qed.

Lemma handler_isolated e u request s :
  keysDistinct (tables s) ->
  wp (handler u request) e (isolated u (tables s)) s.
Proof.
  intros [Hplat Htemp].
  pose proof (sameForOthers_refl u (tables s)) as H0.
  destruct request; cbn [handler].
  - (* GET /api/auth/user *)
    unfold getAuthUser, getUser. repeat kept_step. exact I.
  - (* GET /api/settings *)
    unfold getSettings. repeat kept_step.
    + apply getUserSettings_within. reflexivity.
    + apply createUserSettings_within. intros t. reflexivity.
  - (* PUT /api/settings *)
    unfold putSettings. repeat kept_step.
    apply updateUserSettings_within.
    + intros t. split; reflexivity.
    + intros v' t Hv. exact Hv.
  - (* GET /api/platforms *)
    unfold getPlatformsRoute. repeat kept_step.
    apply getPlatforms_within. reflexivity.
  - (* POST /api/platforms *)
    unfold postPlatform, createPlatform. repeat kept_step. reflexivity.
  - (* PUT /api/platforms/:id *)
    unfold putPlatform, getPlatform, updatePlatform.
    apply wp_catch. destruct id as [z|]; [|repeat kept_step].
    apply wp_andThen, wp_andThen. wp_select; [repeat kept_step|].
    apply wp_ret. destruct (head _) as [p|] eqn:Hhead; [|repeat kept_step].
    destruct (first_with_key Platform.id _ z p Hplat Hhead) as (_ & _ & Huniq).
    repeat kept_step. split; [reflexivity|].
    intros q Hq Hid. rewrite (Huniq q Hq Hid). assumption.
  - (* DELETE /api/platforms/:id *)
    unfold deletePlatformRoute, getPlatform.
    apply wp_catch. destruct id as [z|]; [|repeat kept_step].
    apply wp_andThen, wp_andThen. wp_select; [repeat kept_step|].
    apply wp_ret. destruct (head _) as [p|] eqn:Hhead; [|repeat kept_step].
    destruct (first_with_key Platform.id _ z p Hplat Hhead) as (_ & Hz & Huniq).
    wp_step; [|repeat kept_step]. wp_step.
    eapply wp_call_framed; [ | eassumption | intros [?|?] ? ?; repeat kept_step].
    apply deletePlatform_sameForOthers. intros q Hq Hid.
    rewrite (Huniq q Hq); [assumption | lia].
  - (* GET /api/reviews *)
    unfold getReviews, getUserReviews. repeat kept_step. exact I.
  - (* GET /api/reviews/:id *)
    unfold getReview, getReviewById. repeat kept_step. exact I.
  - (* POST /api/reviews/variations *)
    unfold postVariations. apply wp_catch, wp_andThen.
    apply wp_parse; intros ? ?; [|repeat kept_step].
    apply wp_andThen. kept_step; [apply getUserSettings_within; reflexivity| |];
      [|repeat kept_step].
    apply wp_andThen.
    eapply wp_weaken; [|apply (generateResponseVariations_isolated e u (tables s));
                        assumption].
    intros [vs|f] s'' Hs''; cbn beta iota; repeat kept_step.
  - (* POST /api/simulate-review *)
    unfold postSimulateReview. repeat kept_step.
    + apply within_simulate.
    + apply getUserSettings_within. reflexivity.
    + apply generateResponse_within. exact I.
    + apply getPlatforms_within. reflexivity.
    + apply createReview_within. reflexivity.
  - (* GET /api/templates *)
    unfold getTemplates, getReplyTemplates. repeat kept_step. exact I.
  - (* POST /api/templates *)
    unfold postTemplate, createReplyTemplate. repeat kept_step. reflexivity.
  - (* PUT /api/templates/:id *)
    unfold putTemplate, getReplyTemplate, updateReplyTemplate.
    apply wp_catch. destruct id as [z|]; [|repeat kept_step].
    apply wp_andThen, wp_andThen. wp_select; [repeat kept_step|].
    apply wp_ret. destruct (head _) as [p|] eqn:Hhead; [|repeat kept_step].
    destruct (first_with_key ReplyTemplate.id _ z p Htemp Hhead) as (_ & _ & Huniq).
    repeat kept_step. split; [reflexivity|].
    intros q Hq Hid. rewrite (Huniq q Hq Hid). assumption.
  - (* DELETE /api/templates/:id *)
    unfold deleteTemplateRoute, getReplyTemplate.
    apply wp_catch. destruct id as [z|]; [|repeat kept_step].
    apply wp_andThen, wp_andThen. wp_select; [repeat kept_step|].
    apply wp_ret. destruct (head _) as [p|] eqn:Hhead; [|repeat kept_step].
    destruct (first_with_key ReplyTemplate.id _ z p Htemp Hhead) as (_ & Hz & Huniq).
    wp_step; [|repeat kept_step]. wp_step.
    eapply wp_call_framed; [ | eassumption | intros [?|?] ? ?; repeat kept_step].
    apply deleteReplyTemplate_sameForOthers. intros q Hq Hid.
    rewrite (Huniq q Hq); [assumption | lia].
Qed.

Lemma checkReviewsHandler_sameForOthers o u w :
  sameForOthers u (db w) (db (snd (run o (checkReviewsHandler u) w))).
Proof.
  unfold checkReviewsHandler. rewrite run_tryCatch, run_bind, run_awaitCall.
  destruct (decide (u ∈ processingUsers w)) as [Hbusy|Hfree].
  - rewrite checkUserReviewsNow_busy by exact Hbusy. cbn beta iota.
    rewrite run_bind, run_log. cbn beta iota. rewrite run_ret.
    apply sameForOthers_refl.
  - rewrite checkUserReviewsNow_free by exact Hfree. cbn zeta.
    set (w1 := setProcessing _ w).
    destruct (exec_cases o (SelectUserSettings u) w1) as [-> | ->].
    { cbn beta iota. rewrite run_bind, run_log. cbn beta iota. rewrite run_ret.
      apply sameForOthers_refl. }
    cbn [perform fst snd].
    destruct (head _) as [s0|].
    2:{ cbn beta iota. rewrite run_bind, run_log. cbn beta iota. rewrite run_ret.
        apply sameForOthers_refl. }
    cbn beta iota. rewrite run_ret. cbn [snd].
    exact (run_sameForOthers o u _ (setDb (db w1) (tick o w1))
             (processUserReviews_within u (UserSettings.defaultTone s0)
                (UserSettings.language s0))).
Qed.

(** X9: no request changes a row of another account.  Every route
    answers (none lets an error escape); a request without a subject, or
    with an empty one, is answered 401 and changes nothing at all; and a
    request of account [u] leaves the settings, platforms, reviews and
    templates of every other account exactly as they were, whatever id
    it names, whatever its body says and whatever fails on the way,
    provided no two platforms and no two templates share an id (they are
    primary keys).  The same holds of the manual check endpoint. *)
Theorem api_account_isolation e s sub request :
  keysDistinct (tables s) ->
  let rs := serve sub request e s in
  (exists reply, fst rs = Returned reply) /\
  match sub with
  | Some (String a rest) =>
      sameForOthers (String a rest) (tables s) (tables (snd rs)) /\
      sameForOthers (String a rest) (tables s)
        (db (snd (run (oracle e) (checkReviewsHandler (String a rest)) (core s))))
  | Some EmptyString | None => rs = (Returned unauthorized, s)
  end.
Proof.
  intros Hkeys. cbn zeta. unfold serve, extractUserId.
  destruct sub as [[|a rest]|].
  - split; [eexists|]; reflexivity.
  - destruct (handler_isolated e (String a rest) request s Hkeys) as [Hans Hiso].
    split_and!; [exact Hans | exact Hiso | apply checkReviewsHandler_sameForOthers].
  - split; [eexists|]; reflexivity.
Qed.

Lemma api_account_isolation_witness :
  let rs := serve (Some "u1") (DeletePlatform (Some 2%Z)) quiet (serverOver mixedWorld) in
  code <$> (match fst rs with Returned r => Some r | Raised _ => None end) = Some 403 /\
  othersPlatforms "u1" (tables (snd rs)) = [disabledPlatform] /\
  serve (Some "") (DeletePlatform (Some 2%Z)) quiet (serverOver mixedWorld)
    = (Returned unauthorized, serverOver mixedWorld).
Proof.
  cbn zeta.
  assert (Hkeys : keysDistinct (tables (serverOver mixedWorld))).
  { split; apply (bool_decide_unpack _); vm_compute; exact I. }
  destruct (api_account_isolation quiet (serverOver mixedWorld) (Some "u1")
              (DeletePlatform (Some 2%Z)) Hkeys) as (_ & (_ & Hp & _) & _).
  split_and!; [reflexivity | rewrite Hp; reflexivity |].
  exact (proj2 (api_account_isolation quiet (serverOver mixedWorld) (Some "")
                  (DeletePlatform (Some 2%Z)) Hkeys)).
Defined.

(** ** Access control of the routes that name a row *)

(** Turning a goal about the outcome and the final server of a handler
    into a postcondition. *)
Ltac wp_start_at m e s :=
  pattern (snd (m e s)); pattern (fst (m e s));
  lazymatch goal with
  | |- (fun o => (fun s' => @?Q o s') _) _ => change (wp m e Q s)
  end.

Ltac wp_start :=
  lazymatch goal with
  | |- context [fst (?m ?e ?s)] => wp_start_at m e s
  | |- context [snd (?m ?e ?s)] => wp_start_at m e s
  end.

(** A selecting statement that executes. *)
Ltac wp_selected Hex :=
  apply wp_query_executed;
    [ apply Hex
    | let Hperf := fresh "Hperf" in
      intros ? ? Hperf; cbn in Hperf; injection Hperf as <- <-
    | let Hperf := fresh "Hperf" in
      intros Hperf; cbn in Hperf; discriminate Hperf ].

Ltac by_id_route Hex Hhead :=
  wp_start; apply wp_catch, wp_andThen, wp_andThen; wp_selected Hex;
  apply wp_ret; unfold tables in *; rewrite Hhead.

(** X10: the routes that name a row by the id in their path (PUT and
    DELETE of a platform, PUT and DELETE of a template, GET of a review)
    check the id, then the row, then its owner, before anything else:
    when the id is not a number the answer is 400 and nothing at all has
    happened; when no row has the id it is 404; when the row belongs to
    another account it is 403, whatever the body of the request; and in
    the last two cases the tables are as they were.  (The select of the
    route is taken to execute.) *)
Theorem by_id_routes_check_ownership e s u request :
  (forall X (c : Stmt X), refuses e (steps (core s)) c = false) ->
  let rs := handler u request e s in
  match addressed request (tables s) with
  | NotById => True
  | BadId => codeOf (fst rs) = Some 400 /\ snd rs = s
  | Missing => codeOf (fst rs) = Some 404 /\ tables (snd rs) = tables s
  | OwnedBy owner =>
      owner <> u -> codeOf (fst rs) = Some 403 /\ tables (snd rs) = tables s
  end.
Proof.
  intros Hex. cbn zeta.
  destruct request; cbn [addressed handler]; try exact I;
    unfold firstOwner; (destruct id as [z|]; [|split; reflexivity]);
    unfold putPlatform, deletePlatformRoute, getReview, putTemplate,
      deleteTemplateRoute, getPlatform, getReviewById, getReplyTemplate;
    (destruct (head _) as [p|] eqn:Hhead; [intros Hne|]);
    by_id_route Hex Hhead.
  all: try (split; reflexivity).
  all: wp_step; [contradiction | split; reflexivity].
Qed.

Lemma by_id_routes_check_ownership_witness :
  let rs := handler "u1" (PutPlatform (Some 2%Z) None) quiet (serverOver mixedWorld) in
  codeOf (fst rs) = Some 403 /\ tables (snd rs) = tables (serverOver mixedWorld).
Proof.
  cbn zeta.
  apply (by_id_routes_check_ownership quiet (serverOver mixedWorld) "u1"
           (PutPlatform (Some 2%Z) None)).
  - intros X c. reflexivity.
  - discriminate.
Defined.

(** ** Listings *)

Lemma notOlder_total a b : notOlder a b = false -> notOlder b a = true.
Proof.
  destruct a as [x|], b as [y|]; cbn; try discriminate; try reflexivity.
  intros H. apply N.leb_gt in H. apply N.leb_le. lia.
Qed.

Lemma notOlder_trans a b c :
  notOlder a b = true -> notOlder b c = true -> notOlder a c = true.
Proof.
  destruct a as [x|], b as [y|], c as [z|]; cbn; try discriminate; try reflexivity.
  intros H1 H2. apply N.leb_le in H1, H2. apply N.leb_le. lia.
Qed.

Lemma insertByDate_Permutation r l : insertByDate r l ≡ₚ r :: l.
Proof.
  induction l as [|x l IH]; cbn; [reflexivity|].
  destruct (notOlder _ _); [reflexivity|].
  rewrite IH. apply Permutation_swap.
Qed.

Lemma newestFirst_Permutation l : newestFirst l ≡ₚ l.
Proof.
  induction l as [|x l IH]; cbn; [reflexivity|].
  rewrite insertByDate_Permutation. f_equiv. exact IH.
Qed.

Lemma insertByDate_sorted r l :
  Sorted.StronglySorted newestFirstOrder l -> Sorted.StronglySorted newestFirstOrder (insertByDate r l).
Proof.
  induction 1 as [|x l Hl IH Hx]; cbn.
  - constructor; constructor.
  - destruct (notOlder (Review.createdAt r) (Review.createdAt x)) eqn:E.
    + constructor; [constructor; assumption|].
      constructor; [exact E|].
      eapply Forall_impl; [exact Hx|]. intros y Hy.
      eapply notOlder_trans; [exact E | exact Hy].
    + constructor; [exact IH|].
      rewrite insertByDate_Permutation. constructor; [|exact Hx].
      apply notOlder_total, E.
Qed.

Lemma newestFirst_sorted l : Sorted.StronglySorted newestFirstOrder (newestFirst l).
Proof.
  induction l as [|x l IH]; cbn; [constructor|]. apply insertByDate_sorted, IH.
Qed.

(** X11: the reading routes disclose rows of the requester only, and
    write nothing.  A 200 answer of GET /api/reviews carries exactly the
    review rows of the account, the newest first; one of GET
    /api/reviews/:id carries a review of the account, the one with that
    id; GET /api/platforms and GET /api/templates carry exactly the
    platforms and the templates of the account, in table order; GET
    /api/auth/user carries the users row of the subject, or nothing when
    there is none (the answer is still 200).  None of them changes a
    table. *)
Theorem read_routes_disclose_own_rows_only e s u :
  (forall reply, fst (getReviews u e s) = Returned reply -> code reply = 200 ->
     exists rows,
       body reply = ReviewsJson rows /\
       rows ≡ₚ filter (fun r => Review.userId r = u) (reviews (tables s)) /\
       Sorted.StronglySorted newestFirstOrder rows) /\
  (forall id reply, fst (getReview u id e s) = Returned reply -> code reply = 200 ->
     exists r,
       body reply = ReviewJson (Some r) /\ r ∈ reviews (tables s) /\
       Review.userId r = u /\ id = Some (Z.of_nat (Review.id r))) /\
  (forall reply, fst (getPlatformsRoute u e s) = Returned reply -> code reply = 200 ->
     body reply =
       PlatformsJson (filter (fun p => Platform.userId p = u) (platforms (tables s)))) /\
  (forall reply, fst (getTemplates u e s) = Returned reply -> code reply = 200 ->
     body reply =
       TemplatesJson
         (filter (fun t => ReplyTemplate.userId t = u) (replyTemplates (tables s)))) /\
  (forall reply, fst (getAuthUser u e s) = Returned reply -> code reply = 200 ->
     body reply = UserJson (head (filter (fun x => User.id x = u) (users s)))) /\
  (forall request,
     request ∈ [GetReviews; GetPlatforms; GetTemplates; GetAuthUser] \/
     (exists id, request = GetReview id) ->
     tables (snd (handler u request e s)) = tables s /\
     users (snd (handler u request e s)) = users s).
Proof.
  split_and!.
  - intros reply. wp_start. unfold getReviews, getUserReviews.
    apply wp_catch, wp_andThen, wp_query.
    + cbn. intros [= <-]. discriminate.
    + intros rows s2 _ Hperf. cbn in Hperf. injection Hperf as <- <-.
      intros [= <-] _. eexists. split; [reflexivity|]. split.
      * apply newestFirst_Permutation.
      * apply newestFirst_sorted.
  - intros id reply. wp_start. unfold getReview, getReviewById.
    apply wp_catch. destruct id as [z|]; [|intros [= <-]; discriminate].
    apply wp_andThen, wp_andThen, wp_query.
    + cbn. intros [= <-]. discriminate.
    + intros rows s2 _ Hperf. cbn in Hperf. injection Hperf as <- <-.
      apply wp_ret. destruct (head _) as [r|] eqn:Hhead;
        [|intros [= <-]; discriminate].
      wp_step; [|intros [= <-]; discriminate].
      intros [= <-] _. exists r.
      assert (Hr : r ∈ filter (fun r => Z.of_nat (Review.id r) = z) (reviews (db (core s)))).
      { destruct (filter _ _); [discriminate|]. injection Hhead as ->. left. }
      apply list_elem_of_filter in Hr as [Hid Hr].
      split_and!; [reflexivity | exact Hr | assumption | congruence].
  - intros reply. wp_start. unfold getPlatformsRoute, getPlatforms.
    apply wp_catch, wp_andThen, wp_call.
    + intros rows w. rewrite run_await.
      destruct (exec_cases (oracle e) (SelectPlatforms u) (core s)) as [-> | ->];
        [discriminate|].
      intros [= <- <-] [= <-] _. reflexivity.
    + intros err w _. cbn. intros [= <-]. discriminate.
  - intros reply. wp_start. unfold getTemplates, getReplyTemplates.
    apply wp_catch, wp_andThen, wp_query.
    + cbn. intros [= <-]. discriminate.
    + intros rows s2 _ Hperf. cbn in Hperf. injection Hperf as <- <-.
      intros [= <-] _. reflexivity.
  - intros reply. wp_start. unfold getAuthUser, getUser.
    apply wp_catch, wp_andThen, wp_andThen, wp_query.
    + cbn. intros [= <-]. discriminate.
    + intros rows s2 _ Hperf. cbn in Hperf. injection Hperf as <- <-.
      intros [= <-] _. reflexivity.
  - intros request Hreq.
    assert (Hsel : forall X (c : Stmt X) (k : X -> Async Reply) label message,
               readOnly c ->
               (forall x s', tables s' = tables s -> users s' = users s ->
                  wp (k x) e (fun o s'' => match o with
                        | Returned _ => tables s'' = tables s /\ users s'' = users s
                        | Raised f => wp (failed label message f) e
                                        (fun _ s3 => tables s3 = tables s /\ users s3 = users s) s''
                        end) s') ->
               wp (catch (andThen (query c) k) (failed label message)) e
                 (fun _ s' => tables s' = tables s /\ users s' = users s) s).
    { intros X c k label message Hro Hk. apply wp_catch, wp_andThen, wp_query.
      - split; reflexivity.
      - intros x s2 _ Hperf.
        destruct (performStmt_readOnly c (completion (oracle e) (steps (core s)))
                    (clock (core (setCore (tick (oracle e) (core s)) s)))
                    (setCore (tick (oracle e) (core s)) s) Hro) as [x' Hx'].
        rewrite Hx' in Hperf. injection Hperf as -> <-. apply Hk; reflexivity. }
    destruct Hreq as [Hreq | [id ->]].
    + repeat (apply elem_of_cons in Hreq as [-> | Hreq]); [| | | |inversion Hreq];
        cbn [handler].
      * wp_start. unfold getReviews, getUserReviews. apply Hsel; [exact I|].
        intros x s' H1 H2. split; assumption.
      * wp_start. unfold getPlatformsRoute, getPlatforms.
        apply wp_catch, wp_andThen, wp_call.
        -- intros rows w. rewrite run_await.
           destruct (exec_cases (oracle e) (SelectPlatforms u) (core s)) as [-> | ->];
             [discriminate|].
           intros [= <- <-]. split; reflexivity.
        -- intros err w. rewrite run_await.
           destruct (exec_cases (oracle e) (SelectPlatforms u) (core s)) as [-> | ->];
             [|discriminate].
           intros [= <- <-]. split; reflexivity.
      * wp_start. unfold getTemplates, getReplyTemplates. apply Hsel; [exact I|].
        intros x s' H1 H2. split; assumption.
      * wp_start. unfold getAuthUser, getUser.
        apply wp_catch, wp_andThen, wp_andThen, wp_query.
        -- split; reflexivity.
        -- intros rows s2 _ Hperf. cbn in Hperf. injection Hperf as <- <-.
           split; reflexivity.
    + cbn [handler]. wp_start. unfold getReview, getReviewById.
      apply wp_catch. destruct id as [z|]; [|split; reflexivity].
      apply wp_andThen, wp_andThen, wp_query.
      * split; reflexivity.
      * intros rows s2 _ Hperf. cbn in Hperf. injection Hperf as <- <-.
        apply wp_ret. destruct (head _) as [r|]; [|split; reflexivity].
        wp_step; split; reflexivity.
Qed.

Lemma read_routes_disclose_own_rows_only_witness :
  exists reply,
    fst (getPlatformsRoute "u1" quiet (serverOver mixedWorld)) = Returned reply /\
    body reply = PlatformsJson [samplePlatform].
Proof.
  eexists. split; [reflexivity|].
  destruct (read_routes_disclose_own_rows_only quiet (serverOver mixedWorld) "u1")
    as (_ & _ & H & _).
  apply H; reflexivity.
Defined.

(** ** Answering a review by hand *)

Lemma elem_of_updateWhere {A} (P : A -> Prop) `{!forall x, Decision (P x)}
    (f : A -> A) (l : list A) y :
  y ∈ updateWhere P f l <-> exists x, x ∈ l /\ y = if decide (P x) then f x else x.
Proof.
  unfold updateWhere. rewrite list_elem_of_fmap. split.
  - intros (x & -> & Hx). exists x. split; [exact Hx | reflexivity].
  - intros (x & Hx & ->). exists x. split; [reflexivity | exact Hx].
Qed.

(** X12: [updateReviewResponse], its statement executing.  When no
    review has the id it raises "Review with ID <id> not found" and the
    table is as it was.  Otherwise it returns the first row with the id
    as updated; in the table every row with that id carries the given
    text, the time of the call and the automatic mark (false when the
    argument is left out), every other row is as it was, and the rows
    keep their ids, owners and places.  After it, no listing of pending
    reviews shows a review with that id. *)
Theorem updateReviewResponse_updates_or_raises e s id text flag :
  let now := clock (core s) in
  let auto := default false flag in
  refuses e (steps (core s)) (UpdateReviewResponseRows id text now auto) = false ->
  let rs := updateReviewResponse id text flag e s in
  match head (filter (fun r => Z.of_nat (Review.id r) = id) (reviews (tables s))) with
  | None =>
      fst rs = Raised (Js (reviewNotFound id)) /\
      reviews (tables (snd rs)) = reviews (tables s)
  | Some r =>
      fst rs = Returned (respondedReview text now auto r) /\
      reviews (tables (snd rs)) =
        updateWhere (fun r => Z.of_nat (Review.id r) = id)
          (respondedReview text now auto) (reviews (tables s))
  end /\
  (forall r', r' ∈ reviews (tables (snd rs)) ->
     if decide (Z.of_nat (Review.id r') = id)
     then Review.responseText r' = Some text /\ Review.respondedAt r' = Some now /\
          Review.autoResponded r' = Some auto
     else r' ∈ reviews (tables s)) /\
  Review.id <$> reviews (tables (snd rs)) = Review.id <$> reviews (tables s) /\
  Review.userId <$> reviews (tables (snd rs)) = Review.userId <$> reviews (tables s) /\
  (forall e' u rows,
     fst (getPendingReviews u e' (snd rs)) = Returned rows ->
     forall r', r' ∈ rows -> Z.of_nat (Review.id r') <> id).
Proof.
  cbn zeta. intros Hex.
  set (f := respondedReview text (clock (core s)) (default false flag)).
  set (sel := fun r : Review.t => Z.of_nat (Review.id r) = id).
  assert (Hrun : updateReviewResponse id text flag e s =
            (match head (filter sel (reviews (tables s))) with
             | None => Raised (Js (reviewNotFound id))
             | Some r => Returned (f r)
             end,
             setTables (setReviews (updateWhere sel f (reviews (tables s)))
                          (reviewsSeq (tables s)) (tables s))
               (setCore (tick (oracle e) (core s)) s))).
  { unfold updateReviewResponse, andThen, today, query. cbn zeta. cbn [fst snd].
    rewrite Hex. cbn [performStmt fst snd].
    destruct (head (filter sel (reviews (tables s)))) as [r|] eqn:Hhead.
    - unfold tables in *. cbn [setCore core tick db]. 
      destruct (filter _ (reviews (db (core s)))) as [|r0 l]; [discriminate|].
      cbn in Hhead. injection Hhead as ->. reflexivity.
    - unfold tables in *. cbn [setCore core tick db].
      destruct (filter _ (reviews (db (core s)))) as [|r0 l]; [|discriminate].
      reflexivity. }
  rewrite Hrun. cbn [fst snd].
  assert (Hrows : reviews (tables (setTables
             (setReviews (updateWhere sel f (reviews (tables s)))
                (reviewsSeq (tables s)) (tables s))
             (setCore (tick (oracle e) (core s)) s)))
           = updateWhere sel f (reviews (tables s))) by reflexivity.
  rewrite Hrows.
  assert (Hsame : forall r, ~ sel r -> (if decide (sel r) then f r else r) = r).
  { intros r Hr. rewrite decide_False by exact Hr. reflexivity. }
  split_and!.
  - destruct (head _) as [r|] eqn:Hhead; split; try reflexivity.
    unfold updateWhere. rewrite <- (list_fmap_id (reviews (tables s))) at 2.
    apply list_fmap_ext. intros i r Hr. cbn. apply Hsame.
    eapply (head_filter_none _ _ Hhead), list_elem_of_lookup_2, Hr.
  - intros r' Hr'. apply elem_of_updateWhere in Hr' as (r & Hr & ->).
    destruct (decide (sel r)) as [Hs|Hs].
    + rewrite decide_True by exact Hs. split_and!; reflexivity.
    + rewrite decide_False by exact Hs. exact Hr.
  - unfold updateWhere. rewrite <- list_fmap_compose. apply list_fmap_ext.
    intros i r _. cbn. destruct (decide _); reflexivity.
  - unfold updateWhere. rewrite <- list_fmap_compose. apply list_fmap_ext.
    intros i r _. cbn. destruct (decide _); reflexivity.
  - intros e' u rows. unfold getPendingReviews, query. cbn zeta.
    destruct (refuses e' _ _); [discriminate|]. cbn [performStmt fst snd].
    intros [= <-] r' Hr' Hid.
    rewrite newestFirst_Permutation in Hr'.
    apply list_elem_of_filter in Hr' as [[_ Hnone] Hr'].
    unfold tables in Hr'. cbn in Hr'.
    apply elem_of_updateWhere in Hr' as (r & Hr & ->).
    destruct (decide (sel r)) as [Hs|Hs].
    + discriminate.
    + apply Hs. exact Hid.
Qed.

Lemma updateReviewResponse_updates_or_raises_witness :
  fst (updateReviewResponse 7 "Thanks" None quiet inbox)
    = Raised (Js (Error "Review with ID 7 not found")) /\
  fst (updateReviewResponse 5 "Thanks" None quiet inbox)
    = Returned (respondedReview "Thanks" 1000 false pendingReview) /\
  fst (getPendingReviews "u1" quiet inbox) = Returned [pendingReview] /\
  fst (getPendingReviews "u1" quiet
         (snd (updateReviewResponse 5 "Thanks" None quiet inbox))) = Returned [].
Proof.
  destruct (updateReviewResponse_updates_or_raises quiet inbox 7 "Thanks" None eq_refl)
    as [[H7 _] _].
  destruct (updateReviewResponse_updates_or_raises quiet inbox 5 "Thanks" None eq_refl)
    as [[H5 _] _].
  split_and!; [exact H7 | exact H5 | reflexivity | reflexivity].
Defined.

(** ** The settings routes *)

Lemma zEnum_valid values v s : zEnum values v = Valid s -> s ∈ values /\ v = Some (JString s).
Proof.
  unfold zEnum. destruct v as [[]|]; try discriminate.
  destruct (includes values s0) eqn:E; [|discriminate].
  intros [= <-]. split; [apply includes_elem_of, E | reflexivity].
Qed.

Lemma userSettingsFormSchema_valid body data :
  userSettingsFormSchema body = inr data ->
  formDefaultTone data ∈ validTones /\ formLanguage data ∈ languages /\
  formDefaultTone data <> "" /\ formLanguage data <> "".
Proof.
  unfold userSettingsFormSchema. destruct body as [[]|]; try discriminate.
  destruct (zEnum tones _) as [a|] eqn:Ea; [|discriminate].
  destruct (zEnum languages _) as [b|] eqn:Eb;
    [|destruct (zBoolean _); discriminate].
  destruct (zBoolean _) as [c|]; [|discriminate].
  intros [= <-]. cbn.
  apply zEnum_valid in Ea as [Ha _], Eb as [Hb _].
  split_and!; [exact Ha | exact Hb | |].
  - intros E. rewrite E in Ha. apply includes_elem_of in Ha. discriminate.
  - intros E. rewrite E in Hb. apply includes_elem_of in Hb. discriminate.
Qed.

Lemma updateUserSettings_run_all o u v w :
  (forall X (c : Call X) n, rejects o n c = false) ->
  PartialUserSettings.userId v = None ->
  let w1 := tick o w in
  let rows := filter (fun s => UserSettings.userId s = u) (userSettings (db w)) in
  run o (updateUserSettings u v) w =
  match rows with
  | r :: _ =>
      (Ok (Some (updatedUserSettings v (clock w) r)),
       setDb (setUserSettings
                (updateWhere (fun s => UserSettings.userId s = u)
                   (updatedUserSettings v (clock w)) (userSettings (db w)))
                (userSettingsSeq (db w)) (db w)) w1)
  | [] =>
      let v' := {|
        InsertUserSettings.userId := u;
        InsertUserSettings.defaultTone :=
          Some (orString (PartialUserSettings.defaultTone v) "Professional");
        InsertUserSettings.language :=
          Some (orString (PartialUserSettings.language v) "English");
        InsertUserSettings.autoReplyEnabled :=
          Some (default false (PartialUserSettings.autoReplyEnabled v));
        InsertUserSettings.lastCheckTime :=
          Some (Some match PartialUserSettings.lastCheckTime v with
                     | Some (Some d) => d
                     | _ => clock w1
                     end) |} in
      let w2 := tick o w1 in
      let row := insertedUserSettings v' (clock w1) (clock w2) (S (userSettingsSeq (db w))) in
      (Ok (Some row),
       setDb (setUserSettings (userSettings (db w) ++ [row])
                (S (userSettingsSeq (db w))) (db w)) w2)
  end.
Proof.
  intros Hex Hv. cbn zeta. unfold updateUserSettings. run_simpl.
  rewrite exec_performed by apply Hex. cbn [perform fst snd].
  destruct (filter _ (userSettings (db w))) as [|r rows] eqn:Hrows.
  - cbn [fmap list_fmap head]. set (w1 := setDb _ _). run_simpl.
    assert (Hlct : run o (match PartialUserSettings.lastCheckTime v with
                          | Some (Some d) => Ret d
                          | _ => newDate
                          end) w1
                   = (Ok match PartialUserSettings.lastCheckTime v with
                         | Some (Some d) => d
                         | _ => clock w1
                         end, w1)).
    { destruct (PartialUserSettings.lastCheckTime v) as [[d|]|]; reflexivity. }
    rewrite Hlct. unfold createUserSettings. run_simpl.
    rewrite exec_performed by apply Hex. cbn [perform fst snd head].
    subst w1. cbn.
    assert (Hnone : forall s, s ∈ userSettings (db w) -> UserSettings.userId s <> u).
    { intros s Hs Hu. eapply (filter_nil_not_elem_of _ _ s Hrows); eauto. }
    assert (Hid : (fun s => if decide (UserSettings.userId s = u)
                            then updatedUserSettings v (clock w) s else s)
                    <$> userSettings (db w) = userSettings (db w)).
    { rewrite <- (list_fmap_id (userSettings (db w))) at 2.
      apply list_fmap_ext. intros i s Hs. cbn.
      rewrite decide_False; [reflexivity|].
      eapply Hnone, list_elem_of_lookup_2, Hs. }
    rewrite Hid.
    destruct (PartialUserSettings.autoReplyEnabled v); reflexivity.
  - cbn [fmap list_fmap head]. run_simpl. reflexivity.
Qed.

(** X13: PUT /api/settings.  A body that the schema refuses is answered
    400 with the issues, and no table changes.  A body that it accepts
    names a tone that is one of the four of the generator's fallback
    table and a language that is one of the five offered; and then (no
    call failing) the answer is 200 with a settings row of the account,
    after which every settings row of the account holds exactly the
    tone, the language and the auto-reply flag of the body.  An account
    that had a row keeps its watermark; an account that had none gets
    one row, appended. *)
Theorem put_settings_stores_validated_preferences e s u body :
  let rs := putSettings u body e s in
  match userSettingsFormSchema body with
  | inl issues =>
      fst rs = Returned {| code := 400; body := ValidationFailed issues |} /\
      tables (snd rs) = tables s
  | inr data =>
      formDefaultTone data ∈ validTones /\ formLanguage data ∈ languages /\
      ((forall X (c : Call X) n, rejects (oracle e) n c = false) ->
       exists row,
         fst rs = Returned {| code := 200; body := SettingsJson (Some row) |} /\
         row ∈ settingsOf u (core (snd rs)) /\
         (forall r, r ∈ settingsOf u (core (snd rs)) ->
            UserSettings.defaultTone r = formDefaultTone data /\
            UserSettings.language r = formLanguage data /\
            UserSettings.autoReplyEnabled r = formAutoReplyEnabled data) /\
         (hasSettings u (core s) ->
            UserSettings.lastCheckTime <$> userSettings (tables (snd rs))
              = UserSettings.lastCheckTime <$> userSettings (tables s)) /\
         (settingsAbsent u (core s) ->
            userSettings (tables (snd rs)) = userSettings (tables s) ++ [row]))
  end.
Proof.
  cbn zeta. destruct (userSettingsFormSchema body) as [issues|data] eqn:Hschema.
  - wp_start. unfold putSettings. apply wp_catch, wp_andThen, wp_parse.
    + intros data Hd. congruence.
    + intros issues' Hi. assert (issues' = issues) by congruence. subst issues'.
      split; reflexivity.
  - destruct (userSettingsFormSchema_valid body data Hschema) as (Ht & Hl & Htne & Hlne).
    split; [exact Ht|]. split; [exact Hl|]. intros Hex.
    wp_start. unfold putSettings. apply wp_catch, wp_andThen, wp_parse;
      [|intros issues Hi; congruence].
    intros data' Hd. assert (data' = data) by congruence. subst data'.
    apply wp_andThen, wp_call; intros a w; rewrite updateUserSettings_run_all
      by (try apply Hex; reflexivity); cbn zeta;
      (destruct (filter (fun s0 => UserSettings.userId s0 = u) (userSettings (db (core s))))
         as [|r0 rows] eqn:Hrows; [|]); try discriminate.
    + (* no row: one is created *)
      intros [= <- <-]. apply wp_respond. cbn beta iota. eexists. split; [reflexivity|].
      assert (Hnone : forall x, x ∈ userSettings (db (core s)) -> UserSettings.userId x <> u).
      { intros x Hx Hu. eapply (filter_nil_not_elem_of _ _ x Hrows); eauto. }
      unfold settingsOf, tables. cbn [snd core setCore db setDb userSettings setUserSettings].
      rewrite filter_app, (filter_none _ (userSettings (db (core s)))) by exact Hnone.
      rewrite filter_cons_True by reflexivity. cbn [app filter].
      split_and!.
      * left.
      * intros r Hr. apply list_elem_of_singleton in Hr. subst r. cbn.
        destruct (formDefaultTone data); [contradiction Htne; reflexivity|].
        destruct (formLanguage data); [contradiction Hlne; reflexivity|].
        split_and!; reflexivity.
      * intros (x & Hx & Hu). exfalso. exact (Hnone x Hx Hu).
      * intros _. reflexivity.
    + (* rows: they are updated *)
      intros [= <- <-]. apply wp_respond. cbn beta iota. eexists. split; [reflexivity|].
      unfold settingsOf, tables. cbn [snd core setCore db setDb userSettings setUserSettings].
      assert (Hin : forall r, r ∈ filter (fun s0 => UserSettings.userId s0 = u)
                        (updateWhere (fun s0 => UserSettings.userId s0 = u)
                           (updatedUserSettings
                              {| PartialUserSettings.userId := None;
                                 PartialUserSettings.defaultTone := Some (formDefaultTone data);
                                 PartialUserSettings.language := Some (formLanguage data);
                                 PartialUserSettings.autoReplyEnabled :=
                                   Some (formAutoReplyEnabled data);
                                 PartialUserSettings.lastCheckTime := None |}
                              (clock (core s)))
                           (userSettings (db (core s)))) ->
                 exists x, x ∈ userSettings (db (core s)) /\ UserSettings.userId x = u /\
                   r = updatedUserSettings
                         {| PartialUserSettings.userId := None;
                            PartialUserSettings.defaultTone := Some (formDefaultTone data);
                            PartialUserSettings.language := Some (formLanguage data);
                            PartialUserSettings.autoReplyEnabled :=
                              Some (formAutoReplyEnabled data);
                            PartialUserSettings.lastCheckTime := None |}
                         (clock (core s)) x).
      { intros r Hr. apply list_elem_of_filter in Hr as [Hu Hr].
        apply elem_of_updateWhere in Hr as (x & Hx & ->).
        destruct (decide (UserSettings.userId x = u)) as [Hxu|Hxu].
        - exists x. split_and!; auto.
        - contradiction. }
      split_and!.
      * apply list_elem_of_filter. split; [|].
        -- cbn. assert (Hr0 : r0 ∈ filter (fun s0 => UserSettings.userId s0 = u)
                                 (userSettings (db (core s)))) by (rewrite Hrows; left).
           apply list_elem_of_filter in Hr0 as [Hu _]. exact Hu.
        -- apply elem_of_updateWhere. exists r0.
           assert (Hr0 : r0 ∈ filter (fun s0 => UserSettings.userId s0 = u)
                                 (userSettings (db (core s)))) by (rewrite Hrows; left).
           apply list_elem_of_filter in Hr0 as [Hu Hr0].
           split; [exact Hr0|]. rewrite decide_True by exact Hu. reflexivity.
      * intros r Hr. destruct (Hin r Hr) as (x & _ & _ & ->). split_and!; reflexivity.
      * intros _. unfold updateWhere. rewrite <- list_fmap_compose.
        apply list_fmap_ext. intros i x _. cbn. destruct (decide _); reflexivity.
      * intros Habs. exfalso.
        assert (Hr0 : r0 ∈ filter (fun s0 => UserSettings.userId s0 = u)
                        (userSettings (db (core s)))) by (rewrite Hrows; left).
        apply list_elem_of_filter in Hr0 as [Hu Hr0]. exact (Habs r0 Hr0 Hu).
Qed.

Lemma getSettings_present e s u row :
  rejects (oracle e) (steps (core s)) (SelectUserSettings u) = false ->
  head (settingsOf u (core s)) = Some row ->
  getSettings u e s =
    (Returned {| code := 200; body := SettingsJson (Some row) |},
     setCore (tick (oracle e) (core s)) s).
Proof.
  intros Hex Hhead. unfold getSettings, catch, andThen, call, getUserSettings.
  rewrite run_bind, run_await, exec_performed by exact Hex.
  cbn [perform fst snd]. rewrite run_ret. cbn beta iota.
  unfold settingsOf in Hhead. rewrite Hhead. reflexivity.
Qed.

(** X14: GET /api/settings (no call failing).  For an account with a
    settings row it answers 200 with the first one and changes no table.
    For an account without, it creates one row (tone "Professional",
    language "English", auto-reply off, watermark the time of the
    request) and answers 200 with it; a second request then answers with
    that same row and creates nothing. *)
Theorem get_settings_creates_defaults_once e s u :
  (forall X (c : Call X) n, rejects (oracle e) n c = false) ->
  let rs := getSettings u e s in
  match head (settingsOf u (core s)) with
  | Some row =>
      fst rs = Returned {| code := 200; body := SettingsJson (Some row) |} /\
      tables (snd rs) = tables s
  | None =>
      exists row,
        fst rs = Returned {| code := 200; body := SettingsJson (Some row) |} /\
        userSettings (tables (snd rs)) = userSettings (tables s) ++ [row] /\
        UserSettings.userId row = u /\
        UserSettings.defaultTone row = "Professional" /\
        UserSettings.language row = "English" /\
        UserSettings.autoReplyEnabled row = false /\
        UserSettings.lastCheckTime row
          = Some (clock (core s) + elapsed (oracle e) (steps (core s)))%N /\
        forall e', rejects (oracle e') (steps (core (snd rs))) (SelectUserSettings u) = false ->
          let rs' := getSettings u e' (snd rs) in
          fst rs' = Returned {| code := 200; body := SettingsJson (Some row) |} /\
          tables (snd rs') = tables (snd rs)
  end.
Proof.
  intros Hex. cbn zeta.
  destruct (head (settingsOf u (core s))) as [row|] eqn:Hhead.
  - rewrite (getSettings_present e s u row) by (try apply Hex; exact Hhead).
    split; reflexivity.
  - assert (Hrun : exists row s',
               getSettings u e s =
                 (Returned {| code := 200; body := SettingsJson (Some row) |}, s') /\
               userSettings (tables s') = userSettings (tables s) ++ [row] /\
               UserSettings.userId row = u /\
               UserSettings.defaultTone row = "Professional" /\
               UserSettings.language row = "English" /\
               UserSettings.autoReplyEnabled row = false /\
               UserSettings.lastCheckTime row
                 = Some (clock (core s) + elapsed (oracle e) (steps (core s)))%N).
    { unfold getSettings, catch, andThen, call, getUserSettings, today.
      rewrite run_bind, run_await, exec_performed by apply Hex.
      cbn [perform fst snd]. rewrite run_ret. cbn beta iota.
      unfold settingsOf in Hhead. rewrite Hhead. cbn [core setCore].
      unfold createUserSettings. rewrite run_bind, run_newDate. cbn beta iota.
      rewrite run_bind, run_await, exec_performed by apply Hex.
      cbn [perform fst snd head]. rewrite run_ret. cbn beta iota.
      eexists. eexists. split; [reflexivity|]. split_and!; reflexivity. }
    destruct Hrun as (row & s' & -> & Hrows & Hu & Ht & Hl & Ha & Hc).
    exists row. cbn [fst snd]. split_and!; try assumption; try reflexivity.
    intros e' Hex'. cbn zeta.
    rewrite (getSettings_present e' s' u row); [split; reflexivity | exact Hex' |].
    unfold settingsOf. change (db (core s')) with (tables s'). rewrite Hrows.
    rewrite filter_app.
    unfold settingsOf in Hhead.
    destruct (filter _ (userSettings (db (core s)))) as [|x l] eqn:Hf; [|discriminate].
    unfold tables. rewrite Hf. rewrite filter_cons_True by exact Hu. reflexivity.
Qed.

Lemma put_settings_stores_validated_preferences_witness :
  exists row,
    fst (putSettings "u9" settingsBody quiet (serverOver mixedWorld))
      = Returned {| code := 200; body := SettingsJson (Some row) |} /\
    UserSettings.defaultTone row = "Friendly" /\
    UserSettings.language row = "French" /\
    UserSettings.autoReplyEnabled row = true.
Proof.
  destruct (put_settings_stores_validated_preferences quiet (serverOver mixedWorld)
              "u9" settingsBody) as (_ & _ & H).
  destruct H as (row & Hrun & Hrow & Hall & _); [reflexivity|].
  exists row. split; [exact Hrun|]. apply Hall, Hrow.
Defined.

Lemma get_settings_creates_defaults_once_witness :
  exists row,
    fst (getSettings "u9" quiet (serverOver mixedWorld))
      = Returned {| code := 200; body := SettingsJson (Some row) |} /\
    UserSettings.defaultTone row = "Professional" /\
    UserSettings.lastCheckTime row = Some 1001%N /\
    length (userSettings (tables (snd (getSettings "u9" quiet (serverOver mixedWorld)))))
      = 3.
Proof.
  destruct (get_settings_creates_defaults_once quiet (serverOver mixedWorld) "u9")
    as (row & Hrun & Hrows & _ & Ht & _ & _ & Hc & _); [reflexivity|].
  exists row. split_and!; [exact Hrun | exact Ht | exact Hc |].
  rewrite Hrows, length_app. reflexivity.
Defined.

(** ** The route that simulates a review *)

(** X15: POST /api/simulate-review stores what the simulated source
    offers without asking whether the account has that external review
    already.  With no call failing and the source offering a review, the
    answer is 201 with a new row, appended for the requester: it names
    the account's first platform (none if it has none), carries the
    generated response, the account's default tone ("Professional" when
    it has no settings), the automatic mark and no response time; and
    the account then has one more row with that external id than
    before, so a second row when it had one.  When the source offers
    nothing the answer is 500 and no table changes. *)
Theorem simulate_review_route_does_not_deduplicate e s u :
  (forall X (c : Call X) n, rejects (oracle e) n c = false) ->
  let rs := postSimulateReview u e s in
  match simulated (oracle e) (steps (core s)) with
  | [] =>
      fst rs = Returned {| code := 500; body := Message "Failed to simulate review" |} /\
      tables (snd rs) = tables s
  | review :: _ =>
      exists row,
        fst rs = Returned {| code := 201; body := ReviewJson (Some row) |} /\
        reviews (tables (snd rs)) = reviews (tables s) ++ [row] /\
        Review.userId row = u /\
        Review.externalReviewId row = Some (SimReview.externalReviewId review) /\
        Review.platformId row =
          Platform.id <$> head (filter (fun p => Platform.userId p = u)
                                  (platforms (tables s))) /\
        Review.responseTone row = defaultToneOf (head (settingsOf u (core s))) /\
        is_Some (Review.responseText row) /\
        Review.autoResponded row = Some true /\
        Review.respondedAt row = None /\
        copies u (SimReview.externalReviewId review) (core (snd rs))
          = S (copies u (SimReview.externalReviewId review) (core s))
  end.
Proof.
  intros Hex. cbn zeta.
  unfold postSimulateReview, catch, andThen, call.
  rewrite run_simulate.
  destruct (simulated (oracle e) (steps (core s))) as [|review rest];
    [split; reflexivity|].
  cbn [core setCore]. unfold getUserSettings.
  rewrite run_bind, run_await, exec_performed by apply Hex.
  cbn [perform fst snd]. rewrite run_ret. cbn beta iota. cbn [core setCore].
  match goal with
  | |- context [run (oracle e) (generateResponse ?a ?b ?c ?d) ?w] =>
      destruct (generateResponse_run (oracle e) a b c d w) as (text & Hgen & _);
      rewrite Hgen
  end.
  rewrite Hex. cbn beta iota. cbn [core setCore].
  unfold getPlatforms. rewrite run_await, exec_performed by apply Hex.
  cbn [perform fst snd]. cbn beta iota. cbn [core setCore].
  unfold createReview. rewrite run_bind, run_await, exec_performed by apply Hex.
  cbn [perform fst snd head]. rewrite run_ret. cbn beta iota.
  eexists. split; [reflexivity|]. cbn [fst snd].
  unfold tables, copies, settingsOf. cbn.
  split_and!; try reflexivity.
  - eexists. reflexivity.
  - rewrite filter_app, length_app. rewrite filter_cons_True by (split; reflexivity).
    cbn. lia.
Qed.

Lemma simulate_review_route_does_not_deduplicate_witness :
  let once := snd (postSimulateReview "u1" quiet (serverOver sampleWorld)) in
  let twice := snd (postSimulateReview "u1" quiet once) in
  copies "u1" "sim-1700000000000-42" (core once) = 1 /\
  copies "u1" "sim-1700000000000-42" (core twice) = 2.
Proof.
  cbn zeta.
  assert (Hex : forall X (c : Call X) n, rejects (oracle quiet) n c = false)
    by reflexivity.
  destruct (simulate_review_route_does_not_deduplicate quiet (serverOver sampleWorld)
              "u1" Hex) as (r1 & _ & _ & _ & _ & _ & _ & _ & _ & _ & H1).
  destruct (simulate_review_route_does_not_deduplicate quiet
              (snd (postSimulateReview "u1" quiet (serverOver sampleWorld)))
              "u1" Hex) as (r2 & _ & _ & _ & _ & _ & _ & _ & _ & _ & H2).
  split; [exact H1|]. exact (eq_trans H2 (f_equal S H1)).
Defined.

(** ** Creating platforms and templates *)

Lemma zString_valid min max v s :
  zString min max v = Valid s ->
  v = Some (JString s) /\ min <= utf16Length s /\
  match max with Some m => utf16Length s <= m | None => True end.
Proof.
  unfold zString. destruct v as [[]|]; try discriminate.
  destruct (Nat.ltb_spec (utf16Length s0) min); [discriminate|].
  destruct max as [m|].
  - destruct (Nat.ltb_spec m (utf16Length s0)); [discriminate|].
    intros [= <-]. split_and!; [reflexivity | lia | lia].
  - intros [= <-]. split_and!; [reflexivity | lia | exact I].
Qed.

Lemma utf16Length_nonempty s : 1 <= utf16Length s -> 1 <= String.length s.
Proof. destruct s; cbn; lia. Qed.

Lemma zNumber_valid min max v q :
  zNumber min max v = Valid q ->
  v = Some (JNumber q) /\ atMost min q = true /\ atMost q max = true.
Proof.
  unfold zNumber. destruct v as [[]|]; try discriminate.
  destruct (atMost min q0) eqn:E1; [|discriminate].
  destruct (atMost q0 max) eqn:E2; [|discriminate].
  intros [= <-]. split_and!; [reflexivity | exact E1 | exact E2].
Qed.

Lemma replyTemplateFormSchema_valid body data :
  replyTemplateFormSchema body = inr data ->
  1 <= utf16Length (formName data) <= 100 /\
  1 <= utf16Length (formContent data) /\
  formTone data ∈ validTones /\
  match formTemplateRating data with
  | Some q => atMost (integer 1) q = true /\ atMost q (integer 5) = true
  | None => True
  end.
Proof.
  unfold replyTemplateFormSchema. destruct body as [[]|]; try discriminate.
  destruct (zString 1 (Some 100) _) as [a|] eqn:Ea; [|discriminate].
  destruct (zString 1 None _) as [b|] eqn:Eb; [|discriminate].
  destruct (zEnum tones _) as [c|] eqn:Ec;
    [|destruct (zOptional _ _); discriminate].
  destruct (zOptional _ _) as [d|] eqn:Ed; [|discriminate].
  intros [= <-]. cbn.
  apply zString_valid in Ea as (_ & Ha1 & Ha2), Eb as (_ & Hb & _).
  apply zEnum_valid in Ec as [Hc _].
  split_and!; try assumption.
  unfold zOptional in Ed. destruct (property "starRating" properties) as [j|].
  - destruct (zNumber _ _ _) as [q|] eqn:Eq; [|discriminate].
    injection Ed as <-. apply zNumber_valid in Eq as (_ & H1 & H2). split; assumption.
  - injection Ed as <-. exact I.
Qed.

(** X16: POST /api/templates.  A body that the schema refuses is
    answered 400 with the issues and nothing is stored.  A body that it
    accepts has a name whose [length] (in UTF-16 code units, as zod
    counts) is 1 to 100, a content that is not empty and one of the
    four tones; its rating, if any, is a number
    between 1 and 5, which the schema does not ask to be whole.  A rating
    that is not whole cannot go into the integer column: the answer is
    then 500 and nothing is stored.  Otherwise (the insert executing)
    the answer is 201 with the new row, appended for the requester under
    the next id. *)
Theorem post_template_rating_must_be_whole e s u body :
  let rs := postTemplate u body e s in
  match replyTemplateFormSchema body with
  | inl issues =>
      fst rs = Returned {| code := 400; body := ValidationFailed issues |} /\
      tables (snd rs) = tables s
  | inr data =>
      1 <= utf16Length (formName data) <= 100 /\
      1 <= utf16Length (formContent data) /\
      formTone data ∈ validTones /\
      match wholeOrNull (formTemplateRating data) with
      | None =>
          fst rs = Returned {| code := 500; body := Message "Failed to create template" |} /\
          tables (snd rs) = tables s
      | Some rating =>
          (forall v t, refuses e (steps (core s)) (InsertReplyTemplateRow v t) = false) ->
          exists row,
            fst rs = Returned {| code := 201; body := TemplateJson (Some row) |} /\
            replyTemplates (tables (snd rs)) = replyTemplates (tables s) ++ [row] /\
            ReplyTemplate.userId row = u /\
            ReplyTemplate.id row = S (replyTemplatesSeq s) /\
            ReplyTemplate.name row = formName data /\
            ReplyTemplate.content row = formContent data /\
            ReplyTemplate.tone row = formTone data /\
            ReplyTemplate.starRating row = rating
      end
  end.
Proof.
  cbn zeta. unfold postTemplate, catch, andThen, parse.
  destruct (replyTemplateFormSchema body) as [issues|data] eqn:Hschema.
  - split; reflexivity.
  - destruct (replyTemplateFormSchema_valid body data Hschema) as (Hn & Hc & Ht & _).
    split; [exact Hn|]. split; [exact Hc|]. split; [exact Ht|].
    unfold ret, createReplyTemplate, andThen, today, query. cbn zeta.
    cbn [performStmt InsertReplyTemplate.starRating].
    destruct (wholeOrNull (formTemplateRating data)) as [rating|].
    + intros Hex. rewrite Hex. cbn. eexists. split; [reflexivity|].
      split_and!; reflexivity.
    + destruct (refuses e _ _); split; reflexivity.
Qed.

Lemma platformFormSchema_valid body data :
  platformFormSchema body = inr data ->
  1 <= String.length (formPlatformName data) /\
  1 <= String.length (formPlatformId data).
Proof.
  unfold platformFormSchema. destruct body as [[]|]; try discriminate.
  destruct (zString 1 None (property "platformName" _)) as [a|] eqn:Ea; [|discriminate].
  destruct (zString 1 None (property "platformId" _)) as [b|] eqn:Eb; [|discriminate].
  destruct (zOptional _ (property "accessToken" _)) as [c|] eqn:Ec;
    [|destruct (zOptional _ _); discriminate].
  destruct (zOptional _ (property "refreshToken" _)) as [d|] eqn:Ed; [|discriminate].
  intros [= <-]. cbn.
  apply zString_valid in Ea as (_ & Ha & _), Eb as (_ & Hb & _).
  split; apply utf16Length_nonempty; assumption.
Qed.

(** X17: POST /api/platforms.  A body that the schema refuses is
    answered 400 with the issues and nothing is stored.  A body that it
    accepts has a platform name and a platform id that are not empty,
    and then (the insert executing) the answer is 201 with the new row,
    appended under the next id: its owner is the requester, whatever
    else the body names; its name, platform id and tokens are those of
    the body, a token left out being none; it has no expiry and no
    metadata.  The account then has a platform. *)
Theorem post_platform_creates_for_requester e s u body :
  let rs := postPlatform u body e s in
  match platformFormSchema body with
  | inl issues =>
      fst rs = Returned {| code := 400; body := ValidationFailed issues |} /\
      tables (snd rs) = tables s
  | inr data =>
      1 <= String.length (formPlatformName data) /\
      1 <= String.length (formPlatformId data) /\
      ((forall v t, refuses e (steps (core s)) (InsertPlatformRow v t) = false) ->
       exists row,
         fst rs = Returned {| code := 201; body := PlatformJson (Some row) |} /\
         platforms (tables (snd rs)) = platforms (tables s) ++ [row] /\
         Platform.userId row = u /\
         Platform.id row = S (platformsSeq s) /\
         Platform.platformName row = formPlatformName data /\
         Platform.platformId row = formPlatformId data /\
         Platform.accessToken row = formAccessToken data /\
         Platform.refreshToken row = formRefreshToken data /\
         Platform.tokenExpiry row = None /\ Platform.metadata row = None /\
         hasPlatform u (core (snd rs)))
  end.
Proof.
  cbn zeta. unfold postPlatform, catch, andThen, parse.
  destruct (platformFormSchema body) as [issues|data] eqn:Hschema.
  - split; reflexivity.
  - destruct (platformFormSchema_valid body data Hschema) as (Hn & Hi).
    split; [exact Hn|]. split; [exact Hi|].
    unfold ret, createPlatform, andThen, today, query. cbn zeta.
    intros Hex. rewrite Hex. cbn. eexists. split; [reflexivity|].
    split_and!; try reflexivity.
    eexists. split; [apply elem_of_app; right; left | reflexivity].
Qed.

Lemma post_template_rating_must_be_whole_witness :
  fst (postTemplate "u1" (templateBody threeAndAHalf) quiet (serverOver mixedWorld))
    = Returned {| code := 500; body := Message "Failed to create template" |} /\
  (exists row,
     fst (postTemplate "u1" (templateBody (integer 4)) quiet (serverOver mixedWorld))
       = Returned {| code := 201; body := TemplateJson (Some row) |} /\
     ReplyTemplate.starRating row = Some 4%Z) /\
  String.length accentedName = 120 /\
  exists row,
    fst (postTemplate "u1" (templateNamed accentedName) quiet (serverOver mixedWorld))
      = Returned {| code := 201; body := TemplateJson (Some row) |} /\
    ReplyTemplate.name row = accentedName.
Proof.
  destruct (post_template_rating_must_be_whole quiet (serverOver mixedWorld) "u1"
              (templateBody threeAndAHalf)) as (_ & _ & _ & H1 & _).
  destruct (post_template_rating_must_be_whole quiet (serverOver mixedWorld) "u1"
              (templateBody (integer 4))) as (_ & _ & _ & H2).
  destruct (post_template_rating_must_be_whole quiet (serverOver mixedWorld) "u1"
              (templateNamed accentedName)) as (_ & _ & _ & H3).
  destruct H2 as (row & Hrun & _ & _ & _ & _ & _ & _ & Hr); [reflexivity|].
  destruct H3 as (row' & Hrun' & _ & _ & _ & Hn & _); [reflexivity|].
  split; [exact H1|]. split; [exists row; split; [exact Hrun | exact Hr]|].
  split; [reflexivity|]. exists row'. split; [exact Hrun' | exact Hn].
Defined.

Lemma post_platform_creates_for_requester_witness :
  exists row,
    fst (postPlatform "u1" platformBody quiet (serverOver mixedWorld))
      = Returned {| code := 201; body := PlatformJson (Some row) |} /\
    Platform.userId row = "u1" /\ Platform.id row = 3 /\
    Platform.accessToken row = None.
Proof.
  destruct (post_platform_creates_for_requester quiet (serverOver mixedWorld) "u1"
              platformBody) as (_ & _ & H).
  destruct H as (row & Hrun & _ & Hu & Hid & _ & _ & Ha & _); [reflexivity|].
  exists row. split_and!; [exact Hrun | exact Hu | exact Hid | exact Ha].
Defined.

(** ** Changing and deleting a platform of one's own *)

Lemma head_with_key {A} (key : A -> nat) (l : list A) p :
  NoDup (key <$> l) -> p ∈ l ->
  head (filter (fun x => Z.of_nat (key x) = Z.of_nat (key p)) l) = Some p.
Proof.
  intros Hnd Hp.
  destruct (head (filter (fun x => Z.of_nat (key x) = Z.of_nat (key p)) l))
    as [p0|] eqn:Hhead.
  - destruct (first_with_key key l _ p0 Hnd Hhead) as (_ & _ & Huniq).
    rewrite (Huniq p Hp eq_refl). reflexivity.
  - exfalso. exact (head_filter_none _ l Hhead p Hp eq_refl).
Qed.

(** X18: PUT /api/platforms/:id on a platform of the requester (ids
    being distinct and no statement refused).  A body that the schema
    refuses is answered 400 with the issues, and no table changes.
    Otherwise the answer is 200 with the row as updated: it has the
    name and the platform id of the body, each token of the body or, for
    a token the body leaves out, the one it had; its id, owner, expiry,
    metadata and creation time are kept, and its update time is that of
    the request.  In the table that row is replaced in place and every
    other row is as it was. *)
Theorem put_platform_updates_own_row e s u body p :
  NoDup (Platform.id <$> platforms (tables s)) ->
  p ∈ platforms (tables s) -> Platform.userId p = u ->
  (forall X (c : Stmt X) n, refuses e n c = false) ->
  let rs := putPlatform u (Some (Z.of_nat (Platform.id p))) body e s in
  match platformFormSchema body with
  | inl issues =>
      fst rs = Returned {| code := 400; body := ValidationFailed issues |} /\
      tables (snd rs) = tables s
  | inr data =>
      let p' := {|
        Platform.id := Platform.id p;
        Platform.userId := Platform.userId p;
        Platform.platformName := formPlatformName data;
        Platform.platformId := formPlatformId data;
        Platform.accessToken :=
          match formAccessToken data with
          | Some token => Some token
          | None => Platform.accessToken p
          end;
        Platform.refreshToken :=
          match formRefreshToken data with
          | Some token => Some token
          | None => Platform.refreshToken p
          end;
        Platform.tokenExpiry := Platform.tokenExpiry p;
        Platform.metadata := Platform.metadata p;
        Platform.createdAt := Platform.createdAt p;
        Platform.updatedAt :=
          Some (clock (core s) + elapsed (oracle e) (steps (core s)))%N |} in
      fst rs = Returned {| code := 200; body := PlatformJson (Some p') |} /\
      platforms (tables (snd rs)) =
        (fun q => if decide (Platform.id q = Platform.id p) then p' else q)
          <$> platforms (tables s)
  end.
Proof.
  intros Hnd Hp Hu Hex. cbn zeta.
  pose proof (head_with_key Platform.id _ p Hnd Hp) as Hhead.
  assert (Hstart : forall Q,
            (forall s1, tables s1 = tables s ->
               clock (core s1) = (clock (core s) + elapsed (oracle e) (steps (core s)))%N ->
               wp (parse platformFormSchema body) e
                 (fun o s' =>
                    match o with
                    | Returned validatedData =>
                        wp (andThen
                              (updatePlatform (Z.of_nat (Platform.id p))
                                 {| PartialPlatform.userId := None;
                                    PartialPlatform.platformName :=
                                      Some (formPlatformName validatedData);
                                    PartialPlatform.platformId :=
                                      Some (formPlatformId validatedData);
                                    PartialPlatform.accessToken :=
                                      Some <$> formAccessToken validatedData;
                                    PartialPlatform.refreshToken :=
                                      Some <$> formRefreshToken validatedData;
                                    PartialPlatform.tokenExpiry := None;
                                    PartialPlatform.metadata := None |})
                              (fun updatedPlatform =>
                                 respond 200 (PlatformJson updatedPlatform))) e
                          (fun o' s'' =>
                             match o' with
                             | Returned a => Q (Returned a) s''
                             | Raised f =>
                                 wp (invalidOrFailed "Error updating platform:"
                                       "Failed to update platform" f) e Q s''
                             end) s'
                    | Raised f =>
                        wp (invalidOrFailed "Error updating platform:"
                              "Failed to update platform" f) e Q s'
                    end) s1) ->
            wp (putPlatform u (Some (Z.of_nat (Platform.id p))) body) e Q s).
  { intros Q HQ. unfold putPlatform, getPlatform.
    apply wp_catch, wp_andThen, wp_andThen.
    apply wp_query_executed; [apply Hex | | intros Hperf; cbn in Hperf; discriminate].
    intros rows s1 Hperf. cbn in Hperf. injection Hperf as <- <-.
    apply wp_ret. unfold tables in Hhead. rewrite Hhead.
    rewrite Hu, String.eqb_refl. cbn [negb].
    apply wp_andThen. apply HQ; reflexivity. }
  destruct (platformFormSchema body) as [issues|data] eqn:Hschema.
  - wp_start. apply Hstart. intros s1 Ht Hc. apply wp_parse.
    + intros data Hd. congruence.
    + intros issues' Hi. assert (issues' = issues) by congruence. subst issues'.
      split; [reflexivity | exact Ht].
  - cbn zeta. wp_start. apply Hstart. intros s1 Ht Hc. apply wp_parse;
      [|intros issues Hi; congruence].
    intros data' Hd. assert (data' = data) by congruence. subst data'.
    unfold updatePlatform. apply wp_andThen, wp_andThen, wp_today. cbn beta iota.
    apply wp_andThen, wp_query_executed;
      [apply Hex | | intros Hperf; cbn in Hperf; discriminate].
    intros rows s2 Hperf. cbn in Hperf. injection Hperf as <- <-.
    apply wp_ret, wp_respond.
    unfold tables in *. cbn [core setCore tick db setTables setDb platforms setPlatforms].
    rewrite Ht, Hc.
    assert (Hhd : forall (f : Platform.t -> Platform.t),
               head (f <$> filter (fun q => Z.of_nat (Platform.id q) = Z.of_nat (Platform.id p))
                             (platforms (db (core s)))) = Some (f p)).
    { intros f. destruct (filter _ _) as [|q l]; [discriminate|].
      cbn in Hhead. injection Hhead as ->. reflexivity. }
    rewrite Hhd. split.
    + f_equal. f_equal. f_equal. f_equal. unfold updatedPlatform. cbn.
      destruct (formAccessToken data), (formRefreshToken data); reflexivity.
    + unfold updateWhere. apply list_fmap_ext. intros i q Hq.
      apply list_elem_of_lookup_2 in Hq.
      destruct (decide (Z.of_nat (Platform.id q) = _)) as [Hid|Hid];
        destruct (decide (Platform.id q = Platform.id p)) as [Hqp|Hqp]; try lia.
      * assert (q = p).
        { destruct (first_with_key Platform.id _ _ p Hnd Hhead) as (_ & _ & Huniq).
          apply Huniq; assumption. }
        subst q. unfold updatedPlatform. cbn.
        destruct (formAccessToken data), (formRefreshToken data); reflexivity.
      * reflexivity.
Qed.

(** X19: DELETE /api/platforms/:id on a platform of the requester (ids
    being distinct and within the range of their column, the select
    executing and the outside not failing the delete).  If a review
    names the platform, the delete is refused: the answer is 500 and the
    tables are as they were.  Otherwise the answer is 204; the table
    then holds exactly the rows it held except that one, and if it was
    the only platform of the account, the account has no platform left,
    and a pipeline run for it then writes no review. *)
Theorem delete_platform_removes_own_row e s u p :
  NoDup (Platform.id <$> platforms (tables s)) ->
  p ∈ platforms (tables s) -> Platform.userId p = u ->
  (Z.of_nat (Platform.id p) <= 2147483647)%Z ->
  refuses e (steps (core s)) (SelectPlatformById (Z.of_nat (Platform.id p))) = false ->
  rejects (oracle e) (S (steps (core s)))
    (DeletePlatformRows (Z.of_nat (Platform.id p))) = false ->
  let rs := deletePlatformRoute u (Some (Z.of_nat (Platform.id p))) e s in
  if referenced (Z.of_nat (Platform.id p)) (tables s)
  then
    fst rs = Returned {| code := 500; body := Message "Failed to delete platform" |} /\
    tables (snd rs) = tables s
  else
    fst rs = Returned {| code := 204; body := NoBody |} /\
    platforms (tables (snd rs)) =
      filter (fun q => Platform.id q <> Platform.id p) (platforms (tables s)) /\
    (p ∉ platforms (tables (snd rs))) /\
    (forall q, q ∈ platforms (tables (snd rs)) <-> q ∈ platforms (tables s) /\ q <> p) /\
    ((forall q, q ∈ platforms (tables s) -> Platform.userId q = u -> q = p) ->
     noPlatformConnected u (core (snd rs)) /\
     forall o tone lang,
       reviews (db (snd (run o (processUserReviews u tone lang) (core (snd rs)))))
         = reviews (tables (snd rs))).
Proof.
  intros Hnd Hp Hu Hrange Hsel Hdel. cbn zeta.
  pose proof (head_with_key Platform.id _ p Hnd Hp) as Hhead.
  assert (Hint : int4 (Z.of_nat (Platform.id p)) = true).
  { unfold int4. apply andb_true_intro. split; apply Z.leb_le; lia. }
  assert (Hsame : filter (fun q => Z.of_nat (Platform.id q) <> Z.of_nat (Platform.id p))
                    (platforms (tables s))
                  = filter (fun q => Platform.id q <> Platform.id p) (platforms (tables s))).
  { apply list_filter_iff. intros q. split; intros Hne Heq; apply Hne; [congruence | lia]. }
  destruct (referenced (Z.of_nat (Platform.id p)) (tables s)) eqn:Href.
  { assert (Hrun : exists s',
              deletePlatformRoute u (Some (Z.of_nat (Platform.id p))) e s =
                (Returned {| code := 500; body := Message "Failed to delete platform" |}, s')
              /\ tables s' = tables s).
    { unfold deletePlatformRoute, getPlatform, catch, andThen at 1 2.
      unfold andThen at 1. unfold query. cbn zeta. rewrite Hsel.
      cbn [performStmt fst snd ret]. unfold tables in *. cbn [core setCore tick db].
      rewrite Hhead. cbn beta iota. rewrite Hu, String.eqb_refl. cbn [negb].
      unfold andThen, call, deletePlatform.
      rewrite run_bind, run_await, exec_violated
        by (cbn [violates tick db core setCore]; rewrite Hint, Href; reflexivity).
      cbn beta iota. eexists. split; reflexivity. }
    destruct Hrun as (s' & -> & Hs'). split; [reflexivity | exact Hs']. }
  assert (Hrun : deletePlatformRoute u (Some (Z.of_nat (Platform.id p))) e s =
            (Returned {| code := 204; body := NoBody |},
             setCore
               (setDb (setPlatforms
                         (filter (fun q => Platform.id q <> Platform.id p)
                            (platforms (tables s))) (tables s))
                  (tick (oracle e) (tick (oracle e) (core s)))) s)).
  { unfold deletePlatformRoute, getPlatform, catch, andThen at 1 2.
    unfold andThen at 1. unfold query. cbn zeta. rewrite Hsel.
    cbn [performStmt fst snd ret]. unfold tables in *. cbn [core setCore tick db].
    rewrite Hhead. cbn beta iota. rewrite Hu, String.eqb_refl. cbn [negb].
    unfold andThen, call, deletePlatform.
    rewrite run_bind, run_await, exec_performed
      by (cbn [violates tick db steps core setCore]; rewrite Hint, Href; exact Hdel).
    cbn beta iota. rewrite run_ret. cbn [perform fst snd tick db core setCore].
    rewrite Hsame. reflexivity. }
  rewrite Hrun. cbn [fst snd]. unfold tables. cbn [core setCore db setDb platforms setPlatforms].
  assert (Hiff : forall q, q ∈ filter (fun q => Platform.id q <> Platform.id p)
                             (platforms (db (core s)))
                 <-> q ∈ platforms (db (core s)) /\ q <> p).
  { intros q. rewrite list_elem_of_filter. split.
    - intros [Hid Hq]. split; [exact Hq|]. intros ->. contradiction Hid. reflexivity.
    - intros [Hq Hne]. split; [|exact Hq]. intros Hid. apply Hne.
      destruct (first_with_key Platform.id _ _ p Hnd Hhead) as (_ & _ & Huniq).
      apply Huniq; [exact Hq | congruence]. }
  split_and!.
  - reflexivity.
  - reflexivity.
  - intros Hin. apply Hiff in Hin as [_ Hne]. contradiction Hne. reflexivity.
  - exact Hiff.
  - intros Honly.
    assert (Hnone : noPlatformConnected u
              (setDb (setPlatforms
                        (filter (fun q => Platform.id q <> Platform.id p)
                           (platforms (db (core s)))) (db (core s)))
                 (tick (oracle e) (tick (oracle e) (core s))))).
    { intros q Hq Hqu. cbn in Hq. apply Hiff in Hq as [Hq Hne].
      apply Hne, Honly; assumption. }
    split; [exact Hnone|]. intros o tone lang.
    apply processUserReviews_early_exit. left. exact Hnone.
Qed.

Lemma put_platform_updates_own_row_witness :
  exists row,
    fst (putPlatform "u1" (Some 1%Z) platformBody quiet (serverOver mixedWorld))
      = Returned {| code := 200; body := PlatformJson (Some row) |} /\
    Platform.platformName row = "Yelp" /\ Platform.userId row = "u1" /\
    Platform.id row = 1.
Proof.
  assert (Hnd : NoDup (Platform.id <$> platforms (tables (serverOver mixedWorld)))).
  { apply (bool_decide_unpack _). vm_compute. exact I. }
  assert (Hin : samplePlatform ∈ platforms (tables (serverOver mixedWorld))) by left.
  pose proof (put_platform_updates_own_row quiet (serverOver mixedWorld) "u1"
                platformBody samplePlatform Hnd Hin eq_refl
                (fun X c n => eq_refl)) as [Hrun _].
  eexists. split; [exact Hrun|]. split_and!; reflexivity.
Defined.

Lemma delete_platform_removes_own_row_witness :
  let rs := deletePlatformRoute "u1" (Some 1%Z) quiet (serverOver sampleWorld) in
  fst rs = Returned {| code := 204; body := NoBody |} /\
  platforms (tables (snd rs)) = [] /\
  noPlatformConnected "u1" (core (snd rs)).
Proof.
  cbn zeta.
  assert (Hnd : NoDup (Platform.id <$> platforms (tables (serverOver sampleWorld)))).
  { apply (bool_decide_unpack _). vm_compute. exact I. }
  assert (Hin : samplePlatform ∈ platforms (tables (serverOver sampleWorld))) by left.
  assert (Hrange : (Z.of_nat (Platform.id samplePlatform) <= 2147483647)%Z)
    by (vm_compute; discriminate).
  destruct (delete_platform_removes_own_row quiet (serverOver sampleWorld) "u1"
              samplePlatform Hnd Hin eq_refl Hrange eq_refl eq_refl)
    as (Hrun & Hrows & _ & _ & Honly).
  split_and!; [exact Hrun | exact Hrows |].
  apply Honly. intros q Hq _. apply list_elem_of_singleton in Hq. exact Hq.
Defined.

(** ** Variations of a response *)

Lemma generateResponseVariations_run e s text rating tone lang count :
  let c := VariationsCompletion text rating tone lang count in
  let s1 := setCore (tick (oracle e) (core s)) s in
  generateResponseVariations text rating tone lang count e s =
  if refuses e (steps (core s)) c
  then (Raised (Js variationsFailed),
        logError "Error generating response variations from OpenAI:" (Js Rejected) s1)
  else
    match trim <$> completion (oracle e) (steps (core s)) with
    | None | Some EmptyString => (Returned [JString defaultResponse], s1)
    | Some content =>
        match JSON_parse e content with
        | Some (JObject o) =>
            (Returned match property "responses" o with
                      | Some (JArray (r :: rest)) => r :: rest
                      | _ => [JString content]
                      end, s1)
        | Some JNull =>
            (Returned [JString content],
             logError "Error parsing OpenAI JSON response:" (Js TypeError) s1)
        | Some _ => (Returned [JString content], s1)
        | None =>
            (Returned [JString content],
             logError "Error parsing OpenAI JSON response:" SyntaxError s1)
        end
    end.
Proof.
  cbn zeta. unfold generateResponseVariations, catch, andThen at 1, query. cbn zeta.
  destruct (refuses e _ _); [reflexivity|]. cbn [performStmt fst snd].
  destruct (trim <$> completion (oracle e) (steps (core s))) as [[|a content]|];
    [reflexivity| |reflexivity].
  unfold catch, andThen at 1. 
  destruct (JSON_parse e (String a content)) as [parsed|]; [|reflexivity].
  destruct parsed; try reflexivity.
  cbn. destruct (property "responses" properties) as [[]|]; try reflexivity.
  destruct items; reflexivity.
Qed.

(** X20: [generateResponseVariations] has no fallback: when its chat
    completion fails it raises "Failed to generate review response
    variations" (where [generateResponse] would answer with a template).
    When the completion executes it returns a list that is never empty:
    the standard sentence alone if the content is missing or blank; the
    array under "responses" if the content parses to an object that has
    one and it is not empty; and otherwise the content itself, alone
    (also when it is not JSON at all).  It never writes to a table. *)
Theorem variations_fail_without_fallback e s text rating tone lang count :
  let rs := generateResponseVariations text rating tone lang count e s in
  let c := VariationsCompletion text rating tone lang count in
  (refuses e (steps (core s)) c = true ->
     fst rs = Raised (Js variationsFailed)) /\
  (refuses e (steps (core s)) c = false ->
     exists l,
       fst rs = Returned l /\ l <> [] /\
       l = match trim <$> completion (oracle e) (steps (core s)) with
           | None | Some EmptyString => [JString defaultResponse]
           | Some content =>
               match JSON_parse e content with
               | Some (JObject o) =>
                   match property "responses" o with
                   | Some (JArray (r :: rest)) => r :: rest
                   | _ => [JString content]
                   end
               | _ => [JString content]
               end
           end) /\
  tables (snd rs) = tables s.
Proof.
  cbn zeta. rewrite generateResponseVariations_run. cbn zeta.
  destruct (refuses e _ _).
  - split_and!; [reflexivity | discriminate | reflexivity].
  - split; [discriminate|].
    destruct (trim <$> completion (oracle e) (steps (core s))) as [[|a content]|].
    + split; [|reflexivity]. intros _. eexists. split_and!; [reflexivity | discriminate | reflexivity].
    + destruct (JSON_parse e (String a content)) as [parsed|].
      * destruct parsed; (split; [|reflexivity]); intros _; eexists;
          (split_and!; [reflexivity | | reflexivity]); try discriminate.
        destruct (property "responses" properties) as [[]|]; try discriminate.
        destruct items; discriminate.
      * split; [|reflexivity]. intros _. eexists.
        split_and!; [reflexivity | discriminate | reflexivity].
    + split; [|reflexivity]. intros _. eexists. split_and!; [reflexivity | discriminate | reflexivity].
Qed.

Lemma variations_fail_without_fallback_witness :
  fst (generateResponseVariations "Great!" (integer 5) "Friendly" "English" 3
         variationsDown (serverOver sampleWorld))
    = Raised (Js (Error "Failed to generate review response variations")) /\
  fst (generateResponseVariations "Great!" (integer 5) "Friendly" "English" 3
         quiet (serverOver sampleWorld))
    = Returned [JString "Thank you!"] /\
  fst (generateResponseVariations "Great!" (integer 5) "Friendly" "English" 3
         blankEnv (serverOver sampleWorld))
    = Returned [JString defaultResponse].
Proof.
  destruct (variations_fail_without_fallback variationsDown (serverOver sampleWorld)
              "Great!" (integer 5) "Friendly" "English" 3) as (H1 & _ & _).
  destruct (variations_fail_without_fallback quiet (serverOver sampleWorld)
              "Great!" (integer 5) "Friendly" "English" 3) as (_ & H2 & _).
  destruct (variations_fail_without_fallback blankEnv (serverOver sampleWorld)
              "Great!" (integer 5) "Friendly" "English" 3) as (_ & H3 & _).
  destruct (H2 eq_refl) as (l & Hl & _ & ->).
  destruct (H3 eq_refl) as (l' & Hl' & _ & ->).
  split_and!; [exact (H1 eq_refl) | exact Hl | exact Hl'].
Defined.

(** ** Users *)

Lemma updateWhere_fmap_key {A B} (P : A -> Prop) `{!forall x, Decision (P x)}
    (f : A -> A) (key : A -> B) (l : list A) :
  (forall x, P x -> key (f x) = key x) ->
  key <$> updateWhere P f l = key <$> l.
Proof.
  intros Hkey. unfold updateWhere. rewrite <- list_fmap_compose.
  apply list_fmap_ext. intros i x _. cbn. destruct (decide (P x)); auto.
Qed.

(** X21: [upsertUser] on a users table without two rows of one id (its
    statement executing) keeps it so, and returns a row with the id and
    the username given.  When no row has the id, that row is new and
    appended, the columns left out taking their defaults; when one has,
    that row is the old one with the keys given written over it (a key
    left out keeps what the row had), in place, the other rows staying.
    [getUser] with that id then returns that row.  No other table
    changes. *)
Theorem upsertUser_inserts_or_updates e s v :
  refuses e (steps (core s)) (UpsertUserRow v) = false ->
  NoDup (User.id <$> users s) ->
  let rs := upsertUser v e s in
  let now := (clock (core s) + elapsed (oracle e) (steps (core s)))%N in
  NoDup (User.id <$> users (snd rs)) /\
  tables (snd rs) = tables s /\
  exists row,
    fst rs = Returned (Some row) /\
    User.id row = UpsertUser.id v /\
    User.username row = UpsertUser.username v /\
    match head (filter (fun x => User.id x = UpsertUser.id v) (users s)) with
    | None =>
        row = insertedUser v now /\ users (snd rs) = users s ++ [row]
    | Some old =>
        row = conflictingUser v old /\
        User.id <$> users (snd rs) = User.id <$> users s /\
        (forall x, x ∈ users s -> User.id x <> UpsertUser.id v -> x ∈ users (snd rs))
    end /\
    forall e', refuses e' (steps (core (snd rs))) (SelectUserById (UpsertUser.id v)) = false ->
      fst (getUser (UpsertUser.id v) e' (snd rs)) = Returned (Some row).
Proof.
  intros Hex Hnd. cbn zeta.
  unfold upsertUser, andThen, query. cbn zeta. rewrite Hex.
  cbn [performStmt fst snd users setCore].
  set (sel := fun x : User.t => User.id x = UpsertUser.id v).
  destruct (filter sel (users s)) as [|old rest] eqn:Hf.
  - cbn [fst snd ret head users setUsers setCore tables core db].
    assert (Hnone : forall x, x ∈ users s -> User.id x <> UpsertUser.id v).
    { intros x Hx Hid. eapply (filter_nil_not_elem_of _ _ x Hf); eauto. }
    split_and!.
    + rewrite fmap_app. apply NoDup_app. split; [exact Hnd|]. split.
      * intros i Hi Hi'. cbn in Hi'. apply list_elem_of_singleton in Hi'. subst i.
        apply list_elem_of_fmap in Hi as (x & Hid & Hx). exact (Hnone x Hx (eq_sym Hid)).
      * cbn. apply NoDup_singleton.
    + reflexivity.
    + eexists. split; [reflexivity|]. split_and!; try reflexivity.
      intros e' Hex'. unfold getUser, andThen, query. cbn zeta.
      cbn [core setUsers setCore steps tick] in Hex' |- *. rewrite Hex'.
      cbn [performStmt fst snd users setUsers setCore ret].
      rewrite filter_app. fold sel. rewrite Hf.
      rewrite filter_cons_True by reflexivity. reflexivity.
  - cbn [fst snd ret head users setUsers setCore tables core db fmap list_fmap].
    assert (Hold : old ∈ users s /\ User.id old = UpsertUser.id v).
    { assert (H : old ∈ filter sel (users s)) by (rewrite Hf; left).
      apply list_elem_of_filter in H as [H1 H2]. split; assumption. }
    destruct Hold as [Hold Hoid].
    assert (Hkeys : User.id <$> updateWhere sel (conflictingUser v) (users s)
                    = User.id <$> users s).
    { apply updateWhere_fmap_key. intros x Hx. cbn. symmetry. exact Hx. }
    split_and!.
    + rewrite Hkeys. exact Hnd.
    + reflexivity.
    + eexists. split; [reflexivity|]. split_and!; try reflexivity.
      * exact Hkeys.
      * intros x Hx Hne. apply elem_of_updateWhere. exists x. split; [exact Hx|].
        rewrite decide_False by exact Hne. reflexivity.
      * intros e' Hex'. unfold getUser, andThen, query. cbn zeta.
      cbn [core setUsers setCore steps tick] in Hex' |- *. rewrite Hex'.
        cbn [performStmt fst snd users setUsers setCore ret].
        assert (Hfirst : forall l, filter sel l = old :: rest ->
                  head (filter sel (updateWhere sel (conflictingUser v) l))
                  = Some (conflictingUser v old)).
        { clear. intros l. induction l as [|x l IH]; [discriminate|].
          unfold updateWhere. rewrite fmap_cons, (filter_cons sel x).
          destruct (decide (sel x)) as [Hx|Hx].
          - intros [= -> _]. rewrite filter_cons_True by reflexivity. reflexivity.
          - intros Hl. rewrite filter_cons_False by exact Hx. apply IH, Hl. }
        fold sel. rewrite (Hfirst (users s) Hf). reflexivity.
Qed.

Lemma upsertUser_inserts_or_updates_witness :
  exists row,
    fst (upsertUser renamed quiet withAlice) = Returned (Some row) /\
    User.username row = "alice2" /\ User.email row = Some "alice@example.com" /\
    users (snd (upsertUser renamed quiet withAlice)) = [row].
Proof.
  assert (Hnd : NoDup (User.id <$> users withAlice)).
  { apply (bool_decide_unpack _). vm_compute. exact I. }
  destruct (upsertUser_inserts_or_updates quiet withAlice renamed eq_refl Hnd)
    as (_ & _ & row & Hrun & _ & Hname & (Hrow & _) & _).
  exists row. split; [exact Hrun|]. split; [exact Hname|].
  rewrite Hrow. split; reflexivity.
Defined.
